(** * Past-paper walkthrough engine (pastpaper_handler.py)

    A shallow embedding of the three classes of [pastpaper_handler.py]:

    - [PastPaperSession]: the per-conversation state and its methods;
    - [PastPaperProcessor]: question extraction and intent parsing;
    - [EnhancedPastPaperChain]: the session registry and the request handler.

    Conventions of the embedding.

    - Python [int] is [Z]; [len] returns a [Z].
    - Python [str] is [string].  The character classes of [re] and of
      [str.strip]/[str.lower]/[str.upper] are given for ASCII text
      (code points below 128), where they are exact, and so is [len]; a
      character above 127 is treated as an ordinary symbol.  The
      statements about what the patterns find in a text carry the premise
      that the text is ASCII ([Py.isascii]).
    - [int] raises [ValueError] on more than 4300 digits
      ([Py.int_max_str_digits]), and [str] on an integer of as many.  The
      embedding gives the value of [int] for every run of digits; the
      statements about what is read from a text carry the premise that its
      runs of digits are within the limit ([numbers_within_limit]), where
      [int] returns.
    - [Dict[int, str]] is [gmap Z string]; the session registry
      [self.sessions] is [gmap string PastPaperSession].
    - The language model and the vector store are outside the program: they
      are oracles, parameters of the handler.  A call to the model returns a
      text or raises; every call is appended to a log.
    - A Python exception is a value [Raise e] next to the state reached when
      it was raised.
    - No object is shared between two sessions: every session is made by
      [PastPaperSession()], whose fields come from default factories, and
      the list given to [start_paper] is the fresh list that
      [extract_questions] returns.  A session is therefore a value, and the
      in-place updates of the session object are updates of the entry of
      the registry. *)

From Stdlib Require Import ZArith Ascii String List Lia Bool.
From Stdlib Require Import Sorted Permutation DecimalString DecimalZ DecimalPos.
From stdpp Require Import base option list gmap strings.

Local Open Scope Z_scope.

(* ===================================================================== *)
(** * Python values                                                       *)
(* ===================================================================== *)

Module Py.

(** [len(l)] *)
Definition len {A} (l : list A) : Z := Z.of_nat (length l).

(** [len(s)] for a [str] *)
Definition slen (s : string) : Z := Z.of_nat (String.length s).

(** A slice bound as [list.__getitem__] adjusts it: a negative bound counts
    from the end, and the result is clamped to [0 .. len]. *)
Definition clamp (n i : Z) : Z :=
  if i <? 0 then Z.max (i + n) 0 else Z.min i n.

(** [l[start:stop]] *)
Definition slice {A} (l : list A) (start stop : Z) : list A :=
  let n := len l in
  let lo := clamp n start in
  let hi := clamp n stop in
  take (Z.to_nat (hi - lo)) (drop (Z.to_nat lo) l).

(** [l[i]]: [None] stands for [IndexError]. *)
Definition index {A} (l : list A) (i : Z) : option A :=
  let n := len l in
  if (i <? - n) || (n <=? i) then None
  else if i <? 0 then l !! Z.to_nat (i + n) else l !! Z.to_nat i.

(** [str.isspace] on one ASCII character, which is also [\s] of [re]:
    TAB, LF, VT, FF, CR, the four separators FS GS RS US, and the space. *)
Definition is_space (c : ascii) : bool :=
  let n := N_of_ascii c in
  (((9 <=? n) && (n <=? 13)) || ((28 <=? n) && (n <=? 32)))%N.

(** [\d] on ASCII *)
Definition is_digit (c : ascii) : bool :=
  let n := N_of_ascii c in ((48 <=? n) && (n <=? 57))%N.

(** [s.isascii()]: every character is below 128.  On such a text the white
    space and the digits of Python are the ones of [is_space] and
    [is_digit], the letters are the ones of [is_upper] and [is_lower], and
    the length is the number of characters. *)
Fixpoint isascii (s : string) : bool :=
  match s with
  | EmptyString => true
  | String c r => (N_of_ascii c <? 128)%N && isascii r
  end.

Definition is_upper (c : ascii) : bool :=
  let n := N_of_ascii c in ((65 <=? n) && (n <=? 90))%N.

Definition is_lower (c : ascii) : bool :=
  let n := N_of_ascii c in ((97 <=? n) && (n <=? 122))%N.

(** [\w] on ASCII: letters, digits and the underscore *)
Definition is_word (c : ascii) : bool :=
  is_upper c || is_lower c || is_digit c || (N_of_ascii c =? 95)%N.

Definition lower_char (c : ascii) : ascii :=
  if is_upper c then ascii_of_N (N_of_ascii c + 32) else c.

Definition upper_char (c : ascii) : ascii :=
  if is_lower c then ascii_of_N (N_of_ascii c - 32) else c.

Fixpoint smap (f : ascii -> ascii) (s : string) : string :=
  match s with
  | EmptyString => EmptyString
  | String c r => String (f c) (smap f r)
  end.

(** [s.lower()] and [s.upper()] *)
Definition lower : string -> string := smap lower_char.
Definition upper : string -> string := smap upper_char.

(** [s.lstrip()] *)
Fixpoint lstrip (s : string) : string :=
  match s with
  | EmptyString => EmptyString
  | String c r => if is_space c then lstrip r else s
  end.

(** [s.rstrip()] *)
Fixpoint rstrip (s : string) : string :=
  match s with
  | EmptyString => EmptyString
  | String c r =>
      match rstrip r with
      | EmptyString => if is_space c then EmptyString else String c EmptyString
      | r' => String c r'
      end
  end.

(** [s.strip()] *)
Definition strip (s : string) : string := rstrip (lstrip s).

(** The truth value of a [str]: [bool(s)] *)
Definition truthy (s : string) : bool :=
  match s with EmptyString => false | _ => true end.

(** The value of one decimal digit *)
Definition digit_val (c : ascii) : Z := Z.of_N (N_of_ascii c) - 48.

(** [sys.int_info.default_max_str_digits]: [int(s)] raises [ValueError]
    when [s] has more digits, and so does [str(n)] when [n] has. *)
Definition int_max_str_digits : Z := 4300.


(** [int(s)] for a string of decimal digits, as [\d+] captures it: the
    value that [int] returns when it does ([int_returns]). *)
Fixpoint int_acc (acc : Z) (s : string) : Z :=
  match s with
  | EmptyString => acc
  | String c r => int_acc (10 * acc + digit_val c) r
  end.

Definition int (s : string) : Z := int_acc 0 s.

(** [str(n)], as the f-string [{n}] formats an [int]: decimal, no leading
    zero, a minus sign for a negative number. *)
Definition str (n : Z) : string := NilZero.string_of_int (Z.to_int n).

(** [sub in s] *)
Fixpoint contains (sub s : string) : bool :=
  (String.prefix sub s)
  || match s with String _ r => contains sub r | EmptyString => false end.

(** [sep.join(l)] *)
Fixpoint join (sep : string) (l : list string) : string :=
  match l with
  | [] => EmptyString
  | [x] => x
  | x :: r => x +:+ sep +:+ join sep r
  end.

(** [sorted(l, key=key)]: the sort of Python is stable, so its result is the
    one of insertion sort that puts an element before the first element of
    the sorted tail whose key is not smaller. *)
Section Sorted.
Context {A : Type} (key : A -> Z).

Fixpoint insert_by (x : A) (l : list A) : list A :=
  match l with
  | [] => [x]
  | y :: r => if key x <=? key y then x :: l else y :: insert_by x r
  end.

Fixpoint sorted_by (l : list A) : list A :=
  match l with
  | [] => []
  | x :: r => insert_by x (sorted_by r)
  end.
End Sorted.

(** [enumerate(l)], from [i] *)
Fixpoint enumerate_from {A} (i : Z) (l : list A) : list (Z * A) :=
  match l with
  | [] => []
  | x :: r => (i, x) :: enumerate_from (i + 1) r
  end.

Definition enumerate {A} (l : list A) : list (Z * A) := enumerate_from 0 l.

End Py.

(* ===================================================================== *)
(** * PastPaperSession                                                    *)
(* ===================================================================== *)

(** The dataclass, field by field. *)
Record PastPaperSession := mkSession {
  unit_code : option string;
  year : option string;
  current_batch : Z;
  questions : list string;
  user_answers : gmap Z string;
  model_answers : gmap Z string;
  is_active : bool;
  total_questions : Z
}.

(** [PastPaperSession()]: the defaults of the dataclass. *)
Definition new_session : PastPaperSession :=
  {| unit_code := None; year := None; current_batch := 0; questions := [];
     user_answers := ∅; model_answers := ∅; is_active := false;
     total_questions := 0 |}.

(** [reset]: [self.__init__()] puts every field back to its default. *)
Definition reset (s : PastPaperSession) : PastPaperSession := new_session.

(** [start_paper(unit_code, year, questions)] *)
Definition start_paper (uc yr : string) (qs : list string)
    (s : PastPaperSession) : PastPaperSession :=
  {| unit_code := Some uc; year := Some yr; current_batch := 0;
     questions := qs; user_answers := ∅; model_answers := ∅;
     is_active := true; total_questions := Py.len qs |}.

(** [get_next_batch(batch_size)]: the returned pair and the session after
    the call. *)
Definition get_next_batch (batch_size : Z) (s : PastPaperSession)
    : (list string * bool) * PastPaperSession :=
  let start_idx := current_batch s * batch_size in
  let end_idx := Z.min (start_idx + batch_size) (total_questions s) in
  let batch := Py.slice (questions s) start_idx end_idx in
  let has_more := end_idx <? total_questions s in
  ((batch, has_more),
   {| unit_code := unit_code s; year := year s;
      current_batch := current_batch s + 1;
      questions := questions s; user_answers := user_answers s;
      model_answers := model_answers s; is_active := is_active s;
      total_questions := total_questions s |}).

(** The default of the parameter [batch_size]. *)
Definition default_batch_size : Z := 5.

(** [get_current_progress]: the two numbers of [Questions {shown}/{total}]. *)
Definition get_current_progress (s : PastPaperSession) : Z * Z :=
  (Z.min (current_batch s * 5) (total_questions s), total_questions s).

(** [save_answer(question_num, answer)] *)
Definition save_answer (question_num : Z) (answer : string)
    (s : PastPaperSession) : PastPaperSession :=
  {| unit_code := unit_code s; year := year s;
     current_batch := current_batch s;
     questions := questions s;
     user_answers := <[question_num := answer]> (user_answers s);
     model_answers := model_answers s; is_active := is_active s;
     total_questions := total_questions s |}.

(* ===================================================================== *)
(** * PastPaperProcessor                                                  *)
(* ===================================================================== *)

Module Re.

Definition newline : ascii := ascii_of_N 10.

Definition is_newline (c : ascii) : bool := (N_of_ascii c =? 10)%N.

Definition eqc (a b : ascii) : bool := (N_of_ascii a =? N_of_ascii b)%N.

(** A literal at the head of [s]: the rest of [s] after it. *)
Fixpoint lit (p s : string) : option string :=
  match p, s with
  | EmptyString, _ => Some s
  | String a p', String b s' => if eqc a b then lit p' s' else None
  | String _ _, EmptyString => None
  end.

(** The same under [re.IGNORECASE]. *)
Fixpoint lit_ci (p s : string) : option string :=
  match p, s with
  | EmptyString, _ => Some s
  | String a p', String b s' =>
      if eqc (Py.lower_char a) (Py.lower_char b) then lit_ci p' s' else None
  | String _ _, EmptyString => None
  end.

(** [\s*], greedy: the text after the longest run of white space. *)
Definition spaces : string -> string := Py.lstrip.

(** [\s+], greedy *)
Definition spaces1 (s : string) : option string :=
  match s with
  | String c r => if Py.is_space c then Some (spaces r) else None
  | EmptyString => None
  end.

(** [\d*], greedy: the digits and the text after them. *)
Fixpoint digits (s : string) : string * string :=
  match s with
  | String c r =>
      if Py.is_digit c then let '(d, t) := digits r in (String c d, t)
      else (EmptyString, s)
  | EmptyString => (EmptyString, EmptyString)
  end.

(** [\d+], greedy *)
Definition digits1 (s : string) : option (string * string) :=
  match digits s with
  | (String c d, t) => Some (String c d, t)
  | (EmptyString, _) => None
  end.

(** [.*] stops at a line feed: the rest of the line, and the text from the
    line feed on. *)
Fixpoint line (s : string) : string * string :=
  match s with
  | String c r =>
      if is_newline c then (EmptyString, s)
      else let '(l, t) := line r in (String c l, t)
  | EmptyString => (EmptyString, EmptyString)
  end.

End Re.

Module PastPaperProcessor.

(** ** The question pattern

    [question_pattern] is, under the flags [m] and [s],

    [^ \s* (?: Q (?:uestion)? \s* )? (?: \( (\d+) \) | (\d+) [\.:)] ) \s+
     (.*?) (?= MARKER | \Z )]

    (written here with blanks between its parts), where [MARKER] is the
    first line again, without groups.

    Backtracking leaves no choice in the marker, so it is read by one pass
    from left to right: the white space of the first [\s*] is followed by
    [Q], [(] or a digit, none of them white space; a [Q] cannot start the
    number, so the optional group is taken whenever a [Q] stands there, and
    so is [uestion] after it; the digits of [\d+] are followed by [)] or by
    a terminator, which is no digit; and what follows the marker, the lazy
    group with its lookahead, always matches, at the end of the input at the
    latest, so the last [\s+] keeps all the white space it can take. *)

(** [(?: Q (?:uestion)? \s* )?] *)
Definition q_prefix (s : string) : string :=
  match Re.lit "Q" s with
  | Some r =>
      Re.spaces (match Re.lit "uestion" r with Some r' => r' | None => r end)
  | None => s
  end.

(** [[\.:)]] *)
Definition is_terminator (c : ascii) : bool :=
  Re.eqc c "."%char || Re.eqc c ":"%char || Re.eqc c ")"%char.

(** [(?:\((\d+)\)|(\d+)[\.:)])]: the digits of group 1 or of group 2
    ([m.group(1) or m.group(2)]), and the text after the number. *)
Definition number (s : string) : option (string * string) :=
  match s with
  | String c r =>
      if Re.eqc c "("%char then
        match Re.digits1 r with
        | Some (d, String c' t) => if Re.eqc c' ")"%char then Some (d, t) else None
        | _ => None
        end
      else
        match Re.digits1 s with
        | Some (d, String c' t) => if is_terminator c' then Some (d, t) else None
        | _ => None
        end
  | EmptyString => None
  end.

(** The marker at the head of [s], which starts a line: the digits of the
    number, the text after the white space that ends the marker, and
    whether that text starts a line (the last character of the marker is a
    line feed). *)
Fixpoint ends_line (dflt : bool) (s : string) : bool :=
  match s with
  | String c r => if Py.is_space c then ends_line (Re.is_newline c) r else dflt
  | EmptyString => dflt
  end.

Definition marker (s : string) : option (string * string * bool) :=
  match number (q_prefix (Re.spaces s)) with
  | Some (d, t) =>
      match Re.spaces1 t with
      | Some b => Some (d, b, ends_line false t)
      | None => None
      end
  | None => None
  end.

Definition is_marker (s : string) : bool :=
  match marker s with Some _ => true | None => false end.

(** [(.*?) (?= MARKER | \Z )] from [s], where [bol] tells whether [s] starts a
    line: the shortest text up to a line start where a marker follows, or up
    to the end of the input.  Returns group 3 and the rest of the input. *)
Fixpoint body (bol : bool) (s : string) : string * string :=
  match s with
  | EmptyString => (EmptyString, EmptyString)
  | String c r =>
      if bol && is_marker s then (EmptyString, s)
      else let '(b, t) := body (Re.is_newline c) r in (String c b, t)
  end.

(** [question_pattern.finditer]: the matches from left to right, each as
    (digits of the number, group 3).  The search tries every position; the
    pattern starts with [^], so only a line start can match; after a match
    the search goes on where the match ended.  [fuel] bounds the number of
    positions tried. *)
Fixpoint finditer_from (fuel : nat) (bol : bool) (s : string)
    : list (string * string) :=
  match fuel with
  | O => []
  | S fuel' =>
      match s with
      | EmptyString => []
      | String c r =>
          match (if bol then marker s else None) with
          | Some (d, b, bol') =>
              let '(q, t) := body bol' b in
              (d, q) :: finditer_from fuel' true t
          | None => finditer_from fuel' (Re.is_newline c) r
          end
      end
  end.

Definition finditer (s : string) : list (string * string) :=
  finditer_from (S (String.length s)) true s.

(** [f"Question {q_num}: {q_text}"] *)
Definition render (q_num : Z) (q_text : string) : string :=
  "Question " +:+ Py.str q_num +:+ ": " +:+ q_text.

(** The loop over [matches]: the candidates that survive, as
    [(int(num_str), q_text)]. *)
Definition extracted (matches : list (string * string)) : list (Z * string) :=
  omap (fun m : string * string =>
          let q_text := Py.strip (snd m) in
          if Py.truthy q_text && (3 <? Py.slen q_text)
          then Some (Py.int (fst m), q_text) else None)
       matches.

(** The branch [if matches:] *)
Definition numbered (all_content : string) : list string :=
  let sorted_matches := Py.sorted_by fst (extracted (finditer all_content)) in
  map (fun p : Z * string => render (fst p) (snd p)) sorted_matches.

(** [re.split(r"\n\n+", s)]: [insep] tells whether the previous character
    belongs to a separator. *)
Fixpoint split_blank (insep : bool) (s : string) : list string :=
  match s with
  | EmptyString => [EmptyString]
  | String c r =>
      if insep && Re.is_newline c then split_blank true r
      else if Re.is_newline c &&
              match r with String c' _ => Re.is_newline c' | _ => false end
      then EmptyString :: split_blank true r
      else match split_blank false r with
           | p :: ps => String c p :: ps
           | [] => [String c EmptyString]
           end
  end.

(** [[s.strip() for s in re.split(...) if s.strip()]] *)
Definition sections (all_content : string) : list string :=
  omap (fun s => let t := Py.strip s in if Py.truthy t then Some t else None)
       (split_blank false all_content).

(** The fallback: the sections longer than 20 characters, each numbered by
    its position among all the sections. *)
Definition fallback (all_content : string) : list string :=
  omap (fun p : Z * string =>
          if 20 <? Py.slen (snd p) then Some (render (fst p + 1) (snd p))
          else None)
       (Py.enumerate (sections all_content)).

(** [extract_questions(documents)], a document being its [page_content]. *)
Definition extract_questions (documents : list string) : list string :=
  let all_content := Py.join (String Re.newline EmptyString) documents in
  let questions := numbered all_content in
  match questions with
  | [] => fallback all_content
  | _ => questions
  end.

(** ** Display of a batch *)

(** [re.sub(rf"^\s*Question\s+{q_index}:\s* ", "", raw)] (the pattern has
    no blank at its end): the pattern is anchored at the start of [raw] and
    cannot match the empty text, so it is removed there or nowhere.  The
    number is put into the pattern as [str] writes it. *)
Definition remove_heading (q_index : Z) (raw : string) : string :=
  match Re.lit "Question" (Re.spaces raw) with
  | Some r =>
      match Re.spaces1 r with
      | Some r1 =>
          match Re.lit (Py.str q_index) r1 with
          | Some r2 =>
              match Re.lit ":" r2 with
              | Some r3 => Re.spaces r3
              | None => raw
              end
          | None => raw
          end
      | None => raw
      end
  | None => raw
  end.

(** [answers and q_index in answers], then [answers[q_index]] *)
Definition answer_for (answers : option (gmap Z string)) (q_index : Z)
    : option string :=
  match answers with
  | Some m => m !! q_index
  | None => None
  end.

(** One block of [format_batch]. *)
Definition format_block (start_num : Z) (answers : option (gmap Z string))
    (item : Z * string) : string :=
  let q_index := start_num + fst item in
  let cleaned := Py.strip (remove_heading q_index (snd item)) in
  let block :=
    "**Question " +:+ Py.str q_index +:+ ":**" +:+ String Re.newline cleaned
    +:+ String Re.newline EmptyString in
  match answer_for answers q_index with
  | Some a =>
      block +:+ String Re.newline "**Answer:**" +:+ String Re.newline a
      +:+ String Re.newline EmptyString
  | None => block
  end.

(** The line between two blocks: a line feed, fifty dashes, a line feed. *)
Definition divider : string :=
  String Re.newline "--------------------------------------------------"
  +:+ String Re.newline EmptyString.

(** [format_batch(questions, start_num, answers)] *)
Definition format_batch (questions : list string) (start_num : Z)
    (answers : option (gmap Z string)) : string :=
  Py.join divider (map (format_block start_num answers) (Py.enumerate questions)).

(** ** Intent parsing *)

(** The dictionary [intent] has a fixed set of keys: a record. *)
Record intent := mkIntent {
  wants_next : bool;
  wants_clarification : bool;
  has_answer : bool;
  wants_stop : bool;
  question_num : option Z;
  answer_text : option string
}.

(** [re.search(p, s)] for a pattern [p] given as the test "matches at the
    head": some position of [s] matches. *)
Fixpoint search_any (p : string -> bool) (s : string) : bool :=
  p s || match s with String _ r => search_any p r | EmptyString => false end.

(** The same, returning the group of the leftmost match. *)
Fixpoint search_first {A} (p : string -> option A) (s : string) : option A :=
  match p s with
  | Some a => Some a
  | None =>
      match s with String _ r => search_first p r | EmptyString => None end
  end.

(** The first alternative of a list that matches. *)
Fixpoint first_alt {A} (p : string -> option A) (alts : list string)
    : option A :=
  match alts with
  | [] => None
  | a :: r => match p a with Some x => Some x | None => first_alt p r end
  end.

(** One alternative [w], then [\b]: [w] ends with a word character, so the
    boundary asks for the end of the text or a character that is not a word
    character. *)
Definition word_here (s w : string) : bool :=
  match Re.lit w s with
  | Some (String c _) => negb (Py.is_word c)
  | Some EmptyString => true
  | None => false
  end.

(** [re.search(r'\b(w1|...|wn)\b', s)], every [wi] starting and ending with
    a word character: the boundary before asks that the previous character,
    if any, is not a word character ([prev] tells whether it is one). *)
Fixpoint search_words (ws : list string) (prev : bool) (s : string) : bool :=
  match s with
  | EmptyString => false
  | String c r =>
      (negb prev && existsb (word_here s) ws)
      || search_words ws (Py.is_word c) r
  end.

(** [re.search(r'question\s*(\d+)', s)] and [int(num_match.group(1))] *)
Definition question_number_here (s : string) : option Z :=
  match Re.lit "question" s with
  | Some t =>
      match Re.digits1 (Re.spaces t) with
      | Some (d, _) => Some (Py.int d)
      | None => None
      end
  | None => None
  end.

Definition search_question_number : string -> option Z :=
  search_first question_number_here.

(** The rightmost character of [s] that is not a line feed, with the rest
    of its line. *)
Fixpoint last_line_start (s : string) : option string :=
  match s with
  | EmptyString => None
  | String c r =>
      match last_line_start r with
      | Some g => Some g
      | None => if Re.is_newline c then None else Some (fst (Re.line s))
      end
  end.

(** [\s*(.+)] after the keyword: the white space is skipped and the group
    runs to the end of the line; when only white space is left, the group
    backtracks into it and starts at its last character that is not a line
    feed. *)
Definition answer_group (t : string) : option string :=
  match Re.spaces t with
  | EmptyString => last_line_start t
  | t' => Some (fst (Re.line t'))
  end.

Definition answer_keywords : list string :=
  ["answer is"; "my answer"; "i think it's"; "solution:"].

Definition answer_here (s : string) : option string :=
  first_alt (fun k => match Re.lit_ci k s with
                      | Some t => answer_group t
                      | None => None
                      end) answer_keywords.

(** [re.search(r'(?:answer is|my answer|i think it\'s|solution:)\s*(.+)',
    user_input, re.IGNORECASE)], group 1 *)
Definition search_answer_text : string -> option string :=
  search_first answer_here.

(** [parse_user_intent(user_input)] *)
Definition parse_user_intent (user_input : string) : intent :=
  let low := Py.lower user_input in
  let next := search_words ["next"; "continue"; "more"; "yes"; "proceed"] false low in
  let clar :=
    search_words ["clarify"; "explain"; "help"; "confused"; "understand"] false low in
  let num1 := if clar then search_question_number low else None in
  let ans := search_words ["answer"; "my answer"; "i think"; "solution"] false low in
  let num2 :=
    if ans then
      match search_question_number low with Some n => Some n | None => num1 end
    else num1 in
  let text :=
    if ans then
      match search_answer_text user_input with
      | Some g => Some (Py.strip g)
      | None => None
      end
    else None in
  let stop := search_words ["stop"; "quit"; "exit"; "done"; "finish"] false low in
  {| wants_next := next; wants_clarification := clar; has_answer := ans;
     wants_stop := stop; question_num := num2; answer_text := text |}.

End PastPaperProcessor.

(* ===================================================================== *)
(** * Effects of the handler                                              *)
(* ===================================================================== *)

(** The prompt templates, each with the values of its variables. *)
Inductive prompt :=
  | TutorPrompt (question : string)
  | GradingPrompt (question answer : string)
  | ModelAnswerPrompt (question : string).

(** The exceptions that leave the handler. *)
Inductive exn :=
  | IndexError
  | GenerationError.

Inductive result (A : Type) :=
  | Return (a : A)
  | Raise (e : exn).
Arguments Return {A} a.
Arguments Raise {A} e.

(** What a method of the chain works on: the session object it was given
    and the log of the calls made to the language model so far. *)
Record state := mkState {
  session : PastPaperSession;
  llm_calls : list prompt
}.

(** A computation that reads and writes the state and may raise; the state
    reached when an exception is raised is kept. *)
Definition M (A : Type) : Type := state -> result A * state.

Definition ret {A} (a : A) : M A := fun st => (Return a, st).

Definition bind {A B} (m : M A) (k : A -> M B) : M B :=
  fun st => match m st with
            | (Return a, st') => k a st'
            | (Raise e, st') => (Raise e, st')
            end.

Definition raise {A} (e : exn) : M A := fun st => (Raise e, st).

(** The notations [x ← m; k] and [m;; k] of stdpp. *)
#[export] Instance M_ret : MRet M := @ret.
#[export] Instance M_bind : MBind M := fun A B k m => bind m k.

(** Read the session. *)
Definition get : M PastPaperSession := fun st => (Return (session st), st).

(** A method of the session that returns nothing. *)
Definition update (f : PastPaperSession -> PastPaperSession) : M unit :=
  fun st => (Return tt, {| session := f (session st); llm_calls := llm_calls st |}).

(** A method of the session that returns a value. *)
Definition call {A} (f : PastPaperSession -> A * PastPaperSession) : M A :=
  fun st => let '(a, s') := f (session st) in
            (Return a, {| session := s'; llm_calls := llm_calls st |}).

(** [try: m except Exception: h] *)
Definition try_except {A} (m : M A) (h : M A) : M A :=
  fun st => match m st with
            | (Return a, st') => (Return a, st')
            | (Raise _, st') => h st'
            end.

(** [l[i]], raising [IndexError] *)
Definition index_or_raise {A} (l : list A) (i : Z) : M A :=
  match Py.index l i with
  | Some x => ret x
  | None => raise IndexError
  end.

(** The retrieval filter: the conditions joined by [$and], or [{}]. *)
Inductive condition :=
  | SourceTypeEq (v : string)
  | UnitCodeEq (v : string)
  | YearEq (v : string).

Inductive search_filter :=
  | FilterAnd (conditions : list condition)
  | FilterNone.

(** The responses.  One constructor for each message of the handler; a
    message built from a template carries the values put into it. *)
Inductive response :=
  | SessionEnded
  | NoActiveSessionStart
  | NoActiveSession
  | PaperCompleted
  | InvalidQuestionNumber
  | NeedNumberAndAnswer
  | PaperNotFound (unit_code year : option string)
  | ExtractionFailed
  | PaperStarted (unit_code year : option string) (total : Z)
      (batch : list string) (has_more : bool)
  | PaperContinued (unit_code year : option string) (progress : Z * Z)
      (start_num : Z) (batch : list string) (has_more : bool)
  | Clarification (q_num : Z) (clarification : string)
  | Feedback (q_num : Z) (answer feedback : string).

(* ===================================================================== *)
(** * EnhancedPastPaperChain                                              *)
(* ===================================================================== *)

Module EnhancedPastPaperChain.

Import PastPaperProcessor.

(** ** Patterns of the request for a new paper *)

(** [.*] then [p]: [p] matches at some position of the current line. *)
Fixpoint later_on_line (p : string -> bool) (s : string) : bool :=
  p s || match s with
         | String c r => if Re.is_newline c then false else later_on_line p r
         | EmptyString => false
         end.

Definition any_lit_ci (alts : list string) (s : string) : bool :=
  existsb (fun a => match Re.lit_ci a s with Some _ => true | None => false end)
          alts.

(** [n] characters of a class, then the rest. *)
Fixpoint chars (cls : ascii -> bool) (n : nat) (s : string) : option string :=
  match n with
  | O => Some s
  | S n' =>
      match s with
      | String c r => if cls c then chars cls n' r else None
      | EmptyString => None
      end
  end.

Definition is_letter (c : ascii) : bool := Py.is_upper c || Py.is_lower c.

Definition starts (o : option string) (k : string -> bool) : bool :=
  match o with Some t => k t | None => false end.

(** [(start|begin|go through|work through|practice).*(past paper|exam|test)] *)
Definition pattern_phrase (s : string) : bool :=
  existsb (fun a => starts (Re.lit_ci a s)
                      (later_on_line (any_lit_ci ["past paper"; "exam"; "test"])))
          ["start"; "begin"; "go through"; "work through"; "practice"].

(** [(CSC|MAT|PHY|[A-Z]{3})\d{3}.*\d{4}]; under [re.IGNORECASE] the class
    [[A-Z]] is any letter, and the three names are instances of it. *)
Definition pattern_unit (s : string) : bool :=
  starts (chars is_letter 3 s) (fun t =>
  starts (chars Py.is_digit 3 t)
    (later_on_line (fun u => starts (chars Py.is_digit 4 u) (fun _ => true)))).

(** [\d{4}.*(past paper|exam)] *)
Definition pattern_year (s : string) : bool :=
  starts (chars Py.is_digit 4 s)
    (later_on_line (any_lit_ci ["past paper"; "exam"])).

(** [_is_new_paper_request(user_input)]: [re.search] of each pattern with
    [re.IGNORECASE]. *)
Definition is_new_paper_request (user_input : string) : bool :=
  existsb (fun pattern => search_any pattern user_input)
          [pattern_phrase; pattern_unit; pattern_year].

(** [\b([A-Z]{3}\d{3})\b] at the head of [s]: the six characters. *)
Definition unit_here (s : string) : option string :=
  match chars Py.is_upper 3 s with
  | Some t =>
      match chars Py.is_digit 3 t with
      | Some (String c _) =>
          if Py.is_word c then None else Some (String.substring 0 6 s)
      | Some EmptyString => Some (String.substring 0 6 s)
      | None => None
      end
  | None => None
  end.

(** [\b(20[0-3]\d)\b] at the head of [s]: the four characters. *)
Definition year_here (s : string) : option string :=
  match Re.lit "20" s with
  | Some (String c (String d t)) =>
      if Re.eqc c "0"%char || Re.eqc c "1"%char || Re.eqc c "2"%char
         || Re.eqc c "3"%char then
        if Py.is_digit d then
          match t with
          | String e _ =>
              if Py.is_word e then None else Some (String.substring 0 4 s)
          | EmptyString => Some (String.substring 0 4 s)
          end
        else None
      else None
  | _ => None
  end.

(** [re.search] of a pattern that starts with [\b] and a word character. *)
Fixpoint search_bounded {A} (p : string -> option A) (prev : bool)
    (s : string) : option A :=
  match s with
  | EmptyString => None
  | String c r =>
      match (if prev then None else p s) with
      | Some a => Some a
      | None => search_bounded p (Py.is_word c) r
      end
  end.

(** [_extract_paper_details(user_input)] *)
Definition extract_paper_details (user_input : string)
    : option string * option string :=
  (search_bounded unit_here false (Py.upper user_input),
   search_bounded year_here false user_input).

(** The conditions added for a unit code or a year: [if x: ....append(...)] *)
Definition when_given (o : option string) (mk : string -> condition)
    : list condition :=
  match o with
  | Some v => if Py.truthy v then [mk v] else []
  | None => []
  end.

(** [x or default] for an optional string *)
Definition or_else (o : option string) (default : string) : string :=
  match o with
  | Some v => if Py.truthy v then v else default
  | None => default
  end.

(** [if x:] for an optional string *)
Definition given (o : option string) : bool :=
  match o with Some v => Py.truthy v | None => false end.

Definition is_unit_code_condition (c : condition) : bool :=
  match c with UnitCodeEq _ => true | _ => false end.

Section Chain.

(** [self.llm] behind a prompt template and [StrOutputParser]: given the
    calls made so far and the prompt, a text, or [None] when the call
    raises. *)
Variable llm : list prompt -> prompt -> option string.

(** [self.vectorstore.as_retriever(search_kwargs={k: 20, filter: f})
    .get_relevant_documents(query)]: the [page_content] of the documents
    found. *)
Variable retrieve : search_filter -> string -> list string.

(** [chain.invoke(...)]: the call is logged, then returns or raises. *)
Definition invoke (p : prompt) : M string :=
  fun st =>
    let st' := {| session := session st; llm_calls := llm_calls st ++ [p] |} in
    match llm (llm_calls st) p with
    | Some text => (Return text, st')
    | None => (Raise GenerationError, st')
    end.

(** [_start_new_paper(user_input, session)] *)
Definition start_new_paper (user_input : string) : M response :=
  let '(code, yr) := extract_paper_details user_input in
  let base_conditions :=
    [SourceTypeEq "PastPaper"]
    ++ when_given code UnitCodeEq ++ when_given yr YearEq in
  let docs := retrieve (FilterAnd base_conditions) user_input in
  let docs :=
    match docs with
    | [] =>
        if given code then
          let relaxed_conditions :=
            filter (fun c => is_unit_code_condition c = false) base_conditions in
          let relaxed_filter :=
            match relaxed_conditions with
            | [] => FilterNone
            | _ => FilterAnd relaxed_conditions
            end in
          retrieve relaxed_filter user_input
        else docs
    | _ => docs
    end in
  match docs with
  | [] => ret (PaperNotFound code yr)
  | _ =>
      let questions := extract_questions docs in
      match questions with
      | [] => ret ExtractionFailed
      | _ =>
          update (start_paper (or_else code "Unknown")
                              (or_else yr "Unknown") questions);;
          r ← call (get_next_batch default_batch_size);
          s ← get;
          ret (PaperStarted (unit_code s)
                 (year s) (total_questions s) (fst r) (snd r))
      end
  end.

(** [_show_next_batch(session)] *)
Definition show_next_batch : M response :=
  s ← get;
  if negb (is_active s) then ret NoActiveSessionStart
  else
    r ← call (get_next_batch default_batch_size);
    match fst r with
    | [] => update reset;; ret PaperCompleted
    | batch =>
        s ← get;
        let start_num := (current_batch s - 1) * 5 + 1 in
        ret (PaperContinued (unit_code s)
               (year s) (get_current_progress s)
               start_num batch (snd r))
    end.

(** [not q_num] for an optional [int] *)
Definition no_number (q_num : option Z) : bool :=
  match q_num with Some n => n =? 0 | None => true end.

(** [not answer] for an optional [str] *)
Definition no_text (answer : option string) : bool := negb (given answer).

(** [_provide_clarification(intent, session)] *)
Definition provide_clarification (i : intent) : M response :=
  s ← get;
  if negb (is_active s) then ret NoActiveSession
  else
    match question_num i with
    | Some q_num =>
        if (q_num =? 0) || (Py.len (questions s) <? q_num)
        then ret InvalidQuestionNumber
        else
          question ← index_or_raise (questions s) (q_num - 1);
          clarification ← invoke (TutorPrompt question);
          ret (Clarification q_num clarification)
    | None => ret InvalidQuestionNumber
    end.

(** [_process_answer(intent, session)] *)
Definition process_answer (i : intent) : M response :=
  s ← get;
  if negb (is_active s) then ret NoActiveSession
  else
    match question_num i, answer_text i with
    | Some q_num, Some answer =>
        if (q_num =? 0) || negb (Py.truthy answer)
        then ret NeedNumberAndAnswer
        else
          update (save_answer q_num answer);;
          s ← get;
          question_text ← index_or_raise (questions s) (q_num - 1);
          feedback ← invoke (GradingPrompt question_text answer);
          ret (Feedback q_num answer feedback)
    | _, _ => ret NeedNumberAndAnswer
    end.

(** The text that [_generate_answers_for_batch] stores when the call to
    the model raises. *)
Definition unable_to_generate : string :=
  "(Unable to generate an answer at this time.)".

Definition set_model_answer (q_index : Z) (answer : string)
    (s : PastPaperSession) : PastPaperSession :=
  {| unit_code := unit_code s;
     year := year s;
     current_batch := current_batch s; questions := questions s;
     user_answers := user_answers s;
     model_answers := <[q_index := answer]> (model_answers s);
     is_active := is_active s; total_questions := total_questions s |}.

(** The loop of [_generate_answers_for_batch] over
    [enumerate(questions)]. *)
Fixpoint generate_loop (qs : list (Z * string)) (start_index : Z) : M unit :=
  match qs with
  | [] => ret tt
  | (offset, q) :: rest =>
      let q_index := start_index + offset in
      s ← get;
      match model_answers s !! q_index with
      | Some _ => generate_loop rest start_index
      | None =>
          answer ← try_except (invoke (ModelAnswerPrompt q))
                               (ret unable_to_generate);
          update (set_model_answer q_index answer);;
          generate_loop rest start_index
      end
  end.

(** [_generate_answers_for_batch(questions, start_index, session)] *)
Definition generate_answers_for_batch (questions : list string)
    (start_index : Z) : M unit :=
  generate_loop (Py.enumerate questions) start_index.

(** The body of [handle_past_paper_request] once the session object is at
    hand. *)
Definition handle_session (user_input : string) : M response :=
  s ← get;
  if negb (is_active s) || is_new_paper_request user_input
  then start_new_paper user_input
  else
    let i := parse_user_intent user_input in
    if wants_stop i then update reset;; ret SessionEnded
    else if wants_next i then show_next_batch
    else if wants_clarification i then provide_clarification i
    else if has_answer i then process_answer i
    else show_next_batch.

(** The chain object: the registry [self.sessions] and the log of the
    calls to the language model. *)
Record chain := mkChain {
  sessions : gmap string PastPaperSession;
  calls : list prompt
}.

(** [EnhancedPastPaperChain(llm, vectorstore)] *)
Definition new_chain : chain := {| sessions := ∅; calls := [] |}.

(** [get_or_create_session(session_id)]: the session object and the
    registry after the call. *)
Definition get_or_create_session (session_id : string)
    (reg : gmap string PastPaperSession)
    : PastPaperSession * gmap string PastPaperSession :=
  match reg !! session_id with
  | Some s => (s, reg)
  | None => (new_session, <[session_id := new_session]> reg)
  end.

(** [handle_past_paper_request(user_input, session_id)]: the methods
    mutate the session object, which stays in the registry under
    [session_id]. *)
Definition handle_past_paper_request (user_input session_id : string)
    (c : chain) : result response * chain :=
  let '(s, reg) := get_or_create_session session_id (sessions c) in
  let '(r, st) :=
    handle_session user_input {| session := s; llm_calls := calls c |} in
  (r, {| sessions := <[session_id := session st]> reg;
         calls := llm_calls st |}).

End Chain.

End EnhancedPastPaperChain.

(* ===================================================================== *)
(** * Callers and the indexing of files                                   *)
(* ===================================================================== *)

(** The messages that the endpoints of [api.py] build for the handler. *)
Module Api.

(** [clarify_past_paper]: [f"clarify question {req.questionNumber}"] *)
Definition clarify_message (question_number : Z) : string :=
  "clarify question " +:+ Py.str question_number.


(** [continue_past_paper] *)
Definition continue_message : string := "next".

(** [start_past_paper]: the message of the request, or the one built from
    the unit code and the year when both are given and the message is
    empty. *)
Definition start_message (unit_code year message : option string) : string :=
  let message := EnhancedPastPaperChain.or_else message EmptyString in
  if EnhancedPastPaperChain.given unit_code
     && EnhancedPastPaperChain.given year && negb (Py.truthy message)
  then "Go through "
       +:+ EnhancedPastPaperChain.or_else unit_code EmptyString +:+ " "
       +:+ EnhancedPastPaperChain.or_else year EmptyString +:+ " past paper"
  else message.

End Api.

(** [indexing_pipeline.py]: the metadata read from the name of a file.
    [os.path] is the one of POSIX, where the separator is the slash. *)
Module Indexing.

Definition is_char (c : ascii) (x : ascii) : bool := Re.eqc c x.

(** The text after the last occurrence of [sep], if there is one. *)
Fixpoint after_last (sep : ascii) (s : string) : option string :=
  match s with
  | EmptyString => None
  | String c r =>
      match after_last sep r with
      | Some t => Some t
      | None => if is_char sep c then Some r else None
      end
  end.

(** [os.path.basename(p)] *)
Definition basename (p : string) : string :=
  match after_last "/" p with Some t => t | None => p end.

(** The text before the last dot of [s] and the text from this dot on. *)
Fixpoint split_last_dot (s : string) : option (string * string) :=
  match s with
  | EmptyString => None
  | String c r =>
      match split_last_dot r with
      | Some (root, ext) => Some (String c root, ext)
      | None => if is_char "." c then Some (EmptyString, s) else None
      end
  end.

Fixpoint all_dots (s : string) : bool :=
  match s with
  | EmptyString => true
  | String c r => is_char "." c && all_dots r
  end.

(** [os.path.splitext(name)] for a name without a slash: the extension
    starts at the last dot, unless only dots stand before it. *)
Definition splitext (name : string) : string * string :=
  match split_last_dot name with
  | Some (root, ext) =>
      if all_dots root then (name, EmptyString) else (root, ext)
  | None => (name, EmptyString)
  end.

(** [os.path.splitext(path)[1]]: the extension of a path is the one of its
    last component. *)
Definition extension (path : string) : string := snd (splitext (basename path)).

(** [s.split(sep)] for a separator of one character *)
Fixpoint split (sep : ascii) (s : string) : list string :=
  match s with
  | EmptyString => [EmptyString]
  | String c r =>
      if is_char sep c then EmptyString :: split sep r
      else match split sep r with
           | p :: ps => String c p :: ps
           | [] => [String c EmptyString]
           end
  end.

(** The loaders of [get_document_loader]. *)
Inductive loader :=
  | PyPDFLoader (path : string)
  | Docx2txtLoader (path : string).

(** What a call of [get_document_loader] gives: a loader, [None], or the
    exception of the constructor of the loader. *)
Inductive loading :=
  | Loader (l : loader)
  | NoLoader
  | LoaderRaises (l : loader).

(** The constructors [PyPDFLoader(path)] and [Docx2txtLoader(path)] belong
    to a library: they return the loader, or they raise ([ValueError] when
    the path is neither a file that exists nor a URL).  [constructs] is the
    oracle that tells whether the constructor returns. *)
Definition construct (constructs : loader -> bool) (l : loader) : loading :=
  if constructs l then Loader l else LoaderRaises l.

(** [get_document_loader(path)] *)
Definition get_document_loader (constructs : loader -> bool) (path : string)
    : loading :=
  let file_extension := Py.lower (extension path) in
  if String.eqb file_extension ".pdf" then construct constructs (PyPDFLoader path)
  else if String.eqb file_extension ".docx"
       then construct constructs (Docx2txtLoader path)
  else NoLoader.

(** The dictionary that [extract_metadata_from_filename] returns: the six
    entries, or the entry [error]. *)
Inductive metadata :=
  | Metadata (source_type unit_code topic year unique_code original_file : string)
  | MetadataError (file_name : string).

(** [extract_metadata_from_filename(file_path)]; nothing in its body raises
    on a [str]. *)
Definition extract_metadata_from_filename (file_path : string) : metadata :=
  let file_name_with_ext := basename file_path in
  let file_name := fst (splitext file_name_with_ext) in
  match split "_" file_name with
  | p0 :: p1 :: p2 :: p3 :: p4 :: _ =>
      Metadata p0 p1 p2 p3 p4 file_name_with_ext
  | _ => MetadataError file_name
  end.

End Indexing.

(* ===================================================================== *)
(** * Vocabulary of the statements                                        *)
(* ===================================================================== *)

Import PastPaperProcessor EnhancedPastPaperChain.

(* --------------------------------------------------------------------- *)
(** ** Sessions *)
(* --------------------------------------------------------------------- *)

(** The session with another value of [current_batch]. *)
Definition with_current_batch (c : Z) (s : PastPaperSession) : PastPaperSession :=
  {| unit_code := unit_code s; year := year s; current_batch := c;
     questions := questions s; user_answers := user_answers s;
     model_answers := model_answers s; is_active := is_active s;
     total_questions := total_questions s |}.

(** What [start_paper] establishes and every method keeps: the count is the
    length of the list, and the number of batches delivered is not
    negative. *)
Definition well_formed (s : PastPaperSession) : Prop :=
  total_questions s = Py.len (questions s) /\ 0 <= current_batch s.

(** The invariant of the sessions of the registry. *)
Definition good (s : PastPaperSession) : Prop :=
  well_formed s /\ current_batch s * 5 <= Py.len (questions s) + 5.

(** The operations on one session.  The session has no method that caches
    a clarification; the one place where generated text is stored under a
    question number is the assignment to [model_answers] in
    [_generate_answers_for_batch], which stands for it here. *)
Inductive session_op :=
  | StartPaper (uc yr : string) (qs : list string)
  | NextBatch
  | RecordAnswer (n : Z) (a : string)
  | CacheClarification (n : Z) (t : string)
  | Reset.

(** The methods of the session as they are, for the batch size [b]. *)
Definition apply_op (b : Z) (s : PastPaperSession) (o : session_op)
    : PastPaperSession :=
  match o with
  | StartPaper uc yr qs => start_paper uc yr qs s
  | NextBatch => snd (get_next_batch b s)
  | RecordAnswer n a => save_answer n a s
  | CacheClarification n t => set_model_answer n t s
  | Reset => reset s
  end.

(** [n] calls of [get_next_batch(b)] in a row. *)
Definition next_batches (b : Z) (n : nat) (s : PastPaperSession)
    : PastPaperSession :=
  Nat.iter n (fun s => snd (get_next_batch b s)) s.

(* --------------------------------------------------------------------- *)
(** ** The operations in the words of the specification *)
(* --------------------------------------------------------------------- *)

Module Spec.

(** The operation [nextBatch(batchSize)] in the words of the specification:
    nothing left resets the session and returns the empty batch; otherwise
    the cursor moves by one and the slice is returned. *)
Definition nextBatch (b : Z) (s : PastPaperSession)
    : (list string * bool) * PastPaperSession :=
  let start := current_batch s * b in
  let total := Py.len (questions s) in
  let stop := Z.min (start + b) total in
  if total <=? start then (([], false), new_session)
  else ((Py.slice (questions s) start stop, stop <? total),
        with_current_batch (current_batch s + 1) s).

(** The invariant [0 <= cursor*batchSize <= questions.length + batchSize]. *)
Definition cursor_bound (b : Z) (s : PastPaperSession) : Prop :=
  0 <= current_batch s * b <= Py.len (questions s) + b.

End Spec.

Module SpecSegment.

(** The numbering in the words of the specification: the candidates sorted
    by parsed number, each rendered with its 1-based rank. *)
Definition ranked (sorted_matches : list (Z * string)) : list string :=
  map (fun p : Z * (Z * string) => render (fst p + 1) (snd (snd p)))
      (Py.enumerate sorted_matches).

Definition numbered_by_rank (all_content : string) : list string :=
  ranked (Py.sorted_by fst (extracted (finditer all_content))).


End SpecSegment.

(* --------------------------------------------------------------------- *)
(** ** Requests *)
(* --------------------------------------------------------------------- *)

(** The sessions of the registry: all of them satisfy [P]. *)
Definition all_sessions (P : PastPaperSession -> Prop) (c : chain) : Prop :=
  forall sid s, sessions c !! sid = Some s -> P s.

(** The chain after a sequence of requests, each an utterance and a
    session id; results and exceptions go to the caller. *)
Definition after_requests (llm : list prompt -> prompt -> option string)
    (retrieve : search_filter -> string -> list string)
    (inputs : list (string * string)) (c : chain) : chain :=
  foldl (fun c i => snd (handle_past_paper_request llm retrieve i.1 i.2 c))
        c inputs.

(** An utterance that the handler takes as a request for a clarification
    of question [k] in a session under way. *)
Definition asks_clarification (u : string) (k : Z) : Prop :=
  is_new_paper_request u = false
  /\ wants_stop (parse_user_intent u) = false
  /\ wants_next (parse_user_intent u) = false
  /\ wants_clarification (parse_user_intent u) = true
  /\ question_num (parse_user_intent u) = Some k.

(** An utterance that the handler takes as the answer [a] to question
    [k]. *)
Definition gives_answer (u : string) (k : Z) (a : string) : Prop :=
  is_new_paper_request u = false
  /\ wants_stop (parse_user_intent u) = false
  /\ wants_next (parse_user_intent u) = false
  /\ wants_clarification (parse_user_intent u) = false
  /\ has_answer (parse_user_intent u) = true
  /\ question_num (parse_user_intent u) = Some k
  /\ answer_text (parse_user_intent u) = Some a.

(** What the caller gets from one call to the model. *)
Definition answer_of (llm : list prompt -> prompt -> option string)
    (log : list prompt) (p : prompt) (k : string -> response)
    : result response :=
  match llm log p with
  | Some text => Return (k text)
  | None => Raise GenerationError
  end.

(* --------------------------------------------------------------------- *)
(** ** Texts *)
(* --------------------------------------------------------------------- *)

(** The order of the keys. *)
Definition key_le {A : Type} (key : A -> Z) (x y : A) : Prop := key x <= key y.

(** A numeral has no colon, so it ends where the colon of the prefix
    stands. *)
Fixpoint no_colon (s : string) : bool :=
  match s with
  | EmptyString => true
  | String c r => negb (Re.eqc c ":"%char) && no_colon r
  end.

Abbreviation slength := String.length.


Fixpoint no_newline (s : string) : bool :=
  match s with
  | EmptyString => true
  | String c r => negb (Re.is_newline c) && no_newline r
  end.

(** A text that begins with a character that is not white space. *)
Definition starts_with_text (s : string) : bool :=
  match s with
  | String c _ => negb (Py.is_space c)
  | EmptyString => false
  end.

Fixpoint all_digits (s : string) : bool :=
  match s with
  | EmptyString => true
  | String c r => Py.is_digit c && all_digits r
  end.


(** No run of decimal digits of [s] is longer than the limit of [int],
    [seen] digits standing just before [s]: [int] returns on every number
    that a pattern reads from the text. *)
Fixpoint digit_runs_within (seen : Z) (s : string) : bool :=
  match s with
  | EmptyString => true
  | String c r =>
      if Py.is_digit c
      then (seen <? Py.int_max_str_digits) && digit_runs_within (seen + 1) r
      else digit_runs_within 0 r
  end.

Definition numbers_within_limit (s : string) : bool := digit_runs_within 0 s.








(* --------------------------------------------------------------------- *)
(** ** Sessions, requests and texts of the further properties *)
(* --------------------------------------------------------------------- *)

(** The pairs that [n] calls of [get_next_batch(b)] in a row return. *)
Fixpoint batches (b : Z) (n : nat) (s : PastPaperSession)
    : list (list string * bool) :=
  match n with
  | O => []
  | S n' => fst (get_next_batch b s) :: batches b n' (snd (get_next_batch b s))
  end.

(** A unit code as [_extract_paper_details] returns it: three capital
    letters, then three digits. *)
Definition unit_code_shape (x : string) : bool :=
  match chars Py.is_upper 3 x with
  | Some t =>
      match chars Py.is_digit 3 t with
      | Some EmptyString => true
      | _ => false
      end
  | None => false
  end.

(** A year as [_extract_paper_details] returns it: [20], one of the digits
    0 to 3, one digit. *)
Definition year_shape (y : string) : bool :=
  match Re.lit "20" y with
  | Some (String c (String d EmptyString)) =>
      (Re.eqc c "0"%char || Re.eqc c "1"%char || Re.eqc c "2"%char
       || Re.eqc c "3"%char) && Py.is_digit d
  | _ => false
  end.

Fixpoint has_digit (s : string) : bool :=
  match s with
  | EmptyString => false
  | String c r => Py.is_digit c || has_digit r
  end.

(** A question as [extract_questions] renders it. *)
Definition rendered (q : string) : Prop :=
  exists n t, q = render n t /\ 0 <= n /\ Py.strip t = t /\ 3 < Py.slen t.

(** A label of a session: [Unknown], or a value of the given shape. *)
Definition label (shape : string -> bool) (o : option string) : Prop :=
  exists v, o = Some v /\ (v = "Unknown" \/ shape v = true).

(** An answer as the handler records it: one line, not empty, without white
    space around it. *)
Definition one_line (a : string) : Prop :=
  a <> EmptyString /\ no_newline a = true /\ Py.strip a = a.

(** What holds of a session that the handler has worked on. *)
Record settled (s : PastPaperSession) : Prop := mkSettled {
  settled_total : total_questions s = Py.len (questions s);
  settled_model_answers : model_answers s = ∅;
  settled_inactive : is_active s = false -> s = new_session;
  settled_paper :
    is_active s = true ->
    questions s <> [] /\ 1 <= current_batch s
    /\ (current_batch s - 1) * 5 < Py.len (questions s);
  settled_labels :
    is_active s = true ->
    label unit_code_shape (unit_code s) /\ label year_shape (year s);
  settled_questions : forall q, q ∈ questions s -> rendered q;
  settled_answers :
    forall k a, user_answers s !! k = Some a -> 1 <= k /\ one_line a
}.

(** The ways in which [handle_past_paper_request] ends, for the utterance
    [u], the session [s] found in the registry (or just created) and the
    log of the calls to the model: the result, the session and the log it
    leaves. *)
Inductive outcome (llm : list prompt -> prompt -> option string)
    (u : string) (s : PastPaperSession) (log : list prompt)
    : result response -> PastPaperSession -> list prompt -> Prop :=
  | NothingFound :
      is_active s = false \/ is_new_paper_request u = true ->
      outcome llm u s log
        (Return (PaperNotFound (extract_paper_details u).1
                   (extract_paper_details u).2)) s log
  | NothingExtracted :
      is_active s = false \/ is_new_paper_request u = true ->
      outcome llm u s log (Return ExtractionFailed) s log
  | Started (docs : list string) :
      is_active s = false \/ is_new_paper_request u = true ->
      extract_questions docs <> [] ->
      let uc := or_else (extract_paper_details u).1 "Unknown" in
      let yr := or_else (extract_paper_details u).2 "Unknown" in
      let started := start_paper uc yr (extract_questions docs) s in
      let r := get_next_batch 5 started in
      outcome llm u s log
        (Return (PaperStarted (Some uc) (Some yr)
                   (Py.len (extract_questions docs)) r.1.1 r.1.2))
        r.2 log
  | Ended :
      is_active s = true -> is_new_paper_request u = false ->
      wants_stop (parse_user_intent u) = true ->
      outcome llm u s log (Return SessionEnded) new_session log
  | Completed :
      is_active s = true -> is_new_paper_request u = false ->
      wants_stop (parse_user_intent u) = false ->
      wants_next (parse_user_intent u) = true
      \/ (wants_clarification (parse_user_intent u) = false
          /\ has_answer (parse_user_intent u) = false) ->
      (get_next_batch 5 s).1.1 = [] ->
      outcome llm u s log (Return PaperCompleted) new_session log
  | Continued :
      is_active s = true -> is_new_paper_request u = false ->
      wants_stop (parse_user_intent u) = false ->
      wants_next (parse_user_intent u) = true
      \/ (wants_clarification (parse_user_intent u) = false
          /\ has_answer (parse_user_intent u) = false) ->
      let r := get_next_batch 5 s in
      r.1.1 <> [] ->
      outcome llm u s log
        (Return (PaperContinued (unit_code s) (year s)
                   (get_current_progress r.2) (current_batch s * 5 + 1)
                   r.1.1 r.1.2))
        r.2 log
  | ClarificationRefused :
      is_active s = true -> is_new_paper_request u = false ->
      wants_stop (parse_user_intent u) = false ->
      wants_next (parse_user_intent u) = false ->
      wants_clarification (parse_user_intent u) = true ->
      (forall k, question_num (parse_user_intent u) = Some k ->
                 k = 0 \/ Py.len (questions s) < k) ->
      outcome llm u s log (Return InvalidQuestionNumber) s log
  | Clarified (k : Z) (q : string) :
      is_active s = true -> is_new_paper_request u = false ->
      wants_stop (parse_user_intent u) = false ->
      wants_next (parse_user_intent u) = false ->
      wants_clarification (parse_user_intent u) = true ->
      question_num (parse_user_intent u) = Some k ->
      1 <= k <= Py.len (questions s) ->
      Py.index (questions s) (k - 1) = Some q ->
      outcome llm u s log
        (answer_of llm log (TutorPrompt q) (Clarification k))
        s (log ++ [TutorPrompt q])
  | AnswerRefused :
      is_active s = true -> is_new_paper_request u = false ->
      wants_stop (parse_user_intent u) = false ->
      wants_next (parse_user_intent u) = false ->
      wants_clarification (parse_user_intent u) = false ->
      has_answer (parse_user_intent u) = true ->
      no_number (question_num (parse_user_intent u)) = true
      \/ no_text (answer_text (parse_user_intent u)) = true ->
      outcome llm u s log (Return NeedNumberAndAnswer) s log
  | Graded (k : Z) (a q : string) :
      is_active s = true -> is_new_paper_request u = false ->
      wants_stop (parse_user_intent u) = false ->
      wants_next (parse_user_intent u) = false ->
      wants_clarification (parse_user_intent u) = false ->
      has_answer (parse_user_intent u) = true ->
      question_num (parse_user_intent u) = Some k ->
      answer_text (parse_user_intent u) = Some a ->
      1 <= k <= Py.len (questions s) -> one_line a ->
      Py.index (questions s) (k - 1) = Some q ->
      outcome llm u s log
        (answer_of llm log (GradingPrompt q a) (Feedback k a))
        (save_answer k a s) (log ++ [GradingPrompt q a])
  | AnswerPastEnd (k : Z) (a : string) :
      is_active s = true -> is_new_paper_request u = false ->
      wants_stop (parse_user_intent u) = false ->
      wants_next (parse_user_intent u) = false ->
      wants_clarification (parse_user_intent u) = false ->
      has_answer (parse_user_intent u) = true ->
      question_num (parse_user_intent u) = Some k ->
      answer_text (parse_user_intent u) = Some a ->
      Py.len (questions s) < k -> one_line a ->
      outcome llm u s log (Raise IndexError) (save_answer k a s) log.

(** The batch that a response shows, with the number of its first
    question ([format_batch(batch, 1)] when a paper starts,
    [format_batch(batch, start_num)] when it goes on). *)
Definition batch_of (r : response) : option (Z * list string) :=
  match r with
  | PaperStarted _ _ _ batch _ => Some (1, batch)
  | PaperContinued _ _ _ start_num batch _ => Some (start_num, batch)
  | _ => None
  end.

(** An utterance that the handler takes as the request to stop. *)
Definition asks_stop (u : string) : Prop :=
  is_new_paper_request u = false /\ wants_stop (parse_user_intent u) = true.

(** A prompt about one of the questions [qs], for a clarification or for
    the grading of an answer. *)
Definition prompt_about (qs : list string) (p : prompt) : Prop :=
  exists q, q ∈ qs /\ (p = TutorPrompt q \/ exists a, p = GradingPrompt q a).

(** The session with another map of model answers. *)
Definition with_model_answers (m : gmap Z string) (s : PastPaperSession)
    : PastPaperSession :=
  {| unit_code := unit_code s; year := year s;
     current_batch := current_batch s; questions := questions s;
     user_answers := user_answers s; model_answers := m;
     is_active := is_active s; total_questions := total_questions s |}.

(** Whether the character [c] occurs in [s], and how often. *)
Fixpoint has_char (c : ascii) (s : string) : bool :=
  match s with
  | EmptyString => false
  | String x r => Re.eqc c x || has_char c r
  end.

Fixpoint count_char (c : ascii) (s : string) : nat :=
  match s with
  | EmptyString => O
  | String x r => ((if Re.eqc c x then 1 else 0) + count_char c r)%nat
  end.

(** A part of a file name: no underscore and no slash in it. *)
Definition name_part (p : string) : Prop :=
  has_char "_" p = false /\ has_char "/" p = false.

(** An extension without its dot: no dot and no slash in it. *)
Definition plain_extension (ext : string) : Prop :=
  has_char "." ext = false /\ has_char "/" ext = false.

(** An utterance that the handler takes as the request for the next
    batch. *)
Definition asks_next (u : string) : Prop :=
  is_new_paper_request u = false
  /\ wants_stop (parse_user_intent u) = false
  /\ wants_next (parse_user_intent u) = true.

(** The results of a sequence of requests of one session, and the chain
    they leave. *)
Fixpoint requests (llm : list prompt -> prompt -> option string)
    (retrieve : search_filter -> string -> list string)
    (us : list string) (sid : string) (c : chain)
    : list (result response) * chain :=
  match us with
  | [] => ([], c)
  | u :: rest =>
      let r := handle_past_paper_request llm retrieve u sid c in
      let rs := requests llm retrieve rest sid r.2 in
      (r.1 :: rs.1, rs.2)
  end.

(** The response that shows the batch [r], the [i]-th after the batches
    that the session [s] has delivered. *)
Definition continued (s : PastPaperSession) (i : Z) (r : list string * bool)
    : result response :=
  Return (PaperContinued (unit_code s) (year s)
            (Z.min ((current_batch s + i + 1) * 5) (total_questions s),
             total_questions s)
            ((current_batch s + i) * 5 + 1) r.1 r.2).

(** The characters of a numeral as [str] writes an [int]: the digits and
    the minus sign. *)
Definition numeral_char (c : ascii) : bool := Py.is_digit c || Re.eqc c "-"%char.

Fixpoint numeral (s : string) : bool :=
  match s with
  | EmptyString => true
  | String c r => numeral_char c && numeral r
  end.

Definition starts_with_letter (w : string) : bool :=
  match w with
  | String a _ => is_letter a
  | EmptyString => false
  end.

(** The filter of the first search of [_start_new_paper] for an utterance,
    and the filter of its second search. *)
Definition strict_filter (u : string) : search_filter :=
  FilterAnd ([SourceTypeEq "PastPaper"]
             ++ when_given (extract_paper_details u).1 UnitCodeEq
             ++ when_given (extract_paper_details u).2 YearEq).

Definition relaxed_filter (u : string) : search_filter :=
  FilterAnd ([SourceTypeEq "PastPaper"]
             ++ when_given (extract_paper_details u).2 YearEq).


(** The conditions that a file indexed with the metadata [m] satisfies. *)
Definition conditions_of (m : Indexing.metadata) : list condition :=
  match m with
  | Indexing.Metadata source_type unit_code _ year _ _ =>
      [SourceTypeEq source_type; UnitCodeEq unit_code; YearEq year]
  | Indexing.MetadataError _ => []
  end.

(* --------------------------------------------------------------------- *)
(** ** Oracles and inputs of the examples *)
(* --------------------------------------------------------------------- *)

(** A store that returns the same documents for every query. *)
Definition store_of (docs : list string) : search_filter -> string -> list string :=
  fun _ _ => docs.

(** A model that gives the same answer at every call, or raises at every
    call. *)
Definition model_says (o : option string) : list prompt -> prompt -> option string :=
  fun _ _ => o.

(** A model that numbers its answers. *)
Definition model_counting : list prompt -> prompt -> option string :=
  fun log _ => Some ("Explanation " +:+ Py.str (Py.len log + 1)).

(** Twelve questions, as the smoke test of the repository has them. *)
Definition twelve : list string :=
  map (fun n => render n "What is a firewall?")
      [1; 2; 3; 4; 5; 6; 7; 8; 9; 10; 11; 12].

(** The session after [start_paper] on the twelve questions and [k] calls
    of [get_next_batch(5)]. *)
Definition after_batches (k : nat) : PastPaperSession :=
  next_batches 5 k (start_paper "CSC999" "2024" twelve new_session).

(** A document with seven numbered questions. *)
Definition seven_questions : string :=
  "1. Define a firewall.
2. Define a proxy server.
3. Explain packet filtering.
4. Explain stateful inspection.
5. What is a DMZ network?
6. What is NAT used for?
7. Describe the default deny policy.".

(** A document with two numbered questions. *)
Definition two_questions : string :=
  "1. Define a firewall.
2. Define a proxy server.".

(** A document in which segmentation finds no question. *)
Definition cover_page : string := "Answer all.".

(** Two questions numbered 2 and 5. *)
Definition gapped_questions : string :=
  "2. Explain the TCP handshake.
5. Define network latency.".

(** Two questions that carry the same number. *)
Definition repeated_questions : string :=
  "1. Explain the TCP handshake.
1. Define network latency.".


(** Two blocks without any number, a blank line between them. *)
Definition two_paragraphs : string :=
  "Explain the TCP handshake in detail.

Define network latency and give an example.".


(** The chain where the session ["api"] has started the seven questions. *)
Definition seven_started : chain :=
  after_requests (model_says (Some "ok")) (store_of [seven_questions])
    [("Go through CSC231 2024 past paper", "api")] new_chain.

(** The chain where the session ["api"] has started the two questions. *)
Definition two_started : chain :=
  after_requests (model_says (Some "ok")) (store_of [two_questions])
    [("Go through CSC231 2024 past paper", "api")] new_chain.

(** The chain where the session ["api"] has started the questions numbered
    2 and 5. *)
Definition gapped_started : chain :=
  after_requests (model_says (Some "ok")) (store_of [gapped_questions])
    [("Go through CSC231 2024 past paper", "api")] new_chain.

(** Two sessions side by side: ["api"] has delivered one batch of the seven
    questions, ["cli"] is untouched by a request for ["api"]. *)
Definition two_sessions : chain :=
  after_requests (model_says (Some "ok")) (store_of [seven_questions])
    [("Go through CSC231 2024 past paper", "api");
     ("Go through CSC231 2024 past paper", "cli")] new_chain.

(** The two samples of [smoke_tests.py]. *)
Definition double_quote : string := String (ascii_of_N 34) EmptyString.

Definition SAMPLE_CONTENT : string :=
  "
Question 1: What is a firewall?
A. A physical barrier
B. A network security device
C. A web server
D. A VPN

Question 2: Which is a desired attribute of a firewall?
A. Allow all traffic
B. Permit only authorized traffic
C. Be easy to penetrate
D. Block all traffic

Question 3: Primary function of a firewall is to?
A. Speed up network
B. Screen malicious programs/users
C. Encrypt all traffic
D. Provide Wi-Fi

Question 4: Firewalls control traffic by?
A. Randomly allowing or blocking
B. Using rule sets to inspect packets
C. Redirecting traffic
D. Compressing data

Question 5: Crucial design goal for firewall?
A. Be easily bypassed
B. Immune to penetration
C. Use open-source OS
D. Disable during peak hours

Question 6: Next gen firewalls add which capability?
A. Packet coloring
B. Application-layer inspection and IPS
C. Dial-up support
D. Tape backup

Question 7: A stateful firewall tracks?
A. Weather
B. Connection state
C. User passwords
D. Disk space

Question 8: Which is NOT a firewall type?
A. Packet-filtering
B. Circuit-level gateway
C. Proxy server
D. Load balancer

Question 9: Default deny policy means?
A. Allow unless denied
B. Deny unless explicitly allowed
C. Always allow
D. Always deny

Question 10: Placement best practice?
A. Behind all hosts
B. Between internet and DMZ/internal networks
C. On user desktops only
D. In the cloud only

Question 11: Logging is used for?
A. Decoration
B. Auditing and incident response
C. Making packets faster
D. DNS caching

Question 12: NAT on a firewall hides?
A. MAC addresses
B. Internal IPs
C. Passwords
D. URLs
".

Definition SAMPLE_ENUMERATED_CONTENT : string :=
  "
1) Using the keywords "
  +:+ double_quote +:+
  "good, bad, input, output"
  +:+ double_quote +:+
  " clearly distinguish between accuracy and security.

2) Distinguish Threat, Vulnerability and Exploit with examples.

3) What is a Botnet? Outline the life cycle.

4) Distinguish between malware and ransomware with one example each.

5) Data Encryption Standard (DES) is symmetric.
   a. What is Symmetric Key Cryptography?
   b. How many rounds are supported by DES?
   c. What is the Key Size in DES?
   d. What is the Block Size in DES?
   e. In what ways is DES considered weak?

6) What is PKI?

7) What is the purpose of PKI?

8) Distinguish between Block and Stream Ciphers.

9) CBC is an example of a block cipher.
   a. What is CBC mode of encryption?
   b. What is IV in the context of CBC?
   c. What is the problem with a fixed IV?
   d. Explain any general attacks against block ciphers.

10) Describe a Feistel structure.

11) Distinguish between a Digital Signature and a Digital Certificate.

12) Explain how Diffie-Hellman key exchange is implemented in RSA.

13) In the context of hashing:
    a. Explain pre-image resistance of a function H.
    b. Describe HMAC and how it is used.

14) Distinguish between authentication and authorization.

15) Explain the Kerberos authentication scheme.

16) Explain what is meant by a Kerberos realm.

17) Describe the Needham-Schroeder Protocol.

18) What is a Stateful Packet Inspection Firewall?
".

(* ===================================================================== *)
(** * Batches                                                             *)
(* ===================================================================== *)

Section Slices.
Context {A : Type}.
Implicit Types l : list A.

Lemma len_nonneg l : 0 <= Py.len l.
Proof. unfold Py.len. lia. Qed.

Lemma len_nil_iff l : Py.len l = 0 <-> l = [].
Proof.
  unfold Py.len. destruct l; simpl; split; intros H; try done; lia.
Qed.

(** Between bounds that are in range, the slice is [take] after [drop]. *)
Lemma slice_in_range l lo hi :
  0 <= lo -> lo <= hi -> hi <= Py.len l ->
  Py.slice l lo hi = take (Z.to_nat (hi - lo)) (drop (Z.to_nat lo) l).
Proof.
  intros H0 H1 H2. unfold Py.slice, Py.clamp.
  assert ((lo <? 0) = false) as -> by lia.
  assert ((hi <? 0) = false) as -> by lia.
  by rewrite !Z.min_l by lia.
Qed.

Lemma slice_length l lo hi :
  0 <= lo -> lo <= hi -> hi <= Py.len l ->
  Py.len (Py.slice l lo hi) = hi - lo.
Proof.
  intros H0 H1 H2. rewrite slice_in_range by done.
  unfold Py.len in *. rewrite length_take, length_drop. lia.
Qed.

(** A slice that starts at or after the end is empty. *)
Lemma slice_past_end l lo hi :
  Py.len l <= lo -> Py.slice l lo hi = [].
Proof.
  intros H. pose proof (len_nonneg l) as Hn. unfold Py.slice, Py.clamp.
  assert ((lo <? 0) = false) as -> by lia.
  rewrite (Z.min_r lo) by lia.
  rewrite drop_ge by (unfold Py.len; lia). apply take_nil.
Qed.
End Slices.

Section NextBatch.
Variable b : Z.
Hypothesis b_pos : 0 < b.
Variable s : PastPaperSession.
Hypothesis s_wf : well_formed s.

Lemma start_nonneg : 0 <= current_batch s * b.
Proof. destruct s_wf. nia. Qed.

Lemma get_next_batch_eq :
  get_next_batch b s =
  ((Py.slice (questions s) (current_batch s * b)
      (Z.min (current_batch s * b + b) (Py.len (questions s))),
    Z.min (current_batch s * b + b) (Py.len (questions s))
    <? Py.len (questions s)),
   with_current_batch (current_batch s + 1) s).
Proof.
  destruct s_wf as [Ht _].
  unfold get_next_batch, with_current_batch.
  rewrite <- Ht. done.
Qed.

Lemma get_next_batch_exhausted :
  Py.len (questions s) <= current_batch s * b ->
  get_next_batch b s = (([], false), with_current_batch (current_batch s + 1) s).
Proof.
  intros H. rewrite get_next_batch_eq.
  rewrite slice_past_end by done.
  assert ((Z.min (current_batch s * b + b) (Py.len (questions s))
           <? Py.len (questions s)) = false) as -> by lia.
  done.
Qed.

Lemma get_next_batch_length :
  current_batch s * b < Py.len (questions s) ->
  Py.len (fst (fst (get_next_batch b s)))
  = Z.min (current_batch s * b + b) (Py.len (questions s)) - current_batch s * b
  /\ 0 < Z.min (current_batch s * b + b) (Py.len (questions s))
          - current_batch s * b.
Proof.
  intros H. pose proof start_nonneg. rewrite get_next_batch_eq. simpl.
  rewrite slice_length; lia.
Qed.

Lemma get_next_batch_refines :
  current_batch s * b < Py.len (questions s) ->
  get_next_batch b s = Spec.nextBatch b s.
Proof.
  intros H. rewrite get_next_batch_eq. unfold Spec.nextBatch.
  assert ((Py.len (questions s) <=? current_batch s * b) = false) as -> by lia.
  done.
Qed.
End NextBatch.

(** Unfolding of the monad of the handler. *)
Ltac run :=
  unfold mbind, M_bind, bind, get, call, update, ret, raise, index_or_raise;
  cbn [session llm_calls fst snd].

(** [_show_next_batch] on an active session: the session it leaves is the
    one [nextBatch(5)] of the specification describes, and the response
    carries the batch. *)
Lemma show_next_batch_active s log :
  well_formed s -> is_active s = true ->
  exists r,
    show_next_batch {| session := s; llm_calls := log |}
    = (Return r, {| session := snd (Spec.nextBatch 5 s); llm_calls := log |})
    /\ (Py.len (questions s) <= current_batch s * 5 -> r = PaperCompleted)
    /\ (current_batch s * 5 < Py.len (questions s) ->
        r = PaperContinued (unit_code s) (year s)
              (Z.min ((current_batch s + 1) * 5) (total_questions s),
               total_questions s)
              (current_batch s * 5 + 1)
              (fst (fst (Spec.nextBatch 5 s))) (snd (fst (Spec.nextBatch 5 s)))).
Proof.
  intros Hwf Hact.
  unfold show_next_batch, default_batch_size. run.
  rewrite Hact. cbn [negb]. run.
  destruct (Z_lt_le_dec (current_batch s * 5) (Py.len (questions s))) as [Hlt|Hge].
  - pose proof (get_next_batch_length 5 ltac:(lia) s Hwf Hlt) as [Hlen Hpos].
    rewrite get_next_batch_refines in Hlen |- * by (done || lia).
    assert (snd (Spec.nextBatch 5 s) = with_current_batch (current_batch s + 1) s)
      as Hs'.
    { unfold Spec.nextBatch.
      assert ((Py.len (questions s) <=? current_batch s * 5) = false) as -> by lia.
      done. }
    destruct (Spec.nextBatch 5 s) as [[batch more] s'] eqn:E.
    cbn [fst snd] in Hlen, Hs'. subst s'.
    destruct batch as [|x batch];
      [unfold Py.len in *; simpl in Hlen; lia | ].
    eexists. split; [reflexivity|]. split; [lia|]. intros _.
    unfold get_current_progress. cbn [session with_current_batch current_batch
      unit_code year total_questions fst snd].
    f_equal. lia.
  - rewrite get_next_batch_exhausted by (done || lia).
    unfold Spec.nextBatch.
    assert ((Py.len (questions s) <=? current_batch s * 5) = true) as -> by lia.
    eexists. split; [reflexivity|]. split; [done | lia].
Qed.

(** C1 (as amended).  For a well-formed session with [q] questions and a
    batch size [b > 0], [get_next_batch(b)] returns the slice
    [questions[cursor*b : min(cursor*b+b, q)]] with
    [hasMore = (min(cursor*b+b, q) < q)] and always moves the cursor by
    exactly one; when [cursor*b >= q] the slice is empty, [hasMore] is false
    and the session is not reset.  When [cursor*b < q] the batch is not
    empty and the call is [nextBatch(b)] of the specification.  The reset is
    done by [_show_next_batch], which calls [get_next_batch] with the
    default size 5: on an active session it leaves the session that
    [nextBatch(5)] of the specification describes, the default session when
    [cursor*5 >= q]; so a request for the next batch after the final
    non-empty one leaves the session in state EMPTY. *)
Theorem next_batch_moves_cursor_handler_resets (b : Z) (s : PastPaperSession) :
  0 < b -> well_formed s ->
  let start := current_batch s * b in
  let q := Py.len (questions s) in
  let stop := Z.min (start + b) q in
  get_next_batch b s
  = ((Py.slice (questions s) start stop, stop <? q),
     with_current_batch (current_batch s + 1) s)
  /\ (q <= start -> fst (get_next_batch b s) = ([], false))
  /\ (start < q ->
      Py.len (fst (fst (get_next_batch b s))) = stop - start
      /\ 0 < stop - start
      /\ get_next_batch b s = Spec.nextBatch b s)
  /\ (is_active s = true -> forall log,
      exists r,
        show_next_batch {| session := s; llm_calls := log |}
        = (Return r,
           {| session := snd (Spec.nextBatch 5 s); llm_calls := log |})
        /\ (q <= current_batch s * 5 ->
            r = PaperCompleted /\ snd (Spec.nextBatch 5 s) = new_session)
        /\ (current_batch s * 5 < q ->
            snd (Spec.nextBatch 5 s)
            = with_current_batch (current_batch s + 1) s
            /\ exists progress start_num,
                 r = PaperContinued (unit_code s) (year s) progress start_num
                       (fst (fst (Spec.nextBatch 5 s)))
                       (snd (fst (Spec.nextBatch 5 s))))).
Proof.
  intros Hb Hwf start q stop. split; [|split; [|split]].
  - by apply get_next_batch_eq.
  - intros H. by rewrite get_next_batch_exhausted.
  - intros H. destruct (get_next_batch_length b Hb s Hwf H). split; [done|].
    split; [done|]. by apply get_next_batch_refines.
  - intros Hact log.
    destruct (show_next_batch_active s log Hwf Hact) as (r & Hr & Hdone & Hmore).
    exists r. split; [done|]. split.
    + intros H. split; [auto|].
      unfold Spec.nextBatch. fold q.
      assert ((q <=? current_batch s * 5) = true) as -> by lia. done.
    + intros H. split; [|rewrite (Hmore H); eauto].
      unfold Spec.nextBatch. fold q.
      assert ((q <=? current_batch s * 5) = false) as -> by lia. done.
Qed.

Lemma next_batch_moves_cursor_handler_resets_witness :
  (get_next_batch 5 (after_batches 2%nat)
   = Spec.nextBatch 5 (after_batches 2%nat)
   /\ Py.len (fst (fst (get_next_batch 5 (after_batches 2%nat)))) = 2)
  /\ fst (get_next_batch 5 (after_batches 3%nat)) = ([], false)
  /\ session (snd (show_next_batch
                     {| session := after_batches 3%nat; llm_calls := [] |}))
     = new_session.
Proof.
  assert (0 < 5) as H5 by lia.
  assert (well_formed (after_batches 2%nat)) as Hwf2
    by (split; vm_compute; congruence).
  assert (well_formed (after_batches 3%nat)) as Hwf3
    by (split; vm_compute; congruence).
  destruct (next_batch_moves_cursor_handler_resets 5 (after_batches 2%nat)
              H5 Hwf2) as (_ & _ & Hmore & _).
  destruct (next_batch_moves_cursor_handler_resets 5 (after_batches 3%nat)
              H5 Hwf3) as (_ & Hdone & _ & Hshow).
  split; [|split].
  - destruct Hmore as (Hlen & _ & Heq); [vm_compute; reflexivity|].
    split; [exact Heq | exact Hlen].
  - apply Hdone. vm_compute; congruence.
  - destruct (Hshow eq_refl []) as (r & -> & Hreset & _).
    apply Hreset. vm_compute; congruence.
Defined.

(** C1, the claim as stated, fails at the session that has delivered the
    three batches of twelve questions: [cursor*5 = 15 >= 12], and
    [get_next_batch(5)] returns the empty batch but leaves an active session
    with cursor 4, not the default session that [nextBatch] of the
    specification leaves. *)
Lemma get_next_batch_does_not_reset :
  let s := after_batches 3%nat in
  Py.len (questions s) = 12 /\ current_batch s = 3
  /\ fst (get_next_batch 5 s) = ([], false)
  /\ snd (get_next_batch 5 s) = after_batches 4%nat
  /\ current_batch (snd (get_next_batch 5 s)) = 4
  /\ is_active (snd (get_next_batch 5 s)) = true
  /\ snd (Spec.nextBatch 5 s) = new_session
  /\ get_next_batch 5 s <> Spec.nextBatch 5 s.
Proof.
  repeat split; try (vm_compute; congruence).
Qed.

(* ===================================================================== *)
(** * The cursor stays within one batch of the end                        *)
(* ===================================================================== *)

Lemma good_cursor_bound s : good s -> Spec.cursor_bound 5 s.
Proof. intros [[_ H0] H]. unfold Spec.cursor_bound. lia. Qed.

Lemma good_new_session : good new_session.
Proof. repeat split; vm_compute; congruence. Qed.

Lemma good_save_answer n a s : good s -> good (save_answer n a s).
Proof. intros [[? ?] ?]. repeat split; done. Qed.

Lemma good_first_batch uc yr qs s :
  good (snd (get_next_batch 5 (start_paper uc yr qs s))).
Proof.
  pose proof (len_nonneg qs).
  repeat split; cbn [get_next_batch start_paper snd current_batch questions
    total_questions]; lia.
Qed.

Lemma good_spec_nextBatch s : good s -> good (snd (Spec.nextBatch 5 s)).
Proof.
  intros [[Ht H0] H]. unfold Spec.nextBatch.
  destruct (Z.leb_spec (Py.len (questions s)) (current_batch s * 5)).
  - apply good_new_session.
  - repeat split; cbn [snd with_current_batch current_batch questions
      total_questions]; try done; lia.
Qed.

Section Invariant.
Variable llm : list prompt -> prompt -> option string.
Variable retrieve : search_filter -> string -> list string.

(** A call to the model leaves the session alone. *)
Lemma invoke_session p st :
  session (snd (invoke llm p st)) = session st.
Proof. unfold invoke. by destruct (llm _ _). Qed.

Lemma show_next_batch_good st :
  good (session st) -> good (session (snd (show_next_batch st))).
Proof.
  intros Hg. destruct st as [s log]. cbn [session] in Hg.
  destruct (is_active s) eqn:Hact.
  - destruct (show_next_batch_active s log (proj1 Hg) Hact) as (r & -> & _).
    by apply good_spec_nextBatch.
  - unfold show_next_batch. run. by rewrite Hact.
Qed.

Lemma provide_clarification_session i st :
  session (snd (provide_clarification llm i st)) = session st.
Proof.
  unfold provide_clarification. run.
  destruct (negb _); [done|].
  destruct (question_num i) as [k|]; [|done].
  destruct (_ || _); [done|].
  destruct (Py.index _ _); [|done]. run.
  pose proof (invoke_session (TutorPrompt s) st) as Hi.
  destruct (invoke _ _ _) as [[t|e] st']; done.
Qed.

(** [_process_answer] leaves the session as it is or with the answer
    saved. *)
Lemma process_answer_session i st :
  session (snd (process_answer llm i st)) = session st
  \/ exists k a, question_num i = Some k /\ answer_text i = Some a
       /\ session (snd (process_answer llm i st)) = save_answer k a (session st).
Proof.
  unfold process_answer. run.
  destruct (negb _); [by left|].
  destruct (question_num i) as [k|]; [|by left].
  destruct (answer_text i) as [a|]; [|by left].
  destruct (_ || _); [by left|].
  right. exists k, a. split; [done|]. split; [done|].
  destruct (Py.index _ _) as [q|]; [|done]. run.
  pose proof (invoke_session (GradingPrompt q a)
    {| session := save_answer k a (session st); llm_calls := llm_calls st |}) as Hi.
  destruct (invoke _ _ _) as [[t|e] st']; done.
Qed.

(** [_start_new_paper] leaves the session as it is, or starts a paper
    with a list of questions that is not empty and delivers its first
    batch. *)
Lemma start_new_paper_session u st :
  snd (start_new_paper retrieve u st) = st
  \/ exists uc yr qs, qs <> [] /\
       session (snd (start_new_paper retrieve u st))
       = snd (get_next_batch 5 (start_paper uc yr qs (session st))).
Proof.
  unfold start_new_paper.
  destruct (extract_paper_details u) as [code yr].
  match goal with |- context [match ?d with [] => ret _ | _ => _ end] =>
    destruct d as [|d0 docs] end; [by left|].
  destruct (extract_questions _) as [|q0 qs] eqn:E;
    [by left|].
  right. exists (or_else code "Unknown"), (or_else yr "Unknown"), (q0 :: qs).
  split; [done|]. run. unfold default_batch_size.
  by destruct (get_next_batch _ _) as [[batch more] s'].
Qed.

Lemma handle_session_good u st :
  good (session st) ->
  good (session (snd (handle_session llm retrieve u st))).
Proof.
  intros Hg. unfold handle_session. run.
  destruct (_ || _).
  - destruct (start_new_paper_session u st) as [->|(uc & yr & qs & _ & ->)];
      [done | apply good_first_batch].
  - destruct (wants_stop _).
    { run. apply good_new_session. }
    destruct (wants_next _);
      [by apply show_next_batch_good|].
    destruct (wants_clarification _);
      [by rewrite provide_clarification_session|].
    destruct (has_answer _);
      [|by apply show_next_batch_good].
    destruct (process_answer_session
                (parse_user_intent u) st)
      as [->|(k & a & _ & _ & ->)]; [done | by apply good_save_answer].
Qed.

Lemma handle_request_good u sid c :
  all_sessions good c ->
  all_sessions good (snd (handle_past_paper_request llm retrieve u sid c)).
Proof.
  intros Hall sid' s'. unfold handle_past_paper_request, get_or_create_session.
  assert (forall s0 reg,
    good s0 -> (forall k v, reg !! k = Some v -> good v) ->
    (let '(r, st) := handle_session llm retrieve u
                       {| session := s0; llm_calls := calls c |} in
     (r, {| sessions := <[sid := session st]> reg; calls := llm_calls st |})).2
       .(sessions) !! sid' = Some s' -> good s') as Hstep.
  { intros s0 reg Hs0 Hreg.
    pose proof (handle_session_good u {| session := s0; llm_calls := calls c |} Hs0)
      as Hg.
    destruct (handle_session _ _ _ _) as [r st]. cbn [snd sessions] in *.
    destruct (decide (sid = sid')) as [->|Hne].
    - rewrite lookup_insert_eq. by intros [= <-].
    - rewrite lookup_insert_ne by done. apply Hreg. }
  destruct (sessions c !! sid) as [s0|] eqn:E.
  - apply Hstep; [by eapply Hall | apply Hall].
  - apply Hstep; [apply good_new_session|].
    intros k v. destruct (decide (sid = k)) as [->|Hne].
    + rewrite lookup_insert_eq. intros [= <-]. apply good_new_session.
    + rewrite lookup_insert_ne by done. apply Hall.
Qed.

Lemma after_requests_good inputs c :
  all_sessions good c ->
  all_sessions good (after_requests llm retrieve inputs c).
Proof.
  revert c. induction inputs as [|[u sid] inputs IH]; intros c Hc; [done|].
  apply IH. by apply handle_request_good.
Qed.
End Invariant.

Lemma next_batches_cursor b n s :
  current_batch (next_batches b n s) = current_batch s + Z.of_nat n
  /\ questions (next_batches b n s) = questions s
  /\ is_active (next_batches b n s) = is_active s.
Proof.
  induction n as [|n (IH1 & IH2 & IH3)]; [cbn; split; [lia|done]|].
  unfold next_batches in *. rewrite Nat.iter_succ.
  unfold get_next_batch at 1 3 5.
  cbn [snd current_batch questions is_active].
  rewrite IH1, IH2, IH3. split; [lia|done].
Qed.

(** C8 (as amended).  For the batch size 5 of the handler, the invariant
    [0 <= cursor*5 <= questions.length + 5] holds for every session of the
    registry after any sequence of requests to [handle_past_paper_request],
    whatever the utterances, the documents retrieved and the answers or
    failures of the model: there a request for the next batch that gets an
    empty batch resets the session.  The method [get_next_batch] itself adds
    one to the cursor at every call and keeps the questions, so [n] calls in
    a row move the cursor by [n]. *)
Theorem cursor_bound_in_registry
    (llm : list prompt -> prompt -> option string)
    (retrieve : search_filter -> string -> list string)
    (inputs : list (string * string)) (sid : string) (s : PastPaperSession) :
  sessions (after_requests llm retrieve inputs new_chain) !! sid = Some s ->
  Spec.cursor_bound 5 s
  /\ forall b n,
       current_batch (next_batches b n s) = current_batch s + Z.of_nat n
       /\ questions (next_batches b n s) = questions s.
Proof.
  intros Hs. split.
  - apply good_cursor_bound.
    eapply (after_requests_good llm retrieve inputs new_chain); [|exact Hs].
    intros k v. cbn [new_chain sessions]. by rewrite lookup_empty.
  - intros b n. destruct (next_batches_cursor b n s) as (? & ? & _). done.
Qed.

Lemma cursor_bound_in_registry_witness :
  exists s,
    sessions (after_requests (model_says (Some "ok")) (store_of [seven_questions])
                [("Go through CSC231 2024 past paper", "api"); ("next", "api")]
                new_chain) !! "api" = Some s
    /\ current_batch s = 2 /\ Py.len (questions s) = 7
    /\ Spec.cursor_bound 5 s.
Proof.
  eexists. split; [vm_compute; reflexivity|].
  split; [reflexivity|]. split; [reflexivity|].
  eapply (cursor_bound_in_registry (model_says (Some "ok"))
            (store_of [seven_questions])
            [("Go through CSC231 2024 past paper", "api"); ("next", "api")]
            "api").
  vm_compute; reflexivity.
Defined.

(** C8, the claim as stated, fails for the operations of the session as
    they are: after [start_paper] with twelve questions, four calls of
    [get_next_batch(5)] leave the cursor at 4, and [4*5 = 20 > 12 + 5]. *)
Lemma cursor_bound_broken_by_get_next_batch :
  let s := foldl (apply_op 5) new_session
             [StartPaper "CSC999" "2024" twelve;
              NextBatch; NextBatch; NextBatch; NextBatch] in
  current_batch s = 4 /\ Py.len (questions s) = 12
  /\ ~ Spec.cursor_bound 5 s.
Proof.
  split; [reflexivity|]. split; [reflexivity|].
  unfold Spec.cursor_bound. vm_compute. intros [_ H]. by apply H.
Qed.

(* ===================================================================== *)
(** * Starting a paper                                                    *)
(* ===================================================================== *)

Section StartPaper.
Variable retrieve : search_filter -> string -> list string.

(** The two ways [_start_new_paper] ends: a message and the state
    untouched, or a paper started with a list of questions that is not
    empty, its first batch delivered. *)
Lemma start_new_paper_cases u st :
  (exists r, start_new_paper retrieve u st = (Return r, st)
     /\ (r = ExtractionFailed \/ exists c y, r = PaperNotFound c y))
  \/ (exists uc yr qs,
        qs <> []
        /\ start_new_paper retrieve u st
           = (Return (PaperStarted (Some uc) (Some yr) (Py.len qs)
                        (fst (fst (get_next_batch 5 (start_paper uc yr qs (session st)))))
                        (snd (fst (get_next_batch 5 (start_paper uc yr qs (session st)))))),
              {| session := snd (get_next_batch 5 (start_paper uc yr qs (session st)));
                 llm_calls := llm_calls st |})).
Proof.
  unfold start_new_paper.
  destruct (extract_paper_details u) as [code yr].
  match goal with |- context [match ?d with [] => ret _ | _ => _ end] =>
    destruct d as [|d0 docs] end.
  { left. eexists. split; [reflexivity|]. right. eauto. }
  destruct (extract_questions _) as [|q0 qs] eqn:E.
  { left. eexists. split; [reflexivity|]. by left. }
  right. exists (or_else code "Unknown"), (or_else yr "Unknown"), (q0 :: qs).
  split; [done|]. run. unfold default_batch_size.
  destruct (get_next_batch _ _) as [[batch more] s'] eqn:G.
  cbn [session fst snd].
  unfold get_next_batch in G. by injection G as <- <- <-.
Qed.

(** When segmentation finds no question in what the store returns, the
    case is the first one. *)
Lemma start_new_paper_nothing_extracted u st :
  (forall f, extract_questions (retrieve f u) = []) ->
  exists r, start_new_paper retrieve u st = (Return r, st)
    /\ (r = ExtractionFailed \/ exists c y, r = PaperNotFound c y).
Proof.
  intros Hnone. unfold start_new_paper.
  destruct (extract_paper_details u) as [code yr].
  match goal with |- context [match ?d with [] => ret _ | _ => _ end] =>
    assert (extract_questions d = []) as Hd;
    [ | destruct d as [|d0 docs] ] end.
  { destruct (retrieve _ _) eqn:E1; [|by rewrite <- E1].
    destruct (given code); [apply Hnone | reflexivity]. }
  { eexists. split; [reflexivity|]. right. eauto. }
  rewrite Hd. eexists. split; [reflexivity|]. by left.
Qed.
End StartPaper.

(** C7 (as amended).  [start_paper] has no check of its own: for any list
    of questions, the empty one too, it sets the cursor to 0, clears the two
    maps, stores the list and sets [is_active].  The empty list is refused
    by the caller, [_start_new_paper]: when segmentation finds no question
    in what the store returns, it gives back a message (extraction failed,
    or no paper found) and leaves the session as it was; and whenever it
    does change the state, the paper was started with a list of questions
    that is not empty. *)
Theorem start_paper_guarded_by_handler
    (retrieve : search_filter -> string -> list string)
    (u uc yr : string) (qs : list string) (st : state) :
  (current_batch (start_paper uc yr qs (session st)) = 0
   /\ user_answers (start_paper uc yr qs (session st)) = ∅
   /\ model_answers (start_paper uc yr qs (session st)) = ∅
   /\ is_active (start_paper uc yr qs (session st)) = true
   /\ questions (start_paper uc yr qs (session st)) = qs
   /\ total_questions (start_paper uc yr qs (session st)) = Py.len qs)
  /\ ((forall f, extract_questions (retrieve f u) = []) ->
      exists r, start_new_paper retrieve u st = (Return r, st)
        /\ (r = ExtractionFailed \/ exists c y, r = PaperNotFound c y))
  /\ (snd (start_new_paper retrieve u st) <> st ->
      questions (session (snd (start_new_paper retrieve u st))) <> []
      /\ is_active (session (snd (start_new_paper retrieve u st))) = true
      /\ current_batch (session (snd (start_new_paper retrieve u st))) = 1).
Proof.
  split; [done|]. split; [apply start_new_paper_nothing_extracted|].
  intros Hch.
  destruct (start_new_paper_cases retrieve u st)
    as [(r & Hr & _)|(uc' & yr' & qs' & Hne & Hr)]; rewrite Hr in Hch |- *.
  - done.
  - cbn [snd session get_next_batch start_paper questions is_active
      current_batch]. done.
Qed.

Lemma start_paper_guarded_by_handler_witness :
  start_new_paper (store_of [cover_page]) "Go through CSC231 2024 past paper"
    {| session := new_session; llm_calls := [] |}
  = (Return ExtractionFailed, {| session := new_session; llm_calls := [] |})
  /\ current_batch
       (session (snd (start_new_paper (store_of [seven_questions])
                        "Go through CSC231 2024 past paper"
                        {| session := new_session; llm_calls := [] |}))) = 1.
Proof.
  split.
  - destruct (start_paper_guarded_by_handler (store_of [cover_page])
                "Go through CSC231 2024 past paper" "CSC231" "2024" []
                {| session := new_session; llm_calls := [] |})
      as (_ & H & _).
    destruct H as (r & Hr & Hcase); [intros f; vm_compute; reflexivity|].
    rewrite Hr. f_equal. f_equal.
    assert (Return (A:=response) r = Return ExtractionFailed) as Heq.
    { transitivity (fst (start_new_paper (store_of [cover_page])
                           "Go through CSC231 2024 past paper"
                           {| session := new_session; llm_calls := [] |})).
      - by rewrite Hr.
      - vm_compute; reflexivity. }
    by injection Heq.
  - destruct (start_paper_guarded_by_handler (store_of [seven_questions])
                "Go through CSC231 2024 past paper" "CSC231" "2024" []
                {| session := new_session; llm_calls := [] |})
      as (_ & _ & H).
    destruct H as (_ & _ & H); [vm_compute; intros E; discriminate E | exact H].
Defined.

(** C7, the claim as stated, fails for [start_paper] itself: called with the
    empty list on the default session it signals nothing and activates the
    session. *)
Lemma start_paper_accepts_empty :
  is_active (start_paper "CSC231" "2024" [] new_session) = true
  /\ total_questions (start_paper "CSC231" "2024" [] new_session) = 0
  /\ start_paper "CSC231" "2024" [] new_session <> new_session.
Proof. repeat split; vm_compute; congruence. Qed.

(* ===================================================================== *)
(** * Sessions do not interfere                                           *)
(* ===================================================================== *)

Section Isolation.
Variable llm : list prompt -> prompt -> option string.
Variable retrieve : search_filter -> string -> list string.

(** The session looked up or created for [sid]. *)
Lemma get_or_create_session_fst sid reg :
  fst (get_or_create_session sid reg) = default new_session (reg !! sid).
Proof. unfold get_or_create_session. by destruct (reg !! sid). Qed.

Lemma get_or_create_session_other sid sid' reg :
  sid <> sid' ->
  snd (get_or_create_session sid reg) !! sid' = reg !! sid'.
Proof.
  intros Hne. unfold get_or_create_session.
  destruct (reg !! sid); [done|]. cbn [snd]. by rewrite lookup_insert_ne.
Qed.

(** The request as a function of the one session it works on. *)
Lemma handle_request_unfold u sid c :
  handle_past_paper_request llm retrieve u sid c
  = let st := snd (handle_session llm retrieve u
                     {| session := default new_session (sessions c !! sid);
                        llm_calls := calls c |}) in
    (fst (handle_session llm retrieve u
            {| session := default new_session (sessions c !! sid);
               llm_calls := calls c |}),
     {| sessions := <[sid := session st]>
                      (snd (get_or_create_session sid (sessions c)));
        calls := llm_calls st |}).
Proof.
  unfold handle_past_paper_request.
  rewrite <- get_or_create_session_fst.
  destruct (get_or_create_session sid (sessions c)) as [s reg].
  cbn [fst snd]. by destruct (handle_session _ _ _ _).
Qed.
End Isolation.

(** C9.  A request for the session [s1] leaves the entry of every other
    session id [s2] of the registry as it was, and does not read it: on two
    chains that agree on the entry of [s1] and on the log of calls, and
    differ in any other entry, the request returns the same result, leaves
    the same session under [s1] and the same log. *)
Theorem handle_request_isolated
    (llm : list prompt -> prompt -> option string)
    (retrieve : search_filter -> string -> list string)
    (u s1 s2 : string) (c : chain) :
  s1 <> s2 ->
  sessions (snd (handle_past_paper_request llm retrieve u s1 c)) !! s2
  = sessions c !! s2
  /\ forall c',
       sessions c' !! s1 = sessions c !! s1 -> calls c' = calls c ->
       fst (handle_past_paper_request llm retrieve u s1 c')
       = fst (handle_past_paper_request llm retrieve u s1 c)
       /\ sessions (snd (handle_past_paper_request llm retrieve u s1 c')) !! s1
          = sessions (snd (handle_past_paper_request llm retrieve u s1 c)) !! s1
       /\ calls (snd (handle_past_paper_request llm retrieve u s1 c'))
          = calls (snd (handle_past_paper_request llm retrieve u s1 c)).
Proof.
  intros Hne. split.
  - rewrite handle_request_unfold. cbn [snd sessions].
    rewrite lookup_insert_ne by done.
    by apply get_or_create_session_other.
  - intros c' Hs Hc. rewrite !handle_request_unfold. cbn [fst snd sessions calls].
    rewrite Hs, Hc, !lookup_insert_eq. done.
Qed.

Lemma handle_request_isolated_witness :
  sessions (snd (handle_past_paper_request (model_says (Some "ok"))
                   (store_of [seven_questions]) "next" "api" two_sessions))
    !! "cli"
  = sessions two_sessions !! "cli".
Proof.
  assert ("api" <> "cli") as Hne by (intros H; discriminate H).
  exact (proj1 (handle_request_isolated (model_says (Some "ok"))
                  (store_of [seven_questions]) "next" "api" "cli"
                  two_sessions Hne)).
Defined.

(* ===================================================================== *)
(** * Clarifications and answers                                          *)
(* ===================================================================== *)

Lemma index_in_range {A} (l : list A) (k : Z) :
  1 <= k <= Py.len l -> exists x, Py.index l (k - 1) = Some x.
Proof.
  intros Hk. unfold Py.index.
  assert (((k - 1 <? - Py.len l) || (Py.len l <=? k - 1)) = false) as ->.
  { apply orb_false_intro; lia. }
  assert ((k - 1 <? 0) = false) as -> by lia.
  destruct (l !! Z.to_nat (k - 1)) as [x|] eqn:E; [eauto|].
  apply lookup_ge_None in E. unfold Py.len in Hk. lia.
Qed.

Lemma index_past_end {A} (l : list A) (k : Z) :
  Py.len l < k -> Py.index l (k - 1) = None.
Proof.
  intros Hk. unfold Py.index.
  assert ((Py.len l <=? k - 1) = true) as -> by lia.
  by rewrite orb_true_r.
Qed.

Section Requests.
Variable llm : list prompt -> prompt -> option string.
Variable retrieve : search_filter -> string -> list string.

Lemma invoke_eq p st (k : string -> response) :
  (text ← invoke llm p; ret (k text)) st
  = (answer_of llm (llm_calls st) p k,
     {| session := session st; llm_calls := llm_calls st ++ [p] |}).
Proof.
  unfold invoke, answer_of. run. by destruct (llm _ _).
Qed.

Lemma invoke_eq_any llm' p st (k : string -> response) :
  (text ← invoke llm' p; ret (k text)) st
  = (answer_of llm' (llm_calls st) p k,
     {| session := session st; llm_calls := llm_calls st ++ [p] |}).
Proof.
  unfold invoke, answer_of. run. by destruct (llm' _ _).
Qed.

(** [_provide_clarification] for a question number in range: one call to
    the model with the tutoring prompt of the question; the session is not
    touched. *)
Lemma provide_clarification_in_range i s log k q :
  is_active s = true -> question_num i = Some k ->
  1 <= k <= Py.len (questions s) ->
  Py.index (questions s) (k - 1) = Some q ->
  provide_clarification llm i {| session := s; llm_calls := log |}
  = (answer_of llm log (TutorPrompt q) (Clarification k),
     {| session := s; llm_calls := log ++ [TutorPrompt q] |}).
Proof.
  intros Hact Hnum Hk Hq. unfold provide_clarification. run.
  rewrite Hact, Hnum. cbn [negb].
  assert (((k =? 0) || (Py.len (questions s) <? k)) = false) as ->.
  { apply orb_false_intro; lia. }
  rewrite Hq. run.
  exact (invoke_eq (TutorPrompt q) {| session := s; llm_calls := log |}
           (Clarification k)).
Qed.

(** [_provide_clarification] checks the upper bound. *)
Lemma provide_clarification_past_end i s log k :
  is_active s = true -> question_num i = Some k ->
  Py.len (questions s) < k ->
  provide_clarification llm i {| session := s; llm_calls := log |}
  = (Return InvalidQuestionNumber, {| session := s; llm_calls := log |}).
Proof.
  intros Hact Hnum Hk. unfold provide_clarification. run.
  rewrite Hact, Hnum. cbn [negb].
  assert ((Py.len (questions s) <? k) = true) as -> by lia.
  by rewrite orb_true_r.
Qed.

(** [_process_answer] saves the answer, then looks the question up. *)
Lemma process_answer_eq i s log k a :
  is_active s = true -> question_num i = Some k -> answer_text i = Some a ->
  k <> 0 -> a <> EmptyString ->
  process_answer llm i {| session := s; llm_calls := log |}
  = match Py.index (questions s) (k - 1) with
    | Some q =>
        (answer_of llm log (GradingPrompt q a) (Feedback k a),
         {| session := save_answer k a s;
            llm_calls := log ++ [GradingPrompt q a] |})
    | None =>
        (Raise IndexError, {| session := save_answer k a s; llm_calls := log |})
    end.
Proof.
  intros Hact Hnum Htext Hk Ha. unfold process_answer. run.
  rewrite Hact, Hnum, Htext. cbn [negb].
  assert ((k =? 0) = false) as -> by lia.
  assert (Py.truthy a = true) as -> by (by destruct a).
  cbn [negb orb questions save_answer session llm_calls].
  destruct (Py.index (questions s) (k - 1)) as [q|]; [|done]. run.
  exact (invoke_eq (GradingPrompt q a)
           {| session := save_answer k a s; llm_calls := log |} (Feedback k a)).
Qed.

(** The dispatch of [handle_past_paper_request] for the two kinds of
    utterance, on a session that is active. *)
Lemma handle_session_clarification u k st :
  is_active (session st) = true -> asks_clarification u k ->
  handle_session llm retrieve u st
  = provide_clarification llm (parse_user_intent u) st.
Proof.
  intros Hact (Hnew & Hstop & Hnext & Hclar & _).
  unfold handle_session. run.
  by rewrite Hact, Hnew, Hstop, Hnext, Hclar.
Qed.

Lemma handle_session_answer u k a st :
  is_active (session st) = true -> gives_answer u k a ->
  handle_session llm retrieve u st
  = process_answer llm (parse_user_intent u) st.
Proof.
  intros Hact (Hnew & Hstop & Hnext & Hclar & Hans & _).
  unfold handle_session. run.
  by rewrite Hact, Hnew, Hstop, Hnext, Hclar, Hans.
Qed.

(** A request on a session that is in the registry. *)
Lemma handle_request_existing u sid c s :
  sessions c !! sid = Some s ->
  handle_past_paper_request llm retrieve u sid c
  = let r := handle_session llm retrieve u
               {| session := s; llm_calls := calls c |} in
    (fst r, {| sessions := <[sid := session (snd r)]> (sessions c);
               calls := llm_calls (snd r) |}).
Proof.
  intros Hs. unfold handle_past_paper_request, get_or_create_session.
  rewrite Hs. by destruct (handle_session _ _ _ _).
Qed.

(** A request for a clarification, as a whole. *)
Lemma handle_request_clarification u sid c s k q :
  sessions c !! sid = Some s -> is_active s = true ->
  asks_clarification u k -> 1 <= k <= Py.len (questions s) ->
  Py.index (questions s) (k - 1) = Some q ->
  handle_past_paper_request llm retrieve u sid c
  = (answer_of llm (calls c) (TutorPrompt q) (Clarification k),
     {| sessions := sessions c; calls := calls c ++ [TutorPrompt q] |}).
Proof.
  intros Hs Hact Hu Hk Hq.
  rewrite (handle_request_existing u sid c s Hs).
  rewrite (handle_session_clarification u k) by done.
  rewrite (provide_clarification_in_range _ s (calls c) k q)
    by (done || apply Hu).
  cbn [fst snd session llm_calls]. by rewrite insert_id.
Qed.

(** The state that a request leaves does not depend on what the model
    answers, nor on whether it answers. *)
Lemma handle_session_state_any_model llm' u st :
  snd (handle_session llm retrieve u st)
  = snd (handle_session llm' retrieve u st).
Proof.
  assert (forall p (k : string -> response) st0,
    snd ((text ← invoke llm p; ret (k text)) st0)
    = snd ((text ← invoke llm' p; ret (k text)) st0)) as Hinv.
  { intros p k st0. by rewrite (invoke_eq p st0 k), (invoke_eq_any llm' p st0 k). }
  unfold handle_session. run.
  destruct (_ || _); [done|].
  destruct (wants_stop _); [done|].
  destruct (wants_next _); [done|].
  destruct (wants_clarification _).
  - unfold provide_clarification. run.
    destruct (negb _); [done|].
    destruct (question_num _) as [k|]; [|done].
    destruct (_ || _); [done|].
    destruct (Py.index _ _) as [q|]; [|done]. run.
    apply (Hinv (TutorPrompt q) (Clarification k) st).
  - destruct (has_answer _); [|done].
    unfold process_answer. run.
    destruct (negb _); [done|].
    destruct (question_num _) as [k|]; [|done].
    destruct (answer_text _) as [a|]; [|done].
    destruct (_ || _); [done|].
    destruct (Py.index _ _) as [q|]; [|done]. run.
    apply (Hinv (GradingPrompt q a) (Feedback k a)).
Qed.
End Requests.

(** C3 (as amended).  In an active session, a request for a clarification
    of a question number [k] in range calls the model exactly once, with the
    tutoring prompt of question [k], and stores nothing: the registry is as
    before.  A second request for the same number calls the model again, so
    two requests make two calls, and the second answer is what the model
    returns the second time. *)
Theorem clarification_generated_at_each_request
    (llm : list prompt -> prompt -> option string)
    (retrieve : search_filter -> string -> list string)
    (u sid : string) (c : chain) (s : PastPaperSession) (k : Z) :
  sessions c !! sid = Some s -> is_active s = true ->
  asks_clarification u k -> 1 <= k <= Py.len (questions s) ->
  exists q,
    Py.index (questions s) (k - 1) = Some q
    /\ let p := TutorPrompt q in
       let first := handle_past_paper_request llm retrieve u sid c in
       let second := handle_past_paper_request llm retrieve u sid (snd first) in
       fst first = answer_of llm (calls c) p (Clarification k)
       /\ snd first = {| sessions := sessions c; calls := calls c ++ [p] |}
       /\ fst second = answer_of llm (calls c ++ [p]) p (Clarification k)
       /\ snd second = {| sessions := sessions c; calls := calls c ++ [p; p] |}.
Proof.
  intros Hs Hact Hu Hk.
  destruct (index_in_range (questions s) k Hk) as [q Hq].
  exists q. split; [done|]. intros p first second.
  assert (first = (answer_of llm (calls c) p (Clarification k),
                   {| sessions := sessions c; calls := calls c ++ [p] |}))
    as Hfirst by (by apply (handle_request_clarification llm retrieve u sid c s k q)).
  assert (second = (answer_of llm (calls c ++ [p]) p (Clarification k),
                    {| sessions := sessions c; calls := (calls c ++ [p]) ++ [p] |}))
    as Hsecond.
  { subst second. rewrite Hfirst. cbn [snd].
    by rewrite (handle_request_clarification llm retrieve u sid
                  {| sessions := sessions c; calls := calls c ++ [p] |} s k q). }
  rewrite Hfirst, Hsecond. cbn [fst snd]. by rewrite <- app_assoc.
Qed.

Lemma clarification_generated_at_each_request_witness :
  calls (snd (handle_past_paper_request model_counting (store_of [])
                "clarify question 1" "api"
                (snd (handle_past_paper_request model_counting (store_of [])
                        "clarify question 1" "api" seven_started))))
  = [TutorPrompt "Question 1: Define a firewall.";
     TutorPrompt "Question 1: Define a firewall."].
Proof.
  destruct (clarification_generated_at_each_request model_counting (store_of [])
              "clarify question 1" "api" seven_started
              (snd (get_next_batch 5
                      (start_paper "CSC231" "2024"
                         (extract_questions [seven_questions]) new_session)))
              1)
    as (q & Hq & _ & _ & _ & Hsecond).
  - vm_compute; reflexivity.
  - vm_compute; reflexivity.
  - repeat split; vm_compute; reflexivity.
  - split; vm_compute; congruence.
  - assert (Some q = Some "Question 1: Define a firewall.") as Hq'
      by (rewrite <- Hq; vm_compute; reflexivity).
    injection Hq' as ->. rewrite Hsecond. reflexivity.
Defined.

(** C3, the claim as stated, fails at the session that has started the seven
    questions: two requests for question 1 call the model twice, and the
    second answer is the second text of the model, not the first one. *)
Lemma clarification_not_cached :
  let first := handle_past_paper_request model_counting (store_of [])
                 "clarify question 1" "api" seven_started in
  let second := handle_past_paper_request model_counting (store_of [])
                  "clarify question 1" "api" (snd first) in
  calls seven_started = []
  /\ fst first = Return (Clarification 1 "Explanation 1")
  /\ fst second = Return (Clarification 1 "Explanation 2")
  /\ length (calls (snd second)) = 2%nat.
Proof. repeat split; vm_compute; reflexivity. Qed.

(* --------------------------------------------------------------------- *)
(** ** An answer to a question number past the end                        *)
(* --------------------------------------------------------------------- *)

Section PastEnd.
Variable llm : list prompt -> prompt -> option string.
Variable retrieve : search_filter -> string -> list string.

(** [_process_answer] has no check of the upper bound: the answer is
    saved under [k], then the lookup of the question raises. *)
Lemma handle_request_answer_past_end u sid c s k a :
  sessions c !! sid = Some s -> is_active s = true ->
  gives_answer u k a -> a <> EmptyString -> Py.len (questions s) < k ->
  handle_past_paper_request llm retrieve u sid c
  = (Raise IndexError,
     {| sessions := <[sid := save_answer k a s]> (sessions c);
        calls := calls c |}).
Proof.
  intros Hs Hact Hu Ha Hk.
  pose proof (len_nonneg (questions s)).
  rewrite (handle_request_existing llm retrieve u sid c s Hs).
  rewrite (handle_session_answer llm retrieve u k a) by done.
  rewrite (process_answer_eq llm _ s (calls c) k a)
    by (try done; try apply Hu; lia).
  by rewrite index_past_end.
Qed.

(** [_provide_clarification], next to it, has the check. *)
Lemma handle_request_clarification_past_end u sid c s k :
  sessions c !! sid = Some s -> is_active s = true ->
  asks_clarification u k -> Py.len (questions s) < k ->
  handle_past_paper_request llm retrieve u sid c
  = (Return InvalidQuestionNumber, c).
Proof.
  intros Hs Hact Hu Hk.
  rewrite (handle_request_existing llm retrieve u sid c s Hs).
  rewrite (handle_session_clarification llm retrieve u k) by done.
  rewrite (provide_clarification_past_end llm _ s (calls c) k)
    by (done || apply Hu).
  cbn [fst snd session llm_calls]. rewrite insert_id by done.
  by destruct c.
Qed.
End PastEnd.

(** C4, at the failing input.  The session ["api"] is active with two
    questions and no answer; the utterance that the API builds for an answer
    to question 3 is taken as an answer to question 3; the handler raises
    [IndexError], and the registry then holds the answer under the key 3.
    The request for a clarification of question 3 gets the message about the
    question number and leaves the chain as it was. *)
Theorem answer_past_end_raises_after_saving :
  let u := "my answer for question 3 is X" in
  let r := handle_past_paper_request (model_says (Some "ok")) (store_of [])
             u "api" two_started in
  (exists s, sessions two_started !! "api" = Some s
     /\ is_active s = true /\ Py.len (questions s) = 2 /\ user_answers s = ∅)
  /\ gives_answer u 3 "for question 3 is X"
  /\ fst r = Raise IndexError
  /\ (exists s', sessions (snd r) !! "api" = Some s'
        /\ user_answers s' !! 3 = Some "for question 3 is X"
        /\ Py.len (questions s') = 2)
  /\ handle_past_paper_request (model_says (Some "ok")) (store_of [])
       "clarify question 3" "api" two_started
     = (Return InvalidQuestionNumber, two_started).
Proof.
  split; [eexists; split; [vm_compute; reflexivity|]; repeat split|].
  split; [repeat split; vm_compute; reflexivity|].
  split; [vm_compute; reflexivity|].
  split; [eexists; split; [vm_compute; reflexivity|]; repeat split|].
  vm_compute; reflexivity.
Qed.

(* --------------------------------------------------------------------- *)
(** ** The model fails                                                    *)
(* --------------------------------------------------------------------- *)

(** The registry and the log after a request are the same whatever the
    model answers. *)
Lemma handle_request_state_any_model llm llm' retrieve u sid c :
  snd (handle_past_paper_request llm retrieve u sid c)
  = snd (handle_past_paper_request llm' retrieve u sid c).
Proof.
  rewrite !handle_request_unfold. cbn [snd].
  by rewrite (handle_session_state_any_model llm retrieve llm').
Qed.

(** When the model raises, so does the request for a clarification. *)
Lemma handle_request_clarification_model_fails llm retrieve u sid c s k q :
  sessions c !! sid = Some s -> is_active s = true ->
  asks_clarification u k -> 1 <= k <= Py.len (questions s) ->
  Py.index (questions s) (k - 1) = Some q ->
  llm (calls c) (TutorPrompt q) = None ->
  fst (handle_past_paper_request llm retrieve u sid c) = Raise GenerationError.
Proof.
  intros Hs Hact Hu Hk Hq Hfail.
  rewrite (handle_request_clarification llm retrieve u sid c s k q) by done.
  unfold answer_of. by rewrite Hfail.
Qed.

(** C6, at the failing input.  The session ["api"] is active with two
    questions and the model raises at every call.  The request for a
    clarification of question 1 and the answer to question 1 both leave the
    handler as [GenerationError]; no placeholder is returned.  The state
    they leave is the one that a model that answers leaves.  The placeholder
    exists in [_generate_answers_for_batch] only, which catches the
    exception and stores the fixed text. *)
Theorem generation_failure_leaves_the_handler :
  let failing := model_says None in
  let answering := model_says (Some "ok") in
  let request llm u :=
    handle_past_paper_request llm (store_of []) u "api" two_started in
  let clarify := "explain question 1" in
  let answer := "my answer for question 1 is a filter" in
  asks_clarification clarify 1
  /\ gives_answer answer 1 "for question 1 is a filter"
  /\ fst (request failing clarify) = Raise GenerationError
  /\ fst (request failing answer) = Raise GenerationError
  /\ fst (request answering clarify) = Return (Clarification 1 "ok")
  /\ fst (request answering answer)
     = Return (Feedback 1 "for question 1 is a filter" "ok")
  /\ snd (request failing clarify) = snd (request answering clarify)
  /\ snd (request failing answer) = snd (request answering answer)
  /\ (let r := generate_answers_for_batch failing
                 ["Question 1: Define a firewall."] 1
                 {| session := new_session; llm_calls := [] |} in
      fst r = Return tt
      /\ model_answers (session (snd r)) !! 1
         = Some "(Unable to generate an answer at this time.)").
Proof.
  repeat split; vm_compute; reflexivity.
Qed.

(* ===================================================================== *)
(** * Question extraction                                                 *)
(* ===================================================================== *)

Section SortedBy.
Context {A : Type} (key : A -> Z).
Implicit Types l : list A.

Lemma insert_by_perm x l : Py.insert_by key x l ≡ₚ x :: l.
Proof.
  induction l as [|y l IH]; [done|]. simpl.
  destruct (key x <=? key y); [done|].
  rewrite IH. apply Permutation_swap.
Qed.

Lemma sorted_by_perm l : Py.sorted_by key l ≡ₚ l.
Proof.
  induction l as [|x l IH]; [done|]. simpl.
  by rewrite insert_by_perm, IH.
Qed.

Lemma insert_by_sorted x l :
  StronglySorted (key_le key) l ->
  StronglySorted (key_le key) (Py.insert_by key x l).
Proof.
  induction 1 as [|y l Hs IH Hall]; simpl.
  - repeat constructor.
  - destruct (Z.leb_spec (key x) (key y)) as [Hle|Hgt].
    + constructor; [by constructor|].
      constructor; [done|].
      eapply Forall_impl; [exact Hall|]. unfold key_le. intros z Hz. lia.
    + constructor; [done|].
      rewrite insert_by_perm. constructor; [unfold key_le; lia | done].
Qed.

Lemma sorted_by_sorted l : StronglySorted (key_le key) (Py.sorted_by key l).
Proof.
  induction l as [|x l IH]; simpl; [constructor | by apply insert_by_sorted].
Qed.

(** The sort is stable: the elements of one key keep their order. *)
Lemma insert_by_stable n x l :
  filter (fun y => key y = n) (Py.insert_by key x l)
  = filter (fun y => key y = n) (x :: l).
Proof.
  induction l as [|y l IH]; [done|]. simpl.
  destruct (Z.leb_spec (key x) (key y)) as [Hle|Hgt]; [done|].
  rewrite (filter_cons _ y), IH, !(filter_cons _ x), !(filter_cons _ y).
  repeat case_decide; try done; lia.
Qed.

Lemma sorted_by_stable n l :
  filter (fun y => key y = n) (Py.sorted_by key l)
  = filter (fun y => key y = n) l.
Proof.
  induction l as [|x l IH]; [done|]. simpl.
  rewrite insert_by_stable, !filter_cons, IH. done.
Qed.
End SortedBy.

(** Rendering by rank from [i] on. *)
Lemma ranked_from (i : Z) (l : list (Z * string)) :
  map fst l = seqZ (i + 1) (Py.len l) ->
  map (fun p : Z * string => render (fst p) (snd p)) l
  = map (fun p : Z * (Z * string) => render (fst p + 1) (snd (snd p)))
        (Py.enumerate_from i l).
Proof.
  revert i. induction l as [|[n t] l IH]; intros i Hl; [done|].
  unfold Py.len in Hl. simpl length in Hl.
  rewrite seqZ_cons in Hl by lia. simpl in Hl. injection Hl as -> Hl.
  simpl. f_equal. apply IH. rewrite Hl. unfold Py.len. f_equal; lia.
Qed.

(** Decimal numerals: [str] is injective. *)
Lemma to_int_nonnil (n : Z) :
  Z.to_int n <> Decimal.Pos Decimal.Nil /\ Z.to_int n <> Decimal.Neg Decimal.Nil.
Proof.
  destruct n; simpl; split; try discriminate; intros [= H];
    by apply DecimalPos.Unsigned.to_uint_nonnil in H.
Qed.

Lemma str_inj (m n : Z) : Py.str m = Py.str n -> m = n.
Proof.
  unfold Py.str. intros H.
  apply (f_equal NilZero.int_of_string) in H.
  rewrite !NilZero.isi in H by apply to_int_nonnil.
  injection H as H. apply (f_equal Z.of_int) in H.
  by rewrite !DecimalZ.of_to in H.
Qed.

Lemma append_inj_l (p s t : string) : p +:+ s = p +:+ t -> s = t.
Proof. induction p as [|c p IH]; simpl; [done|]. intros [= H]. auto. Qed.

Lemma no_colon_uint d : no_colon (NilEmpty.string_of_uint d) = true.
Proof. induction d; simpl; done. Qed.

Lemma no_colon_str n : no_colon (Py.str n) = true.
Proof.
  unfold Py.str, NilZero.string_of_int, NilZero.string_of_uint.
  destruct (Z.to_int n) as [d|d]; destruct d; simpl;
    try done; apply no_colon_uint.
Qed.

Lemma colon_split (a b s t : string) :
  no_colon a = true -> no_colon b = true ->
  a +:+ String ":"%char s = b +:+ String ":"%char t -> a = b.
Proof.
  revert b. induction a as [|c a IH]; intros [|d b] Ha Hb; simpl; intros H.
  - done.
  - injection H as <- _. done.
  - injection H as -> _. done.
  - injection H as <- H. f_equal.
    apply andb_prop in Ha as [_ Ha]. apply andb_prop in Hb as [_ Hb]. eauto.
Qed.

Lemma render_number_inj (m n : Z) (s t : string) :
  render m s = render n t -> m = n.
Proof.
  unfold render. intros H. apply append_inj_l in H.
  apply str_inj. eapply colon_split; [apply no_colon_str..|exact H].
Qed.

Lemma ranked_from_inv (i : Z) (l : list (Z * string)) :
  map (fun p : Z * string => render (fst p) (snd p)) l
  = map (fun p : Z * (Z * string) => render (fst p + 1) (snd (snd p)))
        (Py.enumerate_from i l) ->
  map fst l = seqZ (i + 1) (Py.len l).
Proof.
  revert i. induction l as [|[n t] l IH]; intros i Hl; [done|].
  pose proof (f_equal (hd EmptyString) Hl) as Hn.
  apply (f_equal (@tl string)) in Hl.
  cbn [map Py.enumerate_from hd tl fst snd] in Hn, Hl.
  apply render_number_inj in Hn.
  unfold Py.len. simpl length. rewrite seqZ_cons by lia. simpl.
  f_equal; [done|]. rewrite (IH (i + 1) Hl). unfold Py.len. f_equal; lia.
Qed.

(** C2, at the failing input.  The document has two questions, marked
    [2.] and [5.].  The specification numbers them by rank: [Question 1]
    and [Question 2].  [extract_questions] renders the number parsed from
    each marker: [Question 2] and [Question 5]; two markers [1.] give
    [Question 1] twice.  Everything else in the program numbers a question
    by its position in the list: [format_batch] shows the two questions
    under the headings [**Question 1:**] and [**Question 2:**] and removes
    only the prefix that carries the position, so the block of the first
    question reads [Question 2: ...] under [**Question 1:**], where the
    questions numbered by rank are shown without their prefix; the request
    for a clarification of question 5, the number rendered for the second
    question, is refused in a session on this paper, and the one for
    question 2 is answered for the question rendered as [Question 5]; and
    the fallback of [extract_questions] itself numbers two blocks without
    markers 1 and 2. *)
Theorem rendered_number_is_not_the_position :
  let found := extract_questions [gapped_questions] in
  let request u :=
    handle_past_paper_request (model_says (Some "ok")) (store_of []) u "api"
      gapped_started in
  found = ["Question 2: Explain the TCP handshake.";
           "Question 5: Define network latency."]
  /\ SpecSegment.numbered_by_rank gapped_questions
     = ["Question 1: Explain the TCP handshake.";
        "Question 2: Define network latency."]
  /\ extract_questions [repeated_questions]
     = ["Question 1: Explain the TCP handshake.";
        "Question 1: Define network latency."]
  /\ SpecSegment.numbered_by_rank repeated_questions
     = ["Question 1: Explain the TCP handshake.";
        "Question 2: Define network latency."]
  /\ format_batch found 1 None
     = "**Question 1:**
Question 2: Explain the TCP handshake.

--------------------------------------------------
**Question 2:**
Question 5: Define network latency.
"
  /\ format_batch (SpecSegment.numbered_by_rank gapped_questions) 1 None
     = "**Question 1:**
Explain the TCP handshake.

--------------------------------------------------
**Question 2:**
Define network latency.
"
  /\ (exists s, sessions gapped_started !! "api" = Some s
        /\ is_active s = true /\ questions s = found)
  /\ asks_clarification "clarify question 5" 5
  /\ request "clarify question 5" = (Return InvalidQuestionNumber, gapped_started)
  /\ asks_clarification "clarify question 2" 2
  /\ fst (request "clarify question 2") = Return (Clarification 2 "ok")
  /\ calls (snd (request "clarify question 2"))
     = [TutorPrompt "Question 5: Define network latency."]
  /\ extract_questions [two_paragraphs]
     = ["Question 1: Explain the TCP handshake in detail.";
        "Question 2: Define network latency and give an example."].
Proof.
  split; [vm_compute; reflexivity|].
  split; [vm_compute; reflexivity|].
  split; [vm_compute; reflexivity|].
  split; [vm_compute; reflexivity|].
  split; [vm_compute; reflexivity|].
  split; [vm_compute; reflexivity|].
  split; [eexists; split; [vm_compute; reflexivity|]; split; reflexivity|].
  split; [repeat split; vm_compute; reflexivity|].
  split; [vm_compute; reflexivity|].
  split; [repeat split; vm_compute; reflexivity|].
  split; [vm_compute; reflexivity|].
  split; vm_compute; reflexivity.
Qed.

(* --------------------------------------------------------------------- *)
(** ** The fallback                                                       *)
(* --------------------------------------------------------------------- *)

Lemma elem_of_enumerate_from {A} (k : Z) (l : list A) (i : Z) (x : A) :
  (i, x) ∈ Py.enumerate_from k l
  <-> exists n : nat, l !! n = Some x /\ i = k + Z.of_nat n.
Proof.
  revert k. induction l as [|y l IH]; intros k; simpl.
  - split; [by intros ?%elem_of_nil | by intros (n & ? & _)].
  - rewrite elem_of_cons, IH. split.
    + intros [[= -> ->]|(n & Hn & ->)].
      * exists 0%nat. split; [done | lia].
      * exists (S n). split; [done | lia].
    + intros ([|n] & Hn & ->).
      * left. simpl in Hn. injection Hn as ->. f_equal. lia.
      * right. exists n. split; [done | lia].
Qed.


Lemma string_app_cons c r s : String c r +:+ s = String c (r +:+ s).
Proof. reflexivity. Qed.

Lemma string_app_nil s : EmptyString +:+ s = s.
Proof. reflexivity. Qed.


(** [strip] removes the white space once and for all. *)
Lemma rstrip_idem s : Py.rstrip (Py.rstrip s) = Py.rstrip s.
Proof.
  induction s as [| c r IH]; [reflexivity |].
  cbn [Py.rstrip]. destruct (Py.rstrip r) as [| d r'] eqn:Hr.
  - destruct (Py.is_space c) eqn:Hc; [reflexivity |].
    cbn [Py.rstrip]. by rewrite Hc.
  - change (Py.rstrip (String c (String d r')))
      with (match Py.rstrip (String d r') with
            | EmptyString => if Py.is_space c then EmptyString else String c EmptyString
            | r'' => String c r''
            end).
    by rewrite IH.
Qed.

Lemma lstrip_starts_with_text s :
  Py.lstrip s = EmptyString \/ starts_with_text (Py.lstrip s) = true.
Proof.
  induction s as [| c r IH]; [by left |].
  cbn [Py.lstrip]. destruct (Py.is_space c) eqn:Hc; [exact IH |].
  right. cbn [starts_with_text]. by rewrite Hc.
Qed.

Lemma lstrip_text s : starts_with_text s = true -> Py.lstrip s = s.
Proof.
  destruct s as [| c r]; [done |]. cbn [starts_with_text Py.lstrip].
  by destruct (Py.is_space c).
Qed.

Lemma rstrip_starts_with_text s :
  starts_with_text s = true -> starts_with_text (Py.rstrip s) = true.
Proof.
  destruct s as [| c r]; [done |]. cbn [starts_with_text Py.rstrip].
  intros Hc. destruct (Py.rstrip r); [| exact Hc].
  destruct (Py.is_space c) eqn:Hs; [discriminate |].
  cbn [starts_with_text]. by rewrite Hs.
Qed.

Lemma strip_idem s : Py.strip (Py.strip s) = Py.strip s.
Proof.
  unfold Py.strip. destruct (lstrip_starts_with_text s) as [-> | H].
  - reflexivity.
  - rewrite (lstrip_text (Py.rstrip (Py.lstrip s)))
      by (by apply rstrip_starts_with_text).
    apply rstrip_idem.
Qed.
























(* --------------------------------------------------------------------- *)
(** ** The search ends: every match consumes text                         *)
(* --------------------------------------------------------------------- *)











(* --------------------------------------------------------------------- *)
(** ** A marker at the start of a line is a boundary                      *)
(* --------------------------------------------------------------------- *)




Lemma eqc_eq a b : Re.eqc a b = true -> a = b.
Proof.
  unfold Re.eqc. intros H%N.eqb_eq.
  by rewrite <- (ascii_N_embedding a), <- (ascii_N_embedding b), H.
Qed.

Lemma digit_not_newline c : Py.is_digit c = true -> Re.is_newline c = false.
Proof.
  unfold Py.is_digit, Re.is_newline. intros H.
  apply andb_prop in H as [H1 _]. apply N.leb_le in H1.
  apply N.eqb_neq. lia.
Qed.


Section Boundary.
(** The text [s2] begins with a character that is not white space. *)
Variable s2 : string.
Hypothesis s2_text : starts_with_text s2 = true.













Hypothesis s2_marker : is_marker s2 = true.


End Boundary.

(* --------------------------------------------------------------------- *)
(** ** One pattern for every convention                                   *)
(* --------------------------------------------------------------------- *)






Section Conventions.
(** A number [d], then white space [w] and any text. *)
Variables (d : string) (w : ascii) (rest : string).
Hypothesis d_digits : all_digits d = true.
Hypothesis d_not_empty : d <> EmptyString.
Hypothesis w_space : Py.is_space w = true.





End Conventions.



(** ** The numbers that [int] reads                                     *)


















(* ===================================================================== *)
(** * The smoke tests of the repository                                   *)
(* ===================================================================== *)

(** [run_pastpaper_batch_smoke]: twelve questions are extracted, and the
    three batches have 5, 5 and 2 questions, with more to come after the
    first two only. *)
Lemma run_pastpaper_batch_smoke :
  let questions := extract_questions [SAMPLE_CONTENT] in
  let session := start_paper "CSC999" "2024" questions new_session in
  let first := get_next_batch 5 session in
  let second := get_next_batch 5 (snd first) in
  let third := get_next_batch 5 (snd second) in
  Py.len questions = 12
  /\ Py.len (fst (fst first)) = 5 /\ snd (fst first) = true
  /\ Py.len (fst (fst second)) = 5 /\ snd (fst second) = true
  /\ Py.len (fst (fst third)) = 2 /\ snd (fst third) = false.
Proof. vm_compute. repeat split. Qed.

(** [run_enumerated_style_smoke]: eighteen questions, the lettered parts
    staying inside their question. *)
Lemma run_enumerated_style_smoke :
  let questions := extract_questions [SAMPLE_ENUMERATED_CONTENT] in
  Py.len questions = 18
  /\ Py.contains "Question 1:" <$> Py.index questions 0 = Some true
  /\ Py.contains "Question 9:" <$> Py.index questions 8 = Some true
  /\ Py.contains "Question 18:" <$> Py.index questions (-1) = Some true.
Proof. vm_compute. repeat split. Qed.

(* ===================================================================== *)
(** * The batches of a paper                                              *)
(* ===================================================================== *)

Lemma well_formed_next b s :
  well_formed s -> well_formed (snd (get_next_batch b s)).
Proof. intros [Ht Hc]. split; cbn; [exact Ht | lia]. Qed.

Lemma batch_take_drop (b : Z) (s : PastPaperSession) :
  0 < b -> well_formed s ->
  fst (fst (get_next_batch b s))
  = take (Z.to_nat b) (drop (Z.to_nat (current_batch s * b)) (questions s)).
Proof.
  intros Hb Hwf. rewrite (get_next_batch_eq b s Hwf). cbn [fst].
  pose proof (start_nonneg b Hb s Hwf) as H0.
  destruct (Z_lt_le_dec (current_batch s * b) (Py.len (questions s))) as [Hlt | Hge].
  - rewrite slice_in_range by lia.
    destruct (Z_le_gt_dec (current_batch s * b + b) (Py.len (questions s))) as [Hle | Hgt].
    + rewrite Z.min_l by lia. f_equal. lia.
    + rewrite Z.min_r by lia.
      rewrite !take_ge; [reflexivity | |];
        rewrite length_drop; unfold Py.len in *; lia.
  - rewrite slice_past_end by lia.
    rewrite drop_ge by (unfold Py.len in *; lia). by rewrite take_nil.
Qed.

Lemma batches_take_drop (b : Z) (n : nat) : forall s,
  0 < b -> well_formed s ->
  concat (map fst (batches b n s))
  = take (n * Z.to_nat b) (drop (Z.to_nat (current_batch s * b)) (questions s)).
Proof.
  induction n as [| n IH]; intros s Hb Hwf; [reflexivity |].
  cbn [batches map concat]. rewrite batch_take_drop by assumption.
  rewrite IH; [| assumption | apply well_formed_next; assumption].
  cbn [get_next_batch snd current_batch questions].
  replace (Z.to_nat ((current_batch s + 1) * b))
    with (Z.to_nat (current_batch s * b) + Z.to_nat b)%nat
    by (destruct Hwf; nia).
  rewrite <- drop_drop, take_take_drop. f_equal.
Qed.

Lemma batches_lookup (b : Z) (n : nat) : forall s (i : nat) batch more,
  0 < b -> well_formed s ->
  batches b n s !! i = Some (batch, more) ->
  let start := (current_batch s + Z.of_nat i) * b in
  let stop := Z.min (start + b) (Py.len (questions s)) in
  batch = Py.slice (questions s) start stop
  /\ more = (stop <? Py.len (questions s)).
Proof.
  induction n as [| n IH]; intros s i batch more Hb Hwf Hi; [done |].
  destruct i as [| i].
  - change (Some (fst (get_next_batch b s)) = Some (batch, more)) in Hi.
    unfold get_next_batch in Hi. cbn [fst] in Hi.
    injection Hi as <- <-. destruct Hwf as [-> _].
    cbn [Z.of_nat]. rewrite Z.add_0_r. split; reflexivity.
  - change (batches b n (snd (get_next_batch b s)) !! i = Some (batch, more)) in Hi.
    apply IH in Hi; [| assumption | by apply well_formed_next].
    cbn [get_next_batch snd current_batch questions] in Hi.
    replace ((current_batch s + Z.of_nat (S i)) * b)
      with ((current_batch s + 1 + Z.of_nat i) * b) by lia.
    exact Hi.
Qed.

(** X1.  Successive calls of [get_next_batch(b)] after [start_paper] cut the
    paper into consecutive slices: the [i]-th call returns
    [questions[i*b : min(i*b+b, q)]] with [has_more] telling whether the
    slice ends before the last question, no batch has more than [b]
    questions, and as soon as [n*b] reaches the number of questions the
    batches of [n] calls, put end to end, are the paper: no question is
    left out, repeated or moved. *)
Theorem batches_partition_the_paper (b : Z) (uc yr : string) (qs : list string)
    (s0 : PastPaperSession) (n : nat) :
  0 < b ->
  let s := start_paper uc yr qs s0 in
  (forall (i : nat) batch more,
     batches b n s !! i = Some (batch, more) ->
     batch = Py.slice qs (Z.of_nat i * b) (Z.min (Z.of_nat i * b + b) (Py.len qs))
     /\ Py.len batch <= b
     /\ more = (Z.of_nat i * b + b <? Py.len qs))
  /\ (Py.len qs <= Z.of_nat n * b -> concat (map fst (batches b n s)) = qs).
Proof.
  intros Hb s.
  assert (Hwf : well_formed s) by (split; cbn; [reflexivity | lia]).
  split.
  - intros i batch more Hi.
    destruct (batches_lookup b n s i batch more Hb Hwf Hi) as [Hbatch Hmore].
    cbn [s start_paper current_batch questions] in Hbatch, Hmore.
    rewrite Z.add_0_l in Hbatch, Hmore.
    split; [exact Hbatch | split].
    + subst batch. assert (0 <= Z.of_nat i * b) by nia.
      destruct (Z_lt_le_dec (Z.of_nat i * b) (Py.len qs)).
      * rewrite slice_length by lia. lia.
      * rewrite slice_past_end by lia. unfold Py.len. cbn [length]. lia.
    + subst more.
      destruct (Z_lt_le_dec (Z.of_nat i * b + b) (Py.len qs)).
      * rewrite Z.min_l by lia. reflexivity.
      * rewrite Z.min_r by lia. rewrite Z.ltb_irrefl. symmetry. apply Z.ltb_ge. lia.
  - intros Hn. rewrite batches_take_drop by assumption.
    cbn [s start_paper current_batch questions].
    rewrite Z.mul_0_l, Z2Nat.inj_0, drop_0.
    apply take_ge. unfold Py.len in *. nia.
Qed.

Lemma batches_partition_the_paper_witness :
  concat (map fst (batches 5 3 (start_paper "CSC999" "2024" twelve new_session)))
  = twelve.
Proof.
  apply (batches_partition_the_paper 5 "CSC999" "2024" twelve new_session 3);
    [lia | vm_compute; discriminate].
Defined.

(** X2.  After [start_paper] and [k] calls of [get_next_batch(b)] the calls
    have delivered [min(k*b, q)] questions, while [get_current_progress]
    reports [min(k*5, q)] of [q]: the progress shown is the number of
    questions delivered for the batch size 5, the default and the only one
    the handler uses, and it never exceeds the total. *)
Theorem progress_counts_delivered (b : Z) (uc yr : string) (qs : list string)
    (s0 : PastPaperSession) (k : nat) :
  0 < b ->
  let s := start_paper uc yr qs s0 in
  let delivered := Py.len (concat (map fst (batches b k s))) in
  delivered = Z.min (Z.of_nat k * b) (Py.len qs)
  /\ get_current_progress (next_batches b k s)
     = (Z.min (Z.of_nat k * 5) (Py.len qs), Py.len qs)
  /\ (b = 5 -> fst (get_current_progress (next_batches b k s)) = delivered)
  /\ 0 <= fst (get_current_progress (next_batches b k s)) <= Py.len qs.
Proof.
  intros Hb s delivered.
  assert (Hwf : well_formed s) by (split; cbn; [reflexivity | lia]).
  assert (Hd : delivered = Z.min (Z.of_nat k * b) (Py.len qs)).
  { unfold delivered. rewrite batches_take_drop by assumption.
    cbn [s start_paper current_batch questions]. rewrite Z.mul_0_l.
    rewrite Z2Nat.inj_0, drop_0. unfold Py.len.
    rewrite length_take, Nat2Z.inj_min, Nat2Z.inj_mul, Z2Nat.id by lia.
    reflexivity. }
  assert (Hp : get_current_progress (next_batches b k s)
               = (Z.min (Z.of_nat k * 5) (Py.len qs), Py.len qs)).
  { unfold get_current_progress.
    destruct (next_batches_cursor b k s) as (-> & _ & _).
    assert (Ht : total_questions (next_batches b k s) = Py.len qs).
    { clear. induction k as [| k IH]; [reflexivity | exact IH]. }
    rewrite Ht. cbn [s start_paper current_batch]. rewrite Z.add_0_l. reflexivity. }
  split; [exact Hd | split; [exact Hp | split]].
  - intros ->. rewrite Hp, Hd. reflexivity.
  - rewrite Hp. cbn [fst]. pose proof (len_nonneg qs). lia.
Qed.

Lemma progress_counts_delivered_witness :
  get_current_progress (after_batches 3%nat) = (12, 12).
Proof.
  apply (progress_counts_delivered 5 "CSC999" "2024" twelve new_session 3). lia.
Defined.

(* ===================================================================== *)
(** * What an intent can hold                                             *)
(* ===================================================================== *)

Lemma int_acc_nonneg d : forall acc,
  all_digits d = true -> 0 <= acc -> 0 <= Py.int_acc acc d.
Proof.
  induction d as [| c d IH]; intros acc Hd Hacc; [exact Hacc |].
  cbn [all_digits] in Hd. apply andb_true_iff in Hd as [Hc Hd].
  cbn [Py.int_acc]. apply IH; [exact Hd |].
  unfold Py.is_digit in Hc. unfold Py.digit_val.
  apply andb_true_iff in Hc as [Hc _]. apply N.leb_le in Hc. lia.
Qed.

Lemma int_nonneg d : all_digits d = true -> 0 <= Py.int d.
Proof. intros Hd. apply int_acc_nonneg; [exact Hd | lia]. Qed.

Lemma digits_all_digits s : all_digits (fst (Re.digits s)) = true.
Proof.
  induction s as [| c r IH]; [reflexivity |].
  cbn [Re.digits]. destruct (Py.is_digit c) eqn:Hc; [| reflexivity].
  destruct (Re.digits r) as [d t]. cbn [fst all_digits] in *.
  by rewrite Hc, IH.
Qed.

Lemma digits1_all_digits s d t :
  Re.digits1 s = Some (d, t) -> all_digits d = true /\ d <> EmptyString.
Proof.
  unfold Re.digits1. pose proof (digits_all_digits s) as Hd.
  destruct (Re.digits s) as [[| c d'] t']; [discriminate |].
  intros [= <- <-]. split; [exact Hd | discriminate].
Qed.

Lemma search_first_some {A} (p : string -> option A) s a :
  search_first p s = Some a -> exists t, p t = Some a.
Proof.
  induction s as [| c r IH]; cbn [search_first].
  - destruct (p EmptyString) eqn:Hp; [| discriminate].
    intros [= <-]. by exists EmptyString.
  - destruct (p (String c r)) eqn:Hp.
    + intros [= <-]. by exists (String c r).
    + exact IH.
Qed.

Lemma search_question_number_nonneg s k :
  search_question_number s = Some k -> 0 <= k.
Proof.
  intros H. apply search_first_some in H as [t H].
  unfold question_number_here in H.
  destruct (Re.lit "question" t) as [t' |]; [| discriminate].
  destruct (Re.digits1 (Re.spaces t')) as [[d r] |] eqn:Hd; [| discriminate].
  injection H as <-. apply int_nonneg. by apply digits1_all_digits in Hd as [? _].
Qed.

Lemma line_no_newline s : no_newline (fst (Re.line s)) = true.
Proof.
  induction s as [| c r IH]; [reflexivity |].
  cbn [Re.line]. destruct (Re.is_newline c) eqn:Hc; [reflexivity |].
  destruct (Re.line r) as [l t]. cbn [fst no_newline] in *. by rewrite Hc, IH.
Qed.

Lemma last_line_start_no_newline s g :
  last_line_start s = Some g -> no_newline g = true.
Proof.
  revert g. induction s as [| c r IH]; intros g; [discriminate |].
  cbn [last_line_start]. destruct (last_line_start r) as [g' |].
  - intros [= <-]. by apply IH.
  - destruct (Re.is_newline c); [discriminate |].
    intros [= <-]. exact (line_no_newline (String c r)).
Qed.

Lemma answer_group_no_newline t g :
  answer_group t = Some g -> no_newline g = true.
Proof.
  unfold answer_group. destruct (Re.spaces t) as [| c r].
  - apply last_line_start_no_newline.
  - intros [= <-]. exact (line_no_newline (String c r)).
Qed.

Lemma first_alt_some {A} (p : string -> option A) alts a :
  first_alt p alts = Some a -> exists k, k ∈ alts /\ p k = Some a.
Proof.
  induction alts as [| k r IH]; [discriminate |].
  cbn [first_alt]. destruct (p k) eqn:Hp.
  - intros [= <-]. exists k. split; [left | exact Hp].
  - intros H. destruct (IH H) as (k' & Hk & Hp'). exists k'. split; [by right | exact Hp'].
Qed.

Lemma search_answer_text_no_newline s g :
  search_answer_text s = Some g -> no_newline g = true.
Proof.
  intros H. apply search_first_some in H as [t H].
  apply first_alt_some in H as (k & _ & H).
  destruct (Re.lit_ci k t) as [t' |]; [| discriminate].
  by apply answer_group_no_newline in H.
Qed.

Lemma lstrip_no_newline s : no_newline s = true -> no_newline (Py.lstrip s) = true.
Proof.
  induction s as [| c r IH]; [done |].
  intros H. cbn [Py.lstrip]. destruct (Py.is_space c); [| exact H].
  cbn [no_newline] in H. apply andb_true_iff in H as [_ H]. by apply IH.
Qed.

Lemma rstrip_no_newline s : no_newline s = true -> no_newline (Py.rstrip s) = true.
Proof.
  induction s as [| c r IH]; [done |].
  intros H. cbn [no_newline] in H. apply andb_true_iff in H as [Hc H].
  cbn [Py.rstrip]. specialize (IH H). destruct (Py.rstrip r) as [| d r'].
  - destruct (Py.is_space c); [reflexivity |]. cbn [no_newline]. by rewrite Hc.
  - cbn [no_newline] in *. by rewrite Hc, IH.
Qed.

Lemma strip_no_newline s : no_newline s = true -> no_newline (Py.strip s) = true.
Proof. intros H. by apply rstrip_no_newline, lstrip_no_newline. Qed.

Lemma parse_question_num user_input k :
  question_num (parse_user_intent user_input) = Some k ->
  0 <= k /\ search_question_number (Py.lower user_input) = Some k.
Proof.
  unfold parse_user_intent. cbn [question_num].
  set (low := Py.lower user_input).
  destruct (search_words ["answer"; "my answer"; "i think"; "solution"] false low);
    destruct (search_words ["clarify"; "explain"; "help"; "confused"; "understand"]
                false low);
    destruct (search_question_number low) as [n |] eqn:Hn; try discriminate;
    intros [= <-]; (split; [by apply (search_question_number_nonneg low) | reflexivity]).
Qed.

Lemma parse_answer_text user_input a :
  answer_text (parse_user_intent user_input) = Some a ->
  no_newline a = true /\ Py.strip a = a.
Proof.
  unfold parse_user_intent. cbn [answer_text].
  destruct (search_words ["answer"; "my answer"; "i think"; "solution"] false
              (Py.lower user_input)); [| discriminate].
  destruct (search_answer_text user_input) as [g |] eqn:Hg; [| discriminate].
  intros [= <-]. split; [| apply strip_idem].
  apply strip_no_newline. by apply search_answer_text_no_newline in Hg.
Qed.

(** X3.  A question number in the intent of any utterance is the value of a
    run of decimal digits after the word [question]: it is never negative,
    and it is there only when the utterance asks for a clarification or
    gives an answer.  So the test [not q_num] and the bound
    [q_num > len(questions)] of the handler leave exactly the numbers 1 to
    [q]. *)
Theorem question_number_is_natural (user_input : string) (k : Z) :
  question_num (parse_user_intent user_input) = Some k ->
  0 <= k
  /\ (wants_clarification (parse_user_intent user_input) = true
      \/ has_answer (parse_user_intent user_input) = true)
  /\ search_question_number (Py.lower user_input) = Some k.
Proof.
  intros H. destruct (parse_question_num _ _ H) as [Hk Hs].
  split; [exact Hk | split; [| exact Hs]].
  revert H. unfold parse_user_intent.
  cbn [question_num wants_clarification has_answer].
  destruct (search_words ["answer"; "my answer"; "i think"; "solution"] false _);
    destruct (search_words ["clarify"; "explain"; "help"; "confused"; "understand"]
                false _); try discriminate; tauto.
Qed.

Lemma question_number_is_natural_witness :
  0 <= 3
  /\ (wants_clarification (parse_user_intent "Can you explain Question 3?") = true
      \/ has_answer (parse_user_intent "Can you explain Question 3?") = true)
  /\ search_question_number (Py.lower "Can you explain Question 3?") = Some 3.
Proof.
  apply (question_number_is_natural "Can you explain Question 3?" 3). reflexivity.
Defined.

(** X4.  The answer text in the intent of any utterance is one line without
    white space around it: it has no line feed, stripping it again changes
    nothing, and it is there only when the utterance is taken as an
    answer.  An answer written over several lines is cut at the end of the
    line on which it starts. *)
Theorem answer_text_is_one_line (user_input a : string) :
  answer_text (parse_user_intent user_input) = Some a ->
  no_newline a = true /\ Py.strip a = a
  /\ has_answer (parse_user_intent user_input) = true.
Proof.
  intros H. destruct (parse_answer_text _ _ H) as [Hn Hs].
  split; [exact Hn | split; [exact Hs |]].
  revert H. unfold parse_user_intent. cbn [answer_text has_answer].
  by destruct (search_words ["answer"; "my answer"; "i think"; "solution"] false _).
Qed.

Lemma answer_text_is_one_line_witness :
  let u := "The answer is a packet filter
that also keeps state" in
  answer_text (parse_user_intent u) = Some "a packet filter"
  /\ no_newline "a packet filter" = true.
Proof.
  split; [reflexivity |].
  apply (answer_text_is_one_line "The answer is a packet filter
that also keeps state" "a packet filter"). reflexivity.
Defined.

(* ===================================================================== *)
(** * The unit code and the year of a request                             *)
(* ===================================================================== *)

Lemma search_bounded_some {A} (p : string -> option A) s : forall prev a,
  search_bounded p prev s = Some a -> exists t, p t = Some a.
Proof.
  induction s as [| c r IH]; intros prev a; [discriminate |].
  cbn [search_bounded]. destruct prev.
  - apply IH.
  - destruct (p (String c r)) eqn:Hp.
    + intros [= <-]. by exists (String c r).
    + apply IH.
Qed.

Lemma chars_3 cls s t :
  chars cls 3 s = Some t ->
  exists a b c, s = String a (String b (String c t))
    /\ cls a = true /\ cls b = true /\ cls c = true.
Proof.
  destruct s as [| a [| b [| c r]]]; cbn [chars]; try discriminate.
  - destruct (cls a); discriminate.
  - destruct (cls a); [| discriminate]. destruct (cls b); discriminate.
  - destruct (cls a) eqn:Ha; [| discriminate].
    destruct (cls b) eqn:Hb; [| discriminate].
    destruct (cls c) eqn:Hc; [| discriminate].
    intros [= <-]. by exists a, b, c.
Qed.

Lemma unit_here_shape s x :
  unit_here s = Some x -> unit_code_shape x = true /\ slength x = 6%nat.
Proof.
  unfold unit_here.
  destruct (chars Py.is_upper 3 s) as [t |] eqn:Hu; [| discriminate].
  destruct (chars Py.is_digit 3 t) as [r |] eqn:Hd; [| discriminate].
  apply chars_3 in Hu as (a & b & c & -> & Ha & Hb & Hc).
  apply chars_3 in Hd as (d & e & f & -> & Hd & He & Hf).
  assert (Hx : unit_code_shape
                 (String a (String b (String c (String d (String e (String f EmptyString))))))
               = true).
  { unfold unit_code_shape. cbn [chars]. by rewrite Ha, Hb, Hc, Hd, He, Hf. }
  intros H.
  assert (x = String a (String b (String c (String d (String e (String f EmptyString))))))
    as ->.
  { destruct r as [| g r]; [| destruct (Py.is_word g); [discriminate |]];
      by injection H as <-. }
  split; [exact Hx | reflexivity].
Qed.

Lemma year_here_shape s y :
  year_here s = Some y -> year_shape y = true /\ 2000 <= Py.int y <= 2039.
Proof.
  unfold year_here.
  destruct s as [| a [| b [| c [| d t]]]]; cbn [Re.lit]; try discriminate;
    try (repeat match goal with
                | |- context [Re.eqc ?x ?y] => destruct (Re.eqc x y)
                end; discriminate).
  destruct (Re.eqc "2" a) eqn:Ha; [| discriminate].
  destruct (Re.eqc "0" b) eqn:Hb; [| discriminate].
  apply eqc_eq in Ha as <-. apply eqc_eq in Hb as <-.
  destruct (_ || _) eqn:Hc; [| discriminate].
  destruct (Py.is_digit d) eqn:Hd; [| discriminate].
  intros H.
  assert (y = String "2" (String "0" (String c (String d EmptyString)))) as ->.
  { destruct t as [| e t]; [| destruct (Py.is_word e); [discriminate |]];
      by injection H as <-. }
  split.
  - unfold year_shape. cbn [Re.lit]. change (Re.eqc "2" "2") with true.
    change (Re.eqc "0" "0") with true. cbv iota. by rewrite Hc, Hd.
  - assert (0 <= Py.digit_val c <= 3) as Hcv.
    { repeat (apply orb_true_iff in Hc as [Hc | Hc]);
        apply eqc_eq in Hc as ->; vm_compute; split; discriminate. }
    assert (0 <= Py.digit_val d <= 9) as Hdv.
    { unfold Py.is_digit in Hd. apply andb_true_iff in Hd as [H1 H2].
      apply N.leb_le in H1, H2. unfold Py.digit_val. lia. }
    unfold Py.int. cbn [Py.int_acc].
    change (Py.digit_val "2") with 2. change (Py.digit_val "0") with 0. lia.
Qed.

(** X5.  Whatever the utterance, a unit code that [_extract_paper_details]
    finds is made of three capital letters and three digits (it is read in
    the upper-cased utterance), and a year that it finds is [20] followed by
    a digit from 0 to 3 and one more digit: a number from 2000 to 2039, the
    years 2031 to 2039 included although the comment of the code says
    2000-2030. *)
Theorem paper_details_shape (user_input : string) (code yr : option string) :
  extract_paper_details user_input = (code, yr) ->
  (forall x, code = Some x -> unit_code_shape x = true /\ slength x = 6%nat)
  /\ (forall y, yr = Some y -> year_shape y = true /\ 2000 <= Py.int y <= 2039).
Proof.
  unfold extract_paper_details. intros [= <- <-]. split.
  - intros x H. apply search_bounded_some in H as [t H]. by apply unit_here_shape in H.
  - intros y H. apply search_bounded_some in H as [t H]. by apply year_here_shape in H.
Qed.

Lemma paper_details_shape_witness :
  extract_paper_details "csc231 exam of 2039" = (Some "CSC231", Some "2039")
  /\ 2000 <= Py.int "2039" <= 2039.
Proof.
  split; [reflexivity |].
  apply (proj2 (paper_details_shape "csc231 exam of 2039" (Some "CSC231")
                  (Some "2039") eq_refl) "2039" eq_refl).
Defined.

(* ===================================================================== *)
(** * What the extraction returns                                         *)
(* ===================================================================== *)

Lemma number_digits s d t :
  number s = Some (d, t) -> all_digits d = true /\ d <> EmptyString.
Proof.
  unfold number. destruct s as [| c r]; [discriminate |].
  destruct (Re.eqc c "(").
  - destruct (Re.digits1 r) as [[d' [| c' t']] |] eqn:Hd; try discriminate.
    destruct (Re.eqc c' ")"); [| discriminate].
    intros [= <- <-]. by apply digits1_all_digits in Hd.
  - destruct (Re.digits1 (String c r)) as [[d' [| c' t']] |] eqn:Hd; try discriminate.
    destruct (is_terminator c'); [| discriminate].
    intros [= <- <-]. by apply digits1_all_digits in Hd.
Qed.

Lemma marker_digits s d b bol :
  marker s = Some (d, b, bol) -> all_digits d = true /\ d <> EmptyString.
Proof.
  unfold marker.
  destruct (number (q_prefix (Re.spaces s))) as [[d' t] |] eqn:Hn; [| discriminate].
  destruct (Re.spaces1 t); [| discriminate].
  intros [= <- <- <-]. by apply number_digits in Hn.
Qed.

Lemma finditer_from_digits fuel : forall bol s d q,
  (d, q) ∈ finditer_from fuel bol s -> all_digits d = true /\ d <> EmptyString.
Proof.
  induction fuel as [| fuel IH]; intros bol s d q; cbn [finditer_from].
  - intros H. by apply elem_of_nil in H.
  - destruct s as [| c r]; [intros H; by apply elem_of_nil in H |].
    destruct (if bol then marker (String c r) else None) as [[[d' b] bol'] |] eqn:Hm.
    + destruct (body bol' b) as [q' t]. intros H.
      apply elem_of_cons in H as [[= -> ->] | H]; [| by eapply IH].
      destruct bol; [| discriminate]. by apply marker_digits in Hm.
    + apply IH.
Qed.

Lemma truthy_slen t : 3 < Py.slen t -> Py.truthy t = true.
Proof. destruct t; [unfold Py.slen; cbn; lia | reflexivity]. Qed.

Lemma elem_of_numbered all_content q :
  q ∈ numbered all_content ->
  exists d b, (d, b) ∈ finditer all_content /\ 3 < Py.slen (Py.strip b)
    /\ q = render (Py.int d) (Py.strip b).
Proof.
  unfold numbered. intros H. apply list_elem_of_fmap in H as ([n t] & -> & H).
  rewrite (sorted_by_perm fst) in H. unfold extracted in H.
  apply list_elem_of_omap in H as ([d b] & Hin & H). cbn [fst snd] in H.
  destruct (Py.truthy (Py.strip b)); [| discriminate].
  destruct (Z.ltb_spec 3 (Py.slen (Py.strip b))); [| discriminate].
  injection H as <- <-. by exists d, b.
Qed.

Lemma elem_of_sections all_content sec :
  sec ∈ sections all_content ->
  exists piece, piece ∈ split_blank false all_content
    /\ sec = Py.strip piece /\ sec <> EmptyString.
Proof.
  unfold sections. intros H. apply list_elem_of_omap in H as (piece & Hin & H).
  cbn zeta in H. destruct (Py.strip piece) eqn:Hs; [discriminate |].
  injection H as <-. exists piece. by rewrite Hs.
Qed.

Lemma elem_of_fallback all_content q :
  q ∈ fallback all_content ->
  exists (i : nat) sec, sections all_content !! i = Some sec
    /\ 20 < Py.slen sec /\ q = render (Z.of_nat i + 1) sec.
Proof.
  unfold fallback. intros H. apply list_elem_of_omap in H as ([i sec] & Hin & H).
  cbn [fst snd] in H. apply elem_of_enumerate_from in Hin as (n & Hn & ->).
  destruct (Z.ltb_spec 20 (Py.slen sec)); [| discriminate].
  injection H as <-. exists n, sec. by rewrite Z.add_0_l.
Qed.

Lemma elem_of_extract_questions documents q :
  q ∈ extract_questions documents ->
  exists n t,
    q = render n t /\ 0 <= n /\ Py.strip t = t /\ 3 < Py.slen t
    /\ (numbered (Py.join (String Re.newline EmptyString) documents) = [] ->
        1 <= n /\ 20 < Py.slen t).
Proof.
  unfold extract_questions. cbn zeta.
  set (all_content := Py.join (String Re.newline EmptyString) documents).
  destruct (numbered all_content) as [| q0 qs] eqn:Hn.
  - intros H. apply elem_of_fallback in H as (i & sec & Hi & Hlen & ->).
    apply list_elem_of_lookup_2 in Hi.
    apply elem_of_sections in Hi as (piece & _ & -> & _).
    exists (Z.of_nat i + 1), (Py.strip piece).
    split; [reflexivity |]. split; [lia |]. split; [apply strip_idem |].
    split; [lia |]. intros _. lia.
  - rewrite <- Hn. intros H.
    apply elem_of_numbered in H as (d & b & Hin & Hlen & ->).
    exists (Py.int d), (Py.strip b). split; [reflexivity |].
    apply finditer_from_digits in Hin as [Hd _].
    split; [by apply int_nonneg |]. split; [apply strip_idem |].
    split; [exact Hlen |]. rewrite Hn. discriminate.
Qed.

(** X6.  From documents of ASCII text whose runs of digits are within the
    limit of [int], every question that [extract_questions] returns reads
    [Question <n>: <text>], where [n] is not negative and the text has no
    white space around it and is more than three characters long; on the
    fallback path (no question from the markers) [n] is at least 1 and the
    text is more than twenty characters long. *)
Theorem extracted_questions_are_rendered (documents : list string) (q : string) :
  let all_content := Py.join (String Re.newline EmptyString) documents in
  Py.isascii all_content = true -> numbers_within_limit all_content = true ->
  q ∈ extract_questions documents ->
  exists n t,
    q = render n t /\ 0 <= n /\ Py.strip t = t /\ 3 < Py.slen t
    /\ (numbered all_content = [] -> 1 <= n /\ 20 < Py.slen t).
Proof. intros all_content _ _. apply elem_of_extract_questions. Qed.

Lemma extracted_questions_are_rendered_witness :
  exists n t,
    "Question 5: Define network latency." = render n t
    /\ 0 <= n /\ Py.strip t = t /\ 3 < Py.slen t
    /\ (numbered (Py.join (String Re.newline EmptyString) [gapped_questions]) = [] ->
        1 <= n /\ 20 < Py.slen t).
Proof.
  apply (extracted_questions_are_rendered [gapped_questions]);
    [reflexivity | reflexivity |].
  vm_compute. right. left.
Defined.

(** ** Without a digit there is no marker *)

Lemma has_digit_lstrip s : has_digit (Py.lstrip s) = true -> has_digit s = true.
Proof.
  induction s as [| c r IH]; [done |]. cbn [Py.lstrip].
  destruct (Py.is_space c); [| done]. intros H. cbn [has_digit].
  rewrite (IH H). apply orb_true_r.
Qed.

Lemma has_digit_lit p s t :
  Re.lit p s = Some t -> has_digit t = true -> has_digit s = true.
Proof.
  revert s. induction p as [| a p IH]; intros [| b s]; cbn [Re.lit];
    try discriminate; try (by intros [= <-]).
  destruct (Re.eqc a b); [| discriminate]. intros H Ht. cbn [has_digit].
  rewrite (IH _ H Ht). apply orb_true_r.
Qed.

Lemma has_digit_q_prefix s : has_digit (q_prefix s) = true -> has_digit s = true.
Proof.
  unfold q_prefix. destruct (Re.lit "Q" s) as [r |] eqn:HQ; [| done].
  intros H. apply has_digit_lstrip in H. apply (has_digit_lit _ _ _ HQ).
  destruct (Re.lit "uestion" r) as [r' |] eqn:Hu; [| exact H].
  by apply (has_digit_lit _ _ _ Hu).
Qed.

Lemma digits1_has_digit s d t : Re.digits1 s = Some (d, t) -> has_digit s = true.
Proof.
  unfold Re.digits1. destruct s as [| c r]; [discriminate |].
  cbn [Re.digits has_digit]. destruct (Py.is_digit c); [done |]. discriminate.
Qed.

Lemma number_has_digit s d t : number s = Some (d, t) -> has_digit s = true.
Proof.
  unfold number. destruct s as [| c r]; [discriminate |].
  destruct (Re.eqc c "(").
  - destruct (Re.digits1 r) as [[d' t'] |] eqn:Hd; [| discriminate].
    intros _. cbn [has_digit]. rewrite (digits1_has_digit _ _ _ Hd).
    apply orb_true_r.
  - destruct (Re.digits1 (String c r)) as [[d' t'] |] eqn:Hd; [| discriminate].
    intros _. by apply digits1_has_digit in Hd.
Qed.

Lemma marker_has_digit s : has_digit s = false -> marker s = None.
Proof.
  intros H. unfold marker.
  destruct (number (q_prefix (Re.spaces s))) as [[d t] |] eqn:Hn; [| done].
  apply number_has_digit, has_digit_q_prefix, has_digit_lstrip in Hn. congruence.
Qed.

Lemma finditer_from_no_digit fuel : forall bol s,
  has_digit s = false -> finditer_from fuel bol s = [].
Proof.
  induction fuel as [| fuel IH]; intros bol s H; [reflexivity |].
  cbn [finditer_from]. destruct s as [| c r]; [reflexivity |].
  rewrite (marker_has_digit _ H).
  cbn [has_digit] in H. apply orb_false_iff in H as [_ H].
  destruct bol; by apply IH.
Qed.

(** X7.  Every marker of the question pattern holds a number: an ASCII
    text without any decimal digit has no match, whatever its letters,
    brackets and line breaks, so [extract_questions] segments it by blank
    lines (the fallback). *)
Theorem no_digit_no_marker (documents : list string) :
  let all_content := Py.join (String Re.newline EmptyString) documents in
  Py.isascii all_content = true -> has_digit all_content = false ->
  finditer all_content = []
  /\ extract_questions documents = fallback all_content.
Proof.
  intros all_content _ H.
  assert (Hf : finditer all_content = []) by (by apply finditer_from_no_digit).
  split; [exact Hf |].
  unfold extract_questions, numbered. fold all_content. by rewrite Hf.
Qed.

Lemma no_digit_no_marker_witness :
  extract_questions ["a) Define a firewall in your own words.

b) Explain packet filtering."]
  = ["Question 1: a) Define a firewall in your own words.";
     "Question 2: b) Explain packet filtering."].
Proof.
  rewrite (proj2 (no_digit_no_marker ["a) Define a firewall in your own words.

b) Explain packet filtering."] eq_refl eq_refl)).
  reflexivity.
Defined.

(* ===================================================================== *)
(** * The display of a batch                                              *)
(* ===================================================================== *)

Lemma eqc_refl a : Re.eqc a a = true.
Proof. apply N.eqb_refl. Qed.

Lemma lit_app p r : Re.lit p (p +:+ r) = Some r.
Proof.
  induction p as [| a p IH]; [by destruct r |].
  rewrite string_app_cons. cbn [Re.lit]. by rewrite eqc_refl.
Qed.

Lemma str_starts_with_text n : starts_with_text (Py.str n) = true.
Proof.
  unfold Py.str, NilZero.string_of_int, NilZero.string_of_uint.
  destruct (to_int_nonnil n) as [Hp Hn].
  destruct (Z.to_int n) as [d | d]; destruct d; try done.
Qed.

Lemma starts_with_text_app s t :
  starts_with_text s = true -> starts_with_text (s +:+ t) = true.
Proof. destruct s; [done |]. by rewrite string_app_cons. Qed.

Lemma lstrip_idem s : Py.lstrip (Py.lstrip s) = Py.lstrip s.
Proof.
  destruct (lstrip_starts_with_text s) as [-> | H]; [reflexivity |].
  by apply lstrip_text.
Qed.

(** What is left of a rendered question after [^\s*Question\s+]. *)
Lemma rendered_after_question n t :
  match Re.lit "Question" (Re.spaces (render n t)) with
  | Some r => Re.spaces1 r
  | None => None
  end = Some (Py.str n +:+ ": " +:+ t).
Proof.
  unfold render.
  change (Re.spaces ("Question " +:+ Py.str n +:+ ": " +:+ t))
    with ("Question" +:+ String " " (Py.str n +:+ ": " +:+ t)).
  rewrite lit_app. cbn [Re.spaces1]. change (Py.is_space " ") with true. cbv iota.
  unfold Re.spaces.
  by rewrite lstrip_text by apply starts_with_text_app, str_starts_with_text.
Qed.

Lemma remove_heading_eq q_index raw :
  remove_heading q_index raw
  = match (match Re.lit "Question" (Re.spaces raw) with
           | Some r => Re.spaces1 r
           | None => None
           end) with
    | Some r1 =>
        match Re.lit (Py.str q_index) r1 with
        | Some r2 =>
            match Re.lit ":" r2 with
            | Some r3 => Re.spaces r3
            | None => raw
            end
        | None => raw
        end
    | None => raw
    end.
Proof.
  unfold remove_heading. destruct (Re.lit "Question" (Re.spaces raw)); reflexivity.
Qed.

(** The heading of a question with the number looked for is removed, with
    the white space after it. *)
Lemma remove_heading_same n t : remove_heading n (render n t) = Py.lstrip t.
Proof.
  rewrite remove_heading_eq, rendered_after_question, lit_app.
  change (": " +:+ t) with (String ":" (String " " t)). cbn [Re.lit].
  rewrite eqc_refl. unfold Re.spaces. cbn [Py.lstrip].
  by change (Py.is_space " ") with true.
Qed.

Lemma lit_colon p : forall a s r2 r3,
  no_colon p = true -> no_colon a = true ->
  Re.lit p (a +:+ String ":" s) = Some r2 -> Re.lit ":" r2 = Some r3 -> p = a.
Proof.
  induction p as [| x p IH]; intros [| y a] s r2 r3 Hp Ha.
  - done.
  - cbn [Re.lit]. intros [= <-]. rewrite string_app_cons. cbn [Re.lit].
    destruct (Re.eqc ":" y) eqn:E; [| discriminate].
    apply eqc_eq in E as <-. discriminate.
  - rewrite string_app_nil. cbn [Re.lit].
    destruct (Re.eqc x ":") eqn:E; [| discriminate].
    cbn [no_colon] in Hp. by rewrite E in Hp.
  - rewrite string_app_cons. cbn [Re.lit].
    destruct (Re.eqc x y) eqn:E; [| discriminate].
    apply eqc_eq in E as <-. intros H2 H3. f_equal.
    cbn [no_colon] in Hp, Ha.
    apply andb_true_iff in Hp as [_ Hp]. apply andb_true_iff in Ha as [_ Ha].
    by apply (IH a s r2 r3).
Qed.

(** The heading of a question with another number stays. *)
Lemma remove_heading_other m n t :
  m <> n -> remove_heading m (render n t) = render n t.
Proof.
  intros Hmn. rewrite remove_heading_eq, rendered_after_question.
  destruct (Re.lit (Py.str m) (Py.str n +:+ ": " +:+ t)) as [r2 |] eqn:H2;
    [| reflexivity].
  destruct (Re.lit ":" r2) as [r3 |] eqn:H3; [| reflexivity].
  exfalso. apply Hmn, str_inj.
  exact (lit_colon _ _ _ _ _ (no_colon_str m) (no_colon_str n) H2 H3).
Qed.

Lemma string_app_assoc a b c : (a +:+ b) +:+ c = a +:+ b +:+ c.
Proof.
  induction a as [| x a IH]; [by rewrite !string_app_nil |].
  by rewrite !string_app_cons, IH.
Qed.

Lemma rstrip_app p t :
  t <> EmptyString -> Py.rstrip t = t -> Py.rstrip (p +:+ t) = p +:+ t.
Proof.
  intros Ht Hr. induction p as [| c p IH]; [by rewrite string_app_nil |].
  rewrite string_app_cons. cbn [Py.rstrip]. rewrite IH.
  destruct (p +:+ t) eqn:E; [| reflexivity].
  destruct p; [by rewrite string_app_nil in E | by rewrite string_app_cons in E].
Qed.

Lemma strip_fixed_rstrip t : Py.strip t = t -> Py.rstrip t = t.
Proof. intros H. rewrite <- H at 1. unfold Py.strip. rewrite rstrip_idem. exact H. Qed.

Lemma strip_render n t :
  Py.strip t = t -> t <> EmptyString -> Py.strip (render n t) = render n t.
Proof.
  intros Hs Ht. unfold Py.strip. rewrite (lstrip_text (render n t)) by reflexivity.
  assert (render n t = ("Question " +:+ Py.str n +:+ ": ") +:+ t) as ->
    by (unfold render; by rewrite !string_app_assoc).
  apply rstrip_app; [exact Ht | by apply strip_fixed_rstrip].
Qed.

(** X8.  [format_batch] shows the question at position [m] of the paper
    under the heading [**Question m:**], and it removes the heading
    [Question n:] that [extract_questions] put before the text exactly when
    [n = m]: then the block holds the text alone.  When the two numbers
    differ, as for a paper that does not number its questions 1, 2, 3, ...,
    the block keeps the heading of the extraction under the heading of the
    display. *)
Theorem heading_removed_when_numbers_agree (start_num offset n : Z) (t : string) :
  Py.strip t = t -> t <> EmptyString ->
  let m := start_num + offset in
  format_block start_num None (offset, render n t)
  = "**Question " +:+ Py.str m +:+ ":**"
    +:+ String Re.newline (if n =? m then t else render n t)
    +:+ String Re.newline EmptyString.
Proof.
  intros Hs Ht m. unfold format_block. cbn [fst snd answer_for]. fold m.
  destruct (Z.eqb_spec n m) as [-> | Hne].
  - rewrite remove_heading_same.
    assert (Py.strip (Py.lstrip t) = t) as ->; [| reflexivity].
    unfold Py.strip. rewrite lstrip_idem. exact Hs.
  - rewrite remove_heading_other by congruence.
    by rewrite strip_render.
Qed.

Lemma heading_removed_when_numbers_agree_witness :
  format_block 1 None (0, "Question 1: Define a firewall.")
  = "**Question 1:**
Define a firewall.
"
  /\ format_block 1 None (1, "Question 5: Define network latency.")
     = "**Question 2:**
Question 5: Define network latency.
".
Proof.
  split.
  - apply (heading_removed_when_numbers_agree 1 0 1 "Define a firewall.");
      [reflexivity | discriminate].
  - apply (heading_removed_when_numbers_agree 1 1 5 "Define network latency.");
      [reflexivity | discriminate].
Defined.

(* ===================================================================== *)
(** * The ways in which a request ends                                    *)
(* ===================================================================== *)

Section Outcomes.
Variable llm : list prompt -> prompt -> option string.
Variable retrieve : search_filter -> string -> list string.

Lemma start_new_paper_outcome u s log :
  is_active s = false \/ is_new_paper_request u = true ->
  exists r s',
    start_new_paper retrieve u {| session := s; llm_calls := log |}
    = (r, {| session := s'; llm_calls := log |})
    /\ outcome llm u s log r s' log.
Proof.
  intros Hnew. unfold start_new_paper.
  destruct (extract_paper_details u) as [code yr] eqn:Hd.
  match goal with |- context [match ?d with [] => ret _ | _ => _ end] =>
    destruct d as [| d0 docs] eqn:Hdocs end.
  { eexists _, _. split; [reflexivity |].
    pose proof (NothingFound llm u s log Hnew) as H. by rewrite Hd in H. }
  destruct (extract_questions (d0 :: docs)) as [| q0 qs] eqn:E.
  { eexists _, _. split; [reflexivity |]. by apply NothingExtracted. }
  pose proof (Started llm u s log (d0 :: docs) Hnew) as H.
  rewrite Hd, E in H. cbn [fst snd] in H. cbn zeta in H.
  specialize (H ltac:(discriminate)).
  eexists _, _. split; [| exact H].
  run. unfold default_batch_size.
  destruct (get_next_batch 5 _) as [[batch more] s'] eqn:G.
  cbn [session fst snd].
  unfold get_next_batch in G. by injection G as <- <- <-.
Qed.

Lemma show_next_batch_outcome u s log :
  is_active s = true -> is_new_paper_request u = false ->
  wants_stop (parse_user_intent u) = false ->
  wants_next (parse_user_intent u) = true
  \/ (wants_clarification (parse_user_intent u) = false
      /\ has_answer (parse_user_intent u) = false) ->
  exists r s',
    show_next_batch {| session := s; llm_calls := log |}
    = (r, {| session := s'; llm_calls := log |})
    /\ outcome llm u s log r s' log.
Proof.
  intros Hact Hnew Hstop Hnext. unfold show_next_batch, default_batch_size. run.
  rewrite Hact. cbn [negb]. run.
  destruct (get_next_batch 5 s) as [[batch more] s'] eqn:G. cbn [fst snd].
  destruct batch as [| x batch].
  - eexists _, _. split; [reflexivity |]. apply Completed; try done.
    by rewrite G.
  - pose proof (Continued llm u s log Hact Hnew Hstop Hnext) as H. cbn zeta in H.
    rewrite G in H. cbn [fst snd] in H. specialize (H ltac:(discriminate)).
    eexists _, _. split; [| exact H]. run.
    assert (current_batch s' = current_batch s + 1) as Hc
      by (unfold get_next_batch in G; by injection G as _ _ <-).
    assert (unit_code s' = unit_code s /\ year s' = year s) as [-> ->]
      by (unfold get_next_batch in G; by injection G as _ _ <-).
    rewrite Hc. do 3 f_equal. lia.
Qed.

Lemma provide_clarification_outcome u s log :
  is_active s = true -> is_new_paper_request u = false ->
  wants_stop (parse_user_intent u) = false ->
  wants_next (parse_user_intent u) = false ->
  wants_clarification (parse_user_intent u) = true ->
  exists r log',
    provide_clarification llm (parse_user_intent u)
      {| session := s; llm_calls := log |}
    = (r, {| session := s; llm_calls := log' |})
    /\ outcome llm u s log r s log'.
Proof.
  intros Hact Hnew Hstop Hnext Hclar.
  destruct (question_num (parse_user_intent u)) as [k |] eqn:Hk.
  - destruct (parse_question_num _ _ Hk) as [Hk0 _].
    destruct (decide (1 <= k <= Py.len (questions s))) as [Hin | Hout].
    + destruct (index_in_range (questions s) k Hin) as [q Hq].
      eexists _, _. split.
      * by apply (provide_clarification_in_range llm _ s log k q).
      * by apply (Clarified llm u s log k q).
    + eexists _, _. split; [| apply ClarificationRefused; try done].
      * unfold provide_clarification. run. rewrite Hact, Hk. cbn [negb].
        destruct (Z.eqb_spec k 0) as [-> | Hne]; [reflexivity |].
        assert ((Py.len (questions s) <? k) = true) as -> by lia.
        reflexivity.
      * intros k' Hk'. rewrite Hk in Hk'. injection Hk' as <-. lia.
  - eexists _, _. split; [| apply ClarificationRefused; try done].
    + unfold provide_clarification. run. by rewrite Hact, Hk.
    + intros k' Hk'. congruence.
Qed.

Lemma process_answer_outcome u s log :
  is_active s = true -> is_new_paper_request u = false ->
  wants_stop (parse_user_intent u) = false ->
  wants_next (parse_user_intent u) = false ->
  wants_clarification (parse_user_intent u) = false ->
  has_answer (parse_user_intent u) = true ->
  exists r s' log',
    process_answer llm (parse_user_intent u)
      {| session := s; llm_calls := log |}
    = (r, {| session := s'; llm_calls := log' |})
    /\ outcome llm u s log r s' log'.
Proof.
  intros Hact Hnew Hstop Hnext Hclar Hans.
  destruct (question_num (parse_user_intent u)) as [k |] eqn:Hk;
    [destruct (answer_text (parse_user_intent u)) as [a |] eqn:Ha |].
  - destruct (parse_question_num _ _ Hk) as [Hk0 _].
    destruct (parse_answer_text _ _ Ha) as [Hline Hstrip].
    destruct (decide (k = 0)) as [-> | Hne].
    { eexists _, _, _. split; [| apply AnswerRefused; try done].
      - unfold process_answer. run. by rewrite Hact, Hk, Ha.
      - left. by rewrite Hk. }
    destruct (decide (a = EmptyString)) as [-> | Hnon].
    { eexists _, _, _. split; [| apply AnswerRefused; try done].
      - unfold process_answer. run. rewrite Hact, Hk, Ha. cbn [negb Py.truthy].
        by rewrite orb_true_r.
      - right. by rewrite Ha. }
    assert (Hone : one_line a) by done.
    rewrite (process_answer_eq llm _ s log k a Hact Hk Ha Hne Hnon).
    destruct (Z_le_gt_dec k (Py.len (questions s))) as [Hle | Hgt].
    + destruct (index_in_range (questions s) k ltac:(lia)) as [q Hq].
      rewrite Hq. eexists _, _, _. split; [reflexivity |].
      apply (Graded llm u s log k a q); try done. lia.
    + rewrite index_past_end by lia.
      eexists _, _, _. split; [reflexivity |].
      apply (AnswerPastEnd llm u s log k a); try done. lia.
  - eexists _, _, _. split; [| apply AnswerRefused; try done].
    + unfold process_answer. run. by rewrite Hact, Hk, Ha.
    + right. by rewrite Ha.
  - eexists _, _, _. split; [| apply AnswerRefused; try done].
    + unfold process_answer. run. by rewrite Hact, Hk.
    + left. by rewrite Hk.
Qed.

Lemma handle_session_outcome u s log :
  exists r s' log',
    handle_session llm retrieve u {| session := s; llm_calls := log |}
    = (r, {| session := s'; llm_calls := log' |})
    /\ outcome llm u s log r s' log'.
Proof.
  unfold handle_session. run.
  destruct (is_active s) eqn:Hact; cbn [negb orb].
  2: { destruct (start_new_paper_outcome u s log) as (r & s' & E & H);
         [by left | by exists r, s', log]. }
  destruct (is_new_paper_request u) eqn:Hnew.
  { destruct (start_new_paper_outcome u s log) as (r & s' & E & H);
      [by right | by exists r, s', log]. }
  destruct (wants_stop (parse_user_intent u)) eqn:Hstop.
  { eexists _, _, _. split; [reflexivity |]. by apply Ended. }
  assert (Hshow :
    wants_next (parse_user_intent u) = true
    \/ (wants_clarification (parse_user_intent u) = false
        /\ has_answer (parse_user_intent u) = false) ->
    exists r s' log',
      show_next_batch {| session := s; llm_calls := log |}
      = (r, {| session := s'; llm_calls := log' |})
      /\ outcome llm u s log r s' log').
  { intros Hn.
    destruct (show_next_batch_outcome u s log Hact Hnew Hstop Hn) as (r & s' & E & H).
    by exists r, s', log. }
  destruct (wants_next (parse_user_intent u)) eqn:Hnext; [by apply Hshow; left |].
  destruct (wants_clarification (parse_user_intent u)) eqn:Hclar.
  { destruct (provide_clarification_outcome u s log Hact Hnew Hstop Hnext Hclar)
      as (r & log' & E & H). by exists r, s, log'. }
  destruct (has_answer (parse_user_intent u)) eqn:Hans;
    [| by apply Hshow; right].
  by apply process_answer_outcome.
Qed.

Lemma get_or_create_insert sid reg s' :
  <[sid := s']> (snd (get_or_create_session sid reg)) = <[sid := s']> reg.
Proof.
  unfold get_or_create_session. destruct (reg !! sid); [reflexivity |].
  apply insert_insert_eq.
Qed.

(** A request, whatever the registry holds: the outcome is one of those
    listed, for the session found under the id or the default one. *)
Lemma handle_request_outcome u sid c :
  exists r s' log',
    handle_past_paper_request llm retrieve u sid c
    = (r, {| sessions := <[sid := s']> (sessions c); calls := log' |})
    /\ outcome llm u (default new_session (sessions c !! sid)) (calls c) r s' log'.
Proof.
  rewrite handle_request_unfold. cbn zeta.
  destruct (handle_session_outcome u (default new_session (sessions c !! sid))
              (calls c)) as (r & s' & log' & -> & H).
  cbn [fst snd session llm_calls]. rewrite get_or_create_insert.
  by exists r, s', log'.
Qed.

End Outcomes.

(* ===================================================================== *)
(** * What holds of every session of the registry                         *)
(* ===================================================================== *)

Lemma settled_new_session : settled new_session.
Proof.
  split; cbn; try done.
  intros q H. by apply elem_of_nil in H.
Qed.

Lemma label_unit_code u :
  label unit_code_shape (Some (or_else (extract_paper_details u).1 "Unknown")).
Proof.
  eexists. split; [reflexivity |]. unfold extract_paper_details. cbn [fst].
  destruct (search_bounded unit_here false (Py.upper u)) as [v |] eqn:H;
    [| by left]. cbn [or_else].
  destruct (Py.truthy v); [| by left]. right.
  apply search_bounded_some in H as [t H]. by apply unit_here_shape in H as [H _].
Qed.

Lemma label_year u :
  label year_shape (Some (or_else (extract_paper_details u).2 "Unknown")).
Proof.
  eexists. split; [reflexivity |]. unfold extract_paper_details. cbn [snd].
  destruct (search_bounded year_here false u) as [v |] eqn:H; [| by left].
  cbn [or_else]. destruct (Py.truthy v); [| by left]. right.
  apply search_bounded_some in H as [t H]. by apply year_here_shape in H as [H _].
Qed.

Lemma len_pos {A} (l : list A) : l <> [] -> 0 < Py.len l.
Proof. destruct l; [done |]. intros _. unfold Py.len. cbn [length]. lia. Qed.

Lemma batch_not_empty s :
  well_formed s -> (get_next_batch 5 s).1.1 <> [] ->
  current_batch s * 5 < Py.len (questions s).
Proof.
  intros Hwf H. destruct (Z_lt_le_dec (current_batch s * 5) (Py.len (questions s)))
    as [Hlt | Hge]; [exact Hlt |].
  by rewrite (get_next_batch_exhausted 5 ltac:(lia) s Hwf Hge) in H.
Qed.

Lemma settled_well_formed s : settled s -> well_formed s.
Proof.
  intros H. split; [apply H |].
  destruct (is_active s) eqn:Hact.
  - destruct (settled_paper s H Hact) as (_ & Hc & _). lia.
  - by rewrite (settled_inactive s H Hact).
Qed.

Lemma outcome_settled llm u s log r s' log' :
  settled s -> outcome llm u s log r s' log' -> settled s'.
Proof.
  intros Hs Ho. destruct Ho; try exact Hs; try apply settled_new_session.
  - (* a paper starts *)
    split; cbn; try done.
    + intros _. split; [done |]. split; [lia |]. by apply len_pos.
    + intros _. split; [apply label_unit_code | apply label_year].
    + intros q Hq. apply elem_of_extract_questions in Hq
        as (n & t & ? & ? & ? & ? & _). by exists n, t.
  - (* the next batch *)
    pose proof (settled_well_formed s Hs) as Hwf.
    pose proof (batch_not_empty s Hwf ltac:(eassumption)) as Hlt.
    destruct (settled_paper s Hs ltac:(assumption)) as (Hq & Hc & _).
    split; cbn; try apply Hs.
    + congruence.
    + intros _. split; [exact Hq |]. split; lia.
  - (* an answer is recorded *)
    split; cbn; try apply Hs.
    + congruence.
    + intros k' a'. rewrite lookup_insert_Some.
      intros [[<- <-] | [_ Hold]]; [| by apply Hs]. split; [lia | assumption].
  - (* an answer is recorded, then the look-up raises *)
    split; cbn; try apply Hs.
    + congruence.
    + intros k' a'. rewrite lookup_insert_Some.
      intros [[<- <-] | [_ Hold]]; [| by apply Hs].
      split; [| assumption]. pose proof (len_nonneg (questions s)). lia.
Qed.

Section Registry.
Variable llm : list prompt -> prompt -> option string.
Variable retrieve : search_filter -> string -> list string.

Lemma settled_default c sid :
  all_sessions settled c -> settled (default new_session (sessions c !! sid)).
Proof.
  intros Hc. destruct (sessions c !! sid) as [s |] eqn:E; cbn [default].
  - by apply (Hc sid).
  - apply settled_new_session.
Qed.

Lemma handle_request_settled u sid c :
  all_sessions settled c ->
  all_sessions settled (snd (handle_past_paper_request llm retrieve u sid c)).
Proof.
  intros Hc.
  destruct (handle_request_outcome llm retrieve u sid c) as (r & s' & log' & -> & Ho).
  cbn [snd]. intros sid' s0. cbn [sessions].
  rewrite lookup_insert_Some. intros [[_ <-] | [_ Hold]]; [| by apply (Hc sid')].
  by apply (outcome_settled _ _ _ _ _ _ _ (settled_default c sid Hc) Ho).
Qed.

Lemma after_requests_settled inputs c :
  all_sessions settled c ->
  all_sessions settled (after_requests llm retrieve inputs c).
Proof.
  revert c. induction inputs as [| [u sid] inputs IH]; intros c Hc; [done |].
  apply IH. by apply handle_request_settled.
Qed.

Lemma reachable_settled inputs :
  all_sessions settled (after_requests llm retrieve inputs new_chain).
Proof.
  apply after_requests_settled. intros sid s H. cbn in H.
  by rewrite lookup_empty in H.
Qed.

End Registry.

(** X9.  In every state that the registry reaches from the empty one by
    requests to the handler (any utterances, documents and model), a session
    that is not active is the default session, without questions, answers or
    labels; an active session holds at least one question, has delivered at
    least one batch, and its last batch was not empty:
    [(current_batch - 1) * 5 < len(questions)]; its unit code is [Unknown]
    or three capital letters and three digits, its year is [Unknown] or a
    year from 2000 to 2039; and [total_questions] is the length of the
    list. *)
Theorem sessions_of_the_registry
    (llm : list prompt -> prompt -> option string)
    (retrieve : search_filter -> string -> list string)
    (inputs : list (string * string)) (sid : string) (s : PastPaperSession) :
  sessions (after_requests llm retrieve inputs new_chain) !! sid = Some s ->
  total_questions s = Py.len (questions s)
  /\ (is_active s = false -> s = new_session)
  /\ (is_active s = true ->
      questions s <> [] /\ 1 <= current_batch s
      /\ (current_batch s - 1) * 5 < Py.len (questions s)
      /\ label unit_code_shape (unit_code s) /\ label year_shape (year s)).
Proof.
  intros H. pose proof (reachable_settled llm retrieve inputs sid s H) as Hs.
  split; [apply Hs |]. split; [apply Hs |]. intros Hact.
  destruct (settled_paper s Hs Hact) as (? & ? & ?).
  destruct (settled_labels s Hs Hact) as (? & ?). done.
Qed.

Lemma sessions_of_the_registry_witness :
  exists s,
    sessions (after_requests (model_says (Some "ok")) (store_of [seven_questions])
                [("Go through CSC231 2024 past paper", "api"); ("next", "api")]
                new_chain) !! "api" = Some s
    /\ current_batch s = 2
    /\ (current_batch s - 1) * 5 < Py.len (questions s).
Proof.
  eexists. split; [vm_compute; reflexivity |]. split; [reflexivity |].
  apply (sessions_of_the_registry (model_says (Some "ok"))
           (store_of [seven_questions])
           [("Go through CSC231 2024 past paper", "api"); ("next", "api")] "api");
    vm_compute; reflexivity.
Defined.

(** X10.  In every state that the registry reaches, every question that a
    session holds reads [Question <n>: <text>] as the extraction renders
    it; every recorded answer stands under a number that is at least 1 and
    is one line, not empty, without white space around it; and
    [model_answers] is empty: the handler never generates model answers. *)
Theorem contents_of_the_registry
    (llm : list prompt -> prompt -> option string)
    (retrieve : search_filter -> string -> list string)
    (inputs : list (string * string)) (sid : string) (s : PastPaperSession) :
  sessions (after_requests llm retrieve inputs new_chain) !! sid = Some s ->
  (forall q, q ∈ questions s -> rendered q)
  /\ (forall k a, user_answers s !! k = Some a -> 1 <= k /\ one_line a)
  /\ model_answers s = ∅.
Proof.
  intros H. pose proof (reachable_settled llm retrieve inputs sid s H) as Hs.
  split; [apply Hs |]. split; apply Hs.
Qed.

Lemma contents_of_the_registry_witness :
  exists s,
    sessions (after_requests (model_says (Some "ok")) (store_of [two_questions])
                [("Go through CSC231 2024 past paper", "api");
                 ("my answer for question 3 is X", "api")]
                new_chain) !! "api" = Some s
    /\ user_answers s !! 3 = Some "for question 3 is X"
    /\ model_answers s = ∅.
Proof.
  eexists. split; [vm_compute; reflexivity |]. split; [reflexivity |].
  apply (contents_of_the_registry (model_says (Some "ok"))
           (store_of [two_questions])
           [("Go through CSC231 2024 past paper", "api");
            ("my answer for question 3 is X", "api")] "api");
    vm_compute; reflexivity.
Defined.

(* ===================================================================== *)
(** * What a request does and what it never does                          *)
(* ===================================================================== *)

Lemma index_elem {A} (l : list A) (i : Z) (x : A) : Py.index l i = Some x -> x ∈ l.
Proof.
  unfold Py.index. destruct (_ || _); [discriminate |].
  destruct (i <? 0); apply list_elem_of_lookup_2.
Qed.

Lemma answer_of_raises llm log p k e :
  answer_of llm log p k = Raise e -> e = GenerationError /\ llm log p = None.
Proof. unfold answer_of. destruct (llm log p); [discriminate |]. by intros [= <-]. Qed.

Lemma answer_of_returns llm log p k r :
  answer_of llm log p k = Return r -> exists text, llm log p = Some text /\ r = k text.
Proof.
  unfold answer_of. destruct (llm log p) as [text |]; [| discriminate].
  intros [= <-]. by exists text.
Qed.

Section Exceptions.
Variable llm : list prompt -> prompt -> option string.
Variable retrieve : search_filter -> string -> list string.

(** A session that is active is in the registry. *)
Lemma active_session_in_registry c sid :
  is_active (default new_session (sessions c !! sid)) = true ->
  sessions c !! sid = Some (default new_session (sessions c !! sid)).
Proof. destruct (sessions c !! sid); [reflexivity | discriminate]. Qed.

(** An answer to a question of the paper, as a whole. *)
Lemma handle_request_answer_in_range u sid c s k a q :
  sessions c !! sid = Some s -> is_active s = true ->
  gives_answer u k a -> a <> EmptyString -> 1 <= k <= Py.len (questions s) ->
  Py.index (questions s) (k - 1) = Some q ->
  handle_past_paper_request llm retrieve u sid c
  = (answer_of llm (calls c) (GradingPrompt q a) (Feedback k a),
     {| sessions := <[sid := save_answer k a s]> (sessions c);
        calls := calls c ++ [GradingPrompt q a] |}).
Proof.
  intros Hs Hact Hu Ha Hk Hq.
  rewrite (handle_request_existing llm retrieve u sid c s Hs). cbn zeta.
  rewrite (handle_session_answer llm retrieve u k a) by done.
  destruct Hu as (_ & _ & _ & _ & _ & Hnum & Htext).
  assert (k <> 0) as Hk0 by lia.
  rewrite (process_answer_eq llm _ s (calls c) k a Hact Hnum Htext Hk0 Ha).
  by rewrite Hq.
Qed.

Lemma one_line_not_empty a : one_line a -> a <> EmptyString.
Proof. by intros [H _]. Qed.

(** When [IndexError] leaves the handler. *)
Lemma handle_request_index_error u sid c :
  let s := default new_session (sessions c !! sid) in
  fst (handle_past_paper_request llm retrieve u sid c) = Raise IndexError
  <-> is_active s = true
      /\ exists k a, gives_answer u k a /\ a <> EmptyString
                     /\ Py.len (questions s) < k.
Proof.
  intros s. split.
  - destruct (handle_request_outcome llm retrieve u sid c)
      as (r & s' & log' & -> & Ho).
    cbn [fst]. fold s in Ho. intros Hr.
    destruct Ho; try discriminate;
      try (apply answer_of_raises in Hr as [Hr _]; discriminate).
    split; [assumption |]. exists k, a.
    split; [repeat split; assumption |].
    split; [by apply one_line_not_empty | assumption].
  - intros (Hact & k & a & Hu & Ha & Hk).
    by rewrite (handle_request_answer_past_end llm retrieve u sid c s k a
                  (active_session_in_registry c sid Hact) Hact Hu Ha Hk).
Qed.

(** When the failure of the model leaves the handler. *)
Lemma handle_request_generation_error u sid c :
  let s := default new_session (sessions c !! sid) in
  fst (handle_past_paper_request llm retrieve u sid c) = Raise GenerationError
  <-> is_active s = true
      /\ exists k q,
           1 <= k <= Py.len (questions s)
           /\ Py.index (questions s) (k - 1) = Some q
           /\ ((asks_clarification u k /\ llm (calls c) (TutorPrompt q) = None)
               \/ exists a, gives_answer u k a /\ a <> EmptyString
                            /\ llm (calls c) (GradingPrompt q a) = None).
Proof.
  intros s. split.
  - destruct (handle_request_outcome llm retrieve u sid c)
      as (r & s' & log' & -> & Ho).
    cbn [fst]. fold s in Ho. intros Hr.
    destruct Ho; try discriminate.
    + apply answer_of_raises in Hr as [_ Hllm].
      split; [assumption |]. exists k, q. split; [assumption |].
      split; [assumption |]. left. split; [| exact Hllm].
      repeat split; assumption.
    + apply answer_of_raises in Hr as [_ Hllm].
      split; [assumption |]. exists k, q. split; [assumption |].
      split; [assumption |]. right. exists a.
      split; [repeat split; assumption |].
      split; [by apply one_line_not_empty | exact Hllm].
  - intros (Hact & k & q & Hk & Hq & [[Hu Hllm] | (a & Hu & Ha & Hllm)]).
    + rewrite (handle_request_clarification llm retrieve u sid c s k q
                 (active_session_in_registry c sid Hact) Hact Hu Hk Hq).
      cbn [fst]. unfold answer_of. by rewrite Hllm.
    + rewrite (handle_request_answer_in_range u sid c s k a q
                 (active_session_in_registry c sid Hact) Hact Hu Ha Hk Hq).
      cbn [fst]. unfold answer_of. by rewrite Hllm.
Qed.

(** What the two exceptions leave behind. *)
Lemma handle_request_raises_state u sid c e :
  let s := default new_session (sessions c !! sid) in
  let out := handle_past_paper_request llm retrieve u sid c in
  fst out = Raise e ->
  (e = IndexError ->
   exists k a, gives_answer u k a
     /\ snd out = {| sessions := <[sid := save_answer k a s]> (sessions c);
                     calls := calls c |})
  /\ (e = GenerationError ->
      exists p, prompt_about (questions s) p
        /\ calls (snd out) = calls c ++ [p]).
Proof.
  intros s out. subst out.
  destruct (handle_request_outcome llm retrieve u sid c)
    as (r & s' & log' & -> & Ho).
  cbn [fst snd calls]. fold s in Ho. intros Hr.
  destruct Ho; try discriminate.
  - apply answer_of_raises in Hr as [-> _]. split; [discriminate |].
    intros _. exists (TutorPrompt q). split; [| reflexivity].
    exists q. split; [by eapply index_elem | by left].
  - apply answer_of_raises in Hr as [-> _]. split; [discriminate |].
    intros _. exists (GradingPrompt q a). split; [| reflexivity].
    exists q. split; [by eapply index_elem | right; by exists a].
  - injection Hr as <-. split; [| discriminate].
    intros _. exists k, a. split; [repeat split; assumption | reflexivity].
Qed.

End Exceptions.

(** X11.  In an active session, for an ASCII utterance that is not a
    request for a new paper and whose runs of digits are within the limit
    of [int], so that the intent is read, [int] returns and the vector
    store is not called: [IndexError] leaves [handle_past_paper_request]
    exactly when the utterance gives a non-empty answer to a question number
    past the end of the paper, and then the answer has been recorded under
    this number and no call to the model was made; the failure of the model
    leaves the handler exactly when the utterance asks for a clarification
    of a question of the paper or gives a non-empty answer to one, and the
    model fails on the tutoring prompt or on the grading prompt of this
    question, and then this prompt is the one call that the request has
    added to the log. *)
Theorem exceptions_of_the_handler
    (llm : list prompt -> prompt -> option string)
    (retrieve : search_filter -> string -> list string)
    (u sid : string) (c : chain) (s : PastPaperSession) :
  Py.isascii u = true -> numbers_within_limit u = true ->
  sessions c !! sid = Some s -> is_active s = true ->
  is_new_paper_request u = false ->
  let out := handle_past_paper_request llm retrieve u sid c in
  (fst out = Raise IndexError
   <-> exists k a, gives_answer u k a /\ a <> EmptyString
                   /\ Py.len (questions s) < k)
  /\ (fst out = Raise IndexError ->
      exists k a, gives_answer u k a
        /\ snd out = {| sessions := <[sid := save_answer k a s]> (sessions c);
                        calls := calls c |})
  /\ (fst out = Raise GenerationError
      <-> exists k q,
            1 <= k <= Py.len (questions s)
            /\ Py.index (questions s) (k - 1) = Some q
            /\ ((asks_clarification u k
                 /\ llm (calls c) (TutorPrompt q) = None)
                \/ exists a, gives_answer u k a /\ a <> EmptyString
                             /\ llm (calls c) (GradingPrompt q a) = None))
  /\ (fst out = Raise GenerationError ->
      exists p, prompt_about (questions s) p
        /\ calls (snd out) = calls c ++ [p]).
Proof.
  intros _ _ Hs Hact _ out.
  assert (default new_session (sessions c !! sid) = s) as Hd by (by rewrite Hs).
  pose proof (handle_request_index_error llm retrieve u sid c) as Hi.
  pose proof (handle_request_generation_error llm retrieve u sid c) as Hg.
  pose proof (handle_request_raises_state llm retrieve u sid c) as Hst.
  cbn zeta in Hi, Hg, Hst. rewrite Hd in Hi, Hg, Hst. fold out in Hi, Hg, Hst.
  split; [| split; [| split]].
  - rewrite Hi. split; [by intros [_ H] | by intros H].
  - intros Hr. by apply (Hst IndexError).
  - rewrite Hg. split; [by intros [_ H] | by intros H].
  - intros Hr. by apply (Hst GenerationError).
Qed.

Lemma exceptions_of_the_handler_witness :
  fst (handle_past_paper_request (model_says (Some "ok")) (store_of [])
         "my answer for question 3 is X" "api" two_started)
  = Raise IndexError.
Proof.
  destruct (exceptions_of_the_handler (model_says (Some "ok")) (store_of [])
              "my answer for question 3 is X" "api" two_started
              (default new_session (sessions two_started !! "api")))
    as (H & _);
    [reflexivity | reflexivity | vm_compute; reflexivity
    | vm_compute; reflexivity | vm_compute; reflexivity |].
  apply H. exists 3, "for question 3 is X".
  split; [repeat split; vm_compute; reflexivity |].
  split; [discriminate | vm_compute; reflexivity].
Defined.

Section Calls.
Variable llm : list prompt -> prompt -> option string.
Variable retrieve : search_filter -> string -> list string.

Lemma outcome_calls u s log r s' log' :
  outcome llm u s log r s' log' ->
  log' = log
  \/ exists p, log' = log ++ [p] /\ prompt_about (questions s) p
               /\ is_active s = true.
Proof.
  intros Ho. destruct Ho; try (by left); right.
  - exists (TutorPrompt q). split; [reflexivity |]. split; [| assumption].
    exists q. split; [by eapply index_elem | by left].
  - exists (GradingPrompt q a). split; [reflexivity |]. split; [| assumption].
    exists q. split; [by eapply index_elem | right; by exists a].
Qed.

Lemma handle_request_calls u sid c :
  exists l, calls (snd (handle_past_paper_request llm retrieve u sid c)) = calls c ++ l
    /\ (length l <= 1)%nat
    /\ forall p, p ∈ l -> exists q, p = TutorPrompt q \/ exists a, p = GradingPrompt q a.
Proof.
  destruct (handle_request_outcome llm retrieve u sid c) as (r & s' & log' & -> & Ho).
  cbn [snd calls].
  destruct (outcome_calls _ _ _ _ _ _ Ho) as [-> | (p & -> & (q & _ & Hp) & _)].
  - exists []. rewrite app_nil_r. split; [reflexivity |]. split; [cbn; lia |].
    intros p Hp. by apply elem_of_nil in Hp.
  - exists [p]. split; [reflexivity |]. split; [cbn; lia |].
    intros p' Hp'. apply list_elem_of_singleton in Hp' as ->. by exists q.
Qed.

Lemma after_requests_calls inputs : forall c,
  exists l, calls (after_requests llm retrieve inputs c) = calls c ++ l
    /\ (length l <= length inputs)%nat
    /\ forall p, p ∈ l -> exists q, p = TutorPrompt q \/ exists a, p = GradingPrompt q a.
Proof.
  induction inputs as [| [u sid] inputs IH]; intros c.
  - exists []. rewrite app_nil_r. split; [reflexivity |]. split; [cbn; lia |].
    intros p Hp. by apply elem_of_nil in Hp.
  - cbn [after_requests foldl fst snd].
    destruct (IH (snd (handle_past_paper_request llm retrieve u sid c)))
      as (l2 & E2 & Hlen2 & Hp2).
    destruct (handle_request_calls u sid c) as (l1 & E1 & Hlen1 & Hp1).
    exists (l1 ++ l2). unfold after_requests in E2. rewrite E2, E1, app_assoc.
    split; [reflexivity |]. split; [rewrite length_app; cbn [length]; lia |].
    intros p Hp. apply elem_of_app in Hp as [Hp | Hp]; auto.
Qed.

End Calls.

(** X12.  One request makes at most one call to the model, and the log of
    the calls only grows: the call, if any, is made for an active session
    and carries the tutoring prompt or the grading prompt of one of the
    questions of that session.  Starting a paper, a request for the next
    batch and a request to stop make no call, and the prompt for model
    answers of [_generate_answers_for_batch] is never sent: after [n]
    requests the log has grown by at most [n] prompts, none of them a
    model-answer prompt. *)
Theorem model_calls_of_the_handler
    (llm : list prompt -> prompt -> option string)
    (retrieve : search_filter -> string -> list string)
    (u sid : string) (c : chain) (inputs : list (string * string)) :
  let s := default new_session (sessions c !! sid) in
  let c' := snd (handle_past_paper_request llm retrieve u sid c) in
  (calls c' = calls c
   \/ exists p, calls c' = calls c ++ [p] /\ prompt_about (questions s) p
                /\ is_active s = true /\ is_new_paper_request u = false
                /\ wants_stop (parse_user_intent u) = false)
  /\ exists l,
       calls (after_requests llm retrieve inputs c) = calls c ++ l
       /\ (length l <= length inputs)%nat
       /\ forall p q, p ∈ l -> p <> ModelAnswerPrompt q.
Proof.
  intros s c'. split.
  - subst c'.
    destruct (handle_request_outcome llm retrieve u sid c) as (r & s' & log' & -> & Ho).
    cbn [snd calls]. fold s in Ho.
    destruct Ho; try (by left); right.
    + exists (TutorPrompt q). split; [reflexivity |].
      split; [exists q; split; [by eapply index_elem | by left] |].
      split; [assumption | split; assumption].
    + exists (GradingPrompt q a). split; [reflexivity |].
      split; [exists q; split; [by eapply index_elem | right; by exists a] |].
      split; [assumption | split; assumption].
  - destruct (after_requests_calls llm retrieve inputs c) as (l & E & Hlen & Hp).
    exists l. split; [exact E | split; [exact Hlen |]].
    intros p q Hin ->. destruct (Hp _ Hin) as (q' & [H | [a H]]); discriminate.
Qed.

Lemma first_batch_not_empty uc yr qs s :
  qs <> [] -> (get_next_batch 5 (start_paper uc yr qs s)).1.1 <> [].
Proof.
  intros Hqs. rewrite batch_take_drop; [| lia | split; cbn; [reflexivity | lia]].
  cbn [start_paper current_batch questions]. by destruct qs.
Qed.

(** X13.  The two messages [No active past paper session ...] of
    [_show_next_batch], [_provide_clarification] and [_process_answer] are
    never the result of [handle_past_paper_request]: a session that is not
    active is always sent to [_start_new_paper], whatever the utterance (a
    request to stop or for the next batch included), and the handler gives
    back what [_start_new_paper] gives.  When this is a response, it says
    that no paper was found or that no question could be extracted, or it
    starts the paper with a first batch that is not empty. *)
Theorem inactive_session_starts_a_paper
    (llm : list prompt -> prompt -> option string)
    (retrieve : search_filter -> string -> list string)
    (u sid : string) (c : chain) :
  let s := default new_session (sessions c !! sid) in
  let st := {| session := s; llm_calls := calls c |} in
  let out := handle_past_paper_request llm retrieve u sid c in
  fst out <> Return NoActiveSession /\ fst out <> Return NoActiveSessionStart
  /\ (is_active s = false ->
      out = ((start_new_paper retrieve u st).1,
             {| sessions := <[sid := session (start_new_paper retrieve u st).2]>
                              (sessions c);
                calls := calls c |})
      /\ forall r, fst out = Return r ->
           r = ExtractionFailed
           \/ (exists code yr, r = PaperNotFound code yr)
           \/ (exists uc yr total batch more,
                 r = PaperStarted uc yr total batch more /\ batch <> [])).
Proof.
  intros s st out. subst out.
  split; [| split]; [| | intros Hact; split].
  - destruct (handle_request_outcome llm retrieve u sid c)
      as (r & s' & log' & -> & Ho).
    cbn [fst]. destruct Ho; try discriminate;
      intros Hret; apply answer_of_returns in Hret as (? & _ & ?); discriminate.
  - destruct (handle_request_outcome llm retrieve u sid c)
      as (r & s' & log' & -> & Ho).
    cbn [fst]. destruct Ho; try discriminate;
      intros Hret; apply answer_of_returns in Hret as (? & _ & ?); discriminate.
  - rewrite handle_request_unfold. cbn zeta. fold s. fold st.
    unfold handle_session. run. subst st. cbn [session]. rewrite Hact.
    cbn [negb orb]. rewrite get_or_create_insert.
    assert (Hcalls : llm_calls (start_new_paper retrieve u
                                  {| session := s; llm_calls := calls c |}).2
                     = calls c).
    { destruct (start_new_paper_cases retrieve u
                  {| session := s; llm_calls := calls c |})
        as [(r & -> & _) | (uc & yr & qs & _ & ->)]; reflexivity. }
    by rewrite Hcalls.
  - destruct (handle_request_outcome llm retrieve u sid c)
      as (r0 & s' & log' & -> & Ho).
    cbn [fst]. fold s in Ho. intros r Hr.
    destruct Ho; try congruence.
    + injection Hr as <-. right. left. eauto.
    + injection Hr as <-. by left.
    + injection Hr as <-. right. right. do 5 eexists. split; [reflexivity |].
      match goal with
      | Hq : extract_questions docs <> [] |- _ =>
          exact (first_batch_not_empty uc yr (extract_questions docs) s Hq)
      end.
Qed.

Lemma inactive_session_starts_a_paper_witness :
  handle_past_paper_request (model_says (Some "ok"))
    (store_of [seven_questions]) "next" "api" new_chain
  = ((start_new_paper (store_of [seven_questions]) "next"
        {| session := new_session; llm_calls := [] |}).1,
     {| sessions :=
          <["api" := session
                       (start_new_paper (store_of [seven_questions]) "next"
                          {| session := new_session; llm_calls := [] |}).2]> ∅;
        calls := [] |}).
Proof.
  destruct (inactive_session_starts_a_paper (model_says (Some "ok"))
              (store_of [seven_questions]) "next" "api" new_chain)
    as (_ & _ & H).
  destruct (H eq_refl) as [Hout _]. exact Hout.
Defined.

(** The questions of a batch stand in the list at the places that follow
    the batches delivered before. *)
Lemma batch_lookup s (i : nat) x :
  well_formed s -> (get_next_batch 5 s).1.1 !! i = Some x ->
  Py.index (questions s) (current_batch s * 5 + Z.of_nat i) = Some x.
Proof.
  intros Hwf. rewrite batch_take_drop by (lia || assumption).
  rewrite lookup_take_Some, lookup_drop. intros [Hx _].
  pose proof (lookup_lt_Some _ _ _ Hx) as Hlt.
  destruct Hwf as [_ Hc]. unfold Py.index, Py.len.
  assert ((current_batch s * 5 + Z.of_nat i <? - Z.of_nat (length (questions s)))
          = false) as -> by lia.
  assert ((Z.of_nat (length (questions s)) <=? current_batch s * 5 + Z.of_nat i)
          = false) as -> by lia.
  assert ((current_batch s * 5 + Z.of_nat i <? 0) = false) as -> by lia.
  cbn [orb]. rewrite <- Hx. f_equal. lia.
Qed.

Lemma index_bounds {A} (l : list A) (i : Z) (x : A) :
  0 <= i -> Py.index l i = Some x -> i < Py.len l.
Proof.
  intros Hi. unfold Py.index.
  destruct (Z.leb_spec (Py.len l) i); [by rewrite orb_true_r | lia].
Qed.

(** X14.  In every state that the registry reaches, the number under which
    a response shows a question ([start_num] plus its place in the batch,
    1 for the first question of a paper that starts) is the number that
    addresses this question afterwards: [questions[number - 1]] is the
    question shown, and a request for the clarification of this number
    sends the tutoring prompt of this very question to the model.  Showing
    a batch makes no call to the model. *)
Theorem shown_number_finds_question
    (llm : list prompt -> prompt -> option string)
    (retrieve : search_filter -> string -> list string)
    (inputs : list (string * string)) (u sid : string)
    (r : response) (start_num : Z) (batch : list string) :
  let c := after_requests llm retrieve inputs new_chain in
  let c' := snd (handle_past_paper_request llm retrieve u sid c) in
  fst (handle_past_paper_request llm retrieve u sid c) = Return r ->
  batch_of r = Some (start_num, batch) ->
  calls c' = calls c
  /\ exists s',
       sessions c' !! sid = Some s' /\ is_active s' = true
       /\ forall (i : nat) (x : string),
            batch !! i = Some x ->
            let k := start_num + Z.of_nat i in
            Py.index (questions s') (k - 1) = Some x
            /\ forall u', asks_clarification u' k ->
                 handle_past_paper_request llm retrieve u' sid c'
                 = (answer_of llm (calls c') (TutorPrompt x) (Clarification k),
                    {| sessions := sessions c';
                       calls := calls c' ++ [TutorPrompt x] |}).
Proof.
  intros c c' Hr Hb. subst c'.
  pose proof (settled_default c sid (reachable_settled llm retrieve inputs)) as Hs.
  destruct (handle_request_outcome llm retrieve u sid c) as (r0 & s' & log' & E & Ho).
  rewrite E in Hr |- *. cbn [fst snd sessions calls] in *.
  set (s := default new_session (sessions c !! sid)) in *.
  assert (Hgoal : forall s1,
    well_formed s1 -> is_active s1 = true -> start_num = current_batch s1 * 5 + 1 ->
    batch = (get_next_batch 5 s1).1.1 -> s' = (get_next_batch 5 s1).2 ->
    log' = calls c ->
    log' = calls c
    /\ exists s'0,
         <[sid := s']> (sessions c) !! sid = Some s'0 /\ is_active s'0 = true
         /\ forall (i : nat) (x : string),
              batch !! i = Some x ->
              let k := start_num + Z.of_nat i in
              Py.index (questions s'0) (k - 1) = Some x
              /\ forall u', asks_clarification u' k ->
                   handle_past_paper_request llm retrieve u' sid
                     {| sessions := <[sid := s']> (sessions c); calls := log' |}
                   = (answer_of llm log' (TutorPrompt x) (Clarification k),
                      {| sessions := <[sid := s']> (sessions c);
                         calls := log' ++ [TutorPrompt x] |})).
  { intros s1 Hwf Hact -> -> -> ->. split; [reflexivity |].
    exists (get_next_batch 5 s1).2. rewrite lookup_insert_eq.
    split; [reflexivity |]. split; [exact Hact |].
    intros i x Hx k. apply (batch_lookup s1 i x Hwf) in Hx.
    assert (Hq : Py.index (questions (get_next_batch 5 s1).2) (k - 1) = Some x).
    { cbn [get_next_batch snd questions]. rewrite <- Hx. f_equal. lia. }
    split; [exact Hq |]. intros u' Hu'.
    assert (Hlt : current_batch s1 * 5 + Z.of_nat i < Py.len (questions s1))
      by (apply (index_bounds _ _ x); [destruct Hwf; lia | exact Hx]).
    rewrite (handle_request_clarification llm retrieve u' sid _
               (get_next_batch 5 s1).2 k x);
      cbn [sessions calls]; try done.
    - by rewrite lookup_insert_eq.
    - cbn [get_next_batch snd questions]. destruct Hwf. lia. }
  destruct Ho;
    try (apply answer_of_returns in Hr as (? & _ & ->); discriminate Hb);
    try discriminate Hr;
    injection Hr as <-; cbn [batch_of] in Hb; try discriminate Hb;
    injection Hb as <- <-.
  - apply (Hgoal started); done.
  - apply (Hgoal s); try done. by apply settled_well_formed.
Qed.

Lemma shown_number_finds_question_witness :
  let started :=
    [("Go through CSC231 2024 past paper", "api")] in
  let c := after_requests model_counting (store_of [seven_questions]) started
             new_chain in
  fst (handle_past_paper_request model_counting (store_of [seven_questions])
         "clarify question 7" "api"
         (snd (handle_past_paper_request model_counting
                 (store_of [seven_questions]) "next" "api" c)))
  = answer_of model_counting [] (TutorPrompt "Question 7: Describe the default deny policy.")
      (Clarification 7).
Proof.
  intros started c.
  destruct (shown_number_finds_question model_counting (store_of [seven_questions])
              started "next" "api"
              (PaperContinued (Some "CSC231") (Some "2024") (7, 7) 6
                 ["Question 6: What is NAT used for?";
                  "Question 7: Describe the default deny policy."] false)
              6 ["Question 6: What is NAT used for?";
                 "Question 7: Describe the default deny policy."]
              ltac:(vm_compute; reflexivity) eq_refl)
    as (Hcalls & s' & _ & _ & H).
  destruct (H 1%nat "Question 7: Describe the default deny policy." eq_refl)
    as [_ Hc].
  fold c in Hc, Hcalls. rewrite Hc.
  - cbn [fst]. rewrite Hcalls. reflexivity.
  - vm_compute. repeat split; reflexivity.
Defined.

Section Forgetting.
Variable llm : list prompt -> prompt -> option string.
Variable retrieve : search_filter -> string -> list string.

(** The handler does not tell a session that is not in the registry from
    one that holds the default session. *)
Lemma handle_request_default u sid c c0 :
  default new_session (sessions c !! sid) = default new_session (sessions c0 !! sid) ->
  calls c = calls c0 ->
  <[sid := new_session]> (sessions c) = <[sid := new_session]> (sessions c0) ->
  handle_past_paper_request llm retrieve u sid c
  = handle_past_paper_request llm retrieve u sid c0.
Proof.
  intros Hs Hc Hm. rewrite !handle_request_unfold. cbn zeta.
  rewrite Hs, Hc. f_equal. f_equal.
  rewrite !get_or_create_insert.
  rewrite <- (insert_insert_eq (sessions c) sid _ new_session).
  rewrite <- (insert_insert_eq (sessions c0) sid _ new_session).
  by rewrite Hm.
Qed.

Lemma handle_request_stop u sid c :
  is_active (default new_session (sessions c !! sid)) = true -> asks_stop u ->
  handle_past_paper_request llm retrieve u sid c
  = (Return SessionEnded,
     {| sessions := <[sid := new_session]> (sessions c); calls := calls c |}).
Proof.
  intros Hact [Hnew Hstop]. rewrite handle_request_unfold. cbn zeta.
  unfold handle_session. run. rewrite Hact, Hnew, Hstop. cbn [negb orb]. run.
  by rewrite get_or_create_insert.
Qed.

End Forgetting.

(** X15.  A request to stop, in an active session, ends it: the entry of
    the registry becomes the default session and no call is made to the
    model.  Nothing of the paper is kept: whatever the next request is, its
    result and the registry and log it leaves are the ones it would have
    had, had the session id never been used. *)
Theorem stop_forgets_the_paper
    (llm : list prompt -> prompt -> option string)
    (retrieve : search_filter -> string -> list string)
    (u sid : string) (c : chain) :
  is_active (default new_session (sessions c !! sid)) = true -> asks_stop u ->
  let stopped := handle_past_paper_request llm retrieve u sid c in
  let unused := {| sessions := delete sid (sessions c); calls := calls c |} in
  fst stopped = Return SessionEnded
  /\ sessions (snd stopped) !! sid = Some new_session
  /\ calls (snd stopped) = calls c
  /\ forall u',
       handle_past_paper_request llm retrieve u' sid (snd stopped)
       = handle_past_paper_request llm retrieve u' sid unused.
Proof.
  intros Hact Hstop stopped unused. subst stopped unused.
  rewrite (handle_request_stop llm retrieve u sid c Hact Hstop). cbn [fst snd].
  split; [reflexivity |]. cbn [sessions calls].
  split; [apply lookup_insert_eq |]. split; [reflexivity |].
  intros u'. apply handle_request_default; cbn [sessions calls].
  - by rewrite lookup_insert_eq, lookup_delete_eq.
  - reflexivity.
  - by rewrite insert_insert_eq, insert_delete_eq.
Qed.

Lemma stop_forgets_the_paper_witness :
  handle_past_paper_request (model_says (Some "ok")) (store_of [])
    "clarify question 1" "api"
    (snd (handle_past_paper_request (model_says (Some "ok")) (store_of [])
            "stop" "api" seven_started))
  = handle_past_paper_request (model_says (Some "ok")) (store_of [])
      "clarify question 1" "api"
      {| sessions := delete "api" (sessions seven_started);
         calls := calls seven_started |}.
Proof.
  apply (stop_forgets_the_paper (model_says (Some "ok")) (store_of []) "stop" "api"
           seven_started); [vm_compute; reflexivity | split; vm_compute; reflexivity].
Defined.

Section Answers.
Variable llm : list prompt -> prompt -> option string.
Variable retrieve : search_filter -> string -> list string.

(** What a request that gives an answer leaves in the registry, whether
    the model answers, the model fails or the number is past the end. *)
Lemma handle_request_answer_state u sid c s k a :
  sessions c !! sid = Some s -> is_active s = true ->
  gives_answer u k a -> k <> 0 -> a <> EmptyString ->
  sessions (snd (handle_past_paper_request llm retrieve u sid c))
  = <[sid := save_answer k a s]> (sessions c).
Proof.
  intros Hs Hact Hu Hk Ha.
  rewrite (handle_request_existing llm retrieve u sid c s Hs). cbn zeta.
  cbn [snd sessions].
  rewrite (handle_session_answer llm retrieve u k a) by done.
  destruct Hu as (_ & _ & _ & _ & _ & Hnum & Htext).
  rewrite (process_answer_eq llm _ s (calls c) k a Hact Hnum Htext Hk Ha).
  by destruct (Py.index (questions s) (k - 1)).
Qed.

End Answers.

(** X16.  An answer is recorded under the number of its question, and a
    later answer to the same question replaces the earlier one: after two
    requests that answer question [k], the session holds the second answer
    under [k], every other recorded answer is as before the two requests,
    and questions and cursor are untouched, whatever the model does with
    the two gradings. *)
Theorem later_answer_replaces_earlier
    (llm : list prompt -> prompt -> option string)
    (retrieve : search_filter -> string -> list string)
    (u1 u2 sid : string) (c : chain) (s : PastPaperSession)
    (k : Z) (a1 a2 : string) :
  sessions c !! sid = Some s -> is_active s = true ->
  gives_answer u1 k a1 -> gives_answer u2 k a2 ->
  a1 <> EmptyString -> a2 <> EmptyString -> k <> 0 ->
  let c1 := snd (handle_past_paper_request llm retrieve u1 sid c) in
  let c2 := snd (handle_past_paper_request llm retrieve u2 sid c1) in
  sessions c2 = <[sid := save_answer k a2 s]> (sessions c)
  /\ user_answers (save_answer k a2 s) !! k = Some a2
  /\ (forall m, m <> k ->
        user_answers (save_answer k a2 s) !! m = user_answers s !! m)
  /\ questions (save_answer k a2 s) = questions s
  /\ current_batch (save_answer k a2 s) = current_batch s.
Proof.
  intros Hs Hact Hu1 Hu2 Ha1 Ha2 Hk c1 c2. subst c1 c2.
  split; [| split; [apply lookup_insert_eq | split; [| done]]].
  - rewrite (handle_request_answer_state llm retrieve u2 sid _ (save_answer k a1 s) k a2);
      try done.
    + rewrite (handle_request_answer_state llm retrieve u1 sid c s k a1) by done.
      rewrite insert_insert_eq. f_equal. unfold save_answer. cbn.
      by rewrite insert_insert_eq.
    + rewrite (handle_request_answer_state llm retrieve u1 sid c s k a1) by done.
      apply lookup_insert_eq.
  - intros m Hm. cbn [save_answer user_answers]. by apply lookup_insert_ne.
Qed.

Lemma later_answer_replaces_earlier_witness :
  let s := default new_session (sessions two_started !! "api") in
  let request u c :=
    snd (handle_past_paper_request (model_says (Some "ok")) (store_of []) u "api" c) in
  sessions (request "my answer for question 1 is a packet filter"
              (request "my answer for question 1 is a wall" two_started))
  = <["api" := save_answer 1 "for question 1 is a packet filter" s]>
      (sessions two_started).
Proof.
  intros s request.
  apply (later_answer_replaces_earlier (model_says (Some "ok")) (store_of [])
           "my answer for question 1 is a wall"
           "my answer for question 1 is a packet filter" "api" two_started s
           1 "for question 1 is a wall" "for question 1 is a packet filter");
    try discriminate; try (vm_compute; reflexivity);
    repeat split; vm_compute; reflexivity.
Defined.

(* ===================================================================== *)
(** * Model answers for a batch                                           *)
(* ===================================================================== *)

Lemma length_enumerate_from {A} (i : Z) (l : list A) :
  length (Py.enumerate_from i l) = length l.
Proof.
  revert i. induction l as [| x l IH]; intros i; [reflexivity |].
  cbn [Py.enumerate_from length]. by rewrite IH.
Qed.

Section ModelAnswers.
Variable llm : list prompt -> prompt -> option string.

Lemma generate_loop_present qs start st :
  (forall o q, (o, q) ∈ qs -> is_Some (model_answers (session st) !! (start + o))) ->
  generate_loop llm qs start st = (Return tt, st).
Proof.
  induction qs as [| [o q] qs IH]; intros Hall; [reflexivity |].
  cbn [generate_loop]. run.
  destruct (Hall o q (list_elem_of_here _ _)) as [v ->].
  apply IH. intros o' q' Hin. apply (Hall o' q'). by right.
Qed.

Lemma generate_loop_spec qs start : forall s log,
  exists m' l,
    generate_loop llm qs start {| session := s; llm_calls := log |}
    = (Return tt, {| session := with_model_answers m' s; llm_calls := log ++ l |})
    /\ (forall k v, model_answers s !! k = Some v -> m' !! k = Some v)
    /\ (forall o q, (o, q) ∈ qs -> is_Some (m' !! (start + o)))
    /\ (forall k, is_Some (m' !! k) ->
          is_Some (model_answers s !! k) \/ exists o q, (o, q) ∈ qs /\ k = start + o)
    /\ (length l <= length qs)%nat
    /\ (forall p, p ∈ l -> exists o q, (o, q) ∈ qs /\ p = ModelAnswerPrompt q).
Proof.
  induction qs as [| [o q] qs IH]; intros s log.
  - exists (model_answers s), []. rewrite app_nil_r.
    split; [by destruct s |]. split; [done |].
    split; [intros ? ? H; by apply elem_of_nil in H |].
    split; [by left |]. split; [done |]. intros ? H; by apply elem_of_nil in H.
  - cbn [generate_loop]. run.
    destruct (model_answers s !! (start + o)) as [v |] eqn:Hv.
    + destruct (IH s log) as (m' & l & E & Hkeep & Hfill & Hnew & Hlen & Hp).
      exists m', l. split; [exact E |]. split; [exact Hkeep |].
      split; [| split; [| split; [cbn [length]; lia |]]].
      * intros o' q' Hin. apply elem_of_cons in Hin as [[= -> ->] | Hin];
          [| by apply (Hfill o' q')]. exists v. by apply Hkeep.
      * intros k Hk. destruct (Hnew k Hk) as [? | (o' & q' & Hin & ->)];
          [by left | right]. exists o', q'. split; [by right | done].
      * intros p Hin. destruct (Hp p Hin) as (o' & q' & Hin' & ->).
        exists o', q'. split; [by right | done].
    + unfold try_except, invoke. cbn [session llm_calls].
      set (answer := match llm log (ModelAnswerPrompt q) with
                     | Some text => text
                     | None => unable_to_generate
                     end).
      destruct (IH (set_model_answer (start + o) answer s)
                  (log ++ [ModelAnswerPrompt q]))
        as (m' & l & E & Hkeep & Hfill & Hnew & Hlen & Hp).
      exists m', (ModelAnswerPrompt q :: l).
      split.
      { subst answer. destruct (llm log (ModelAnswerPrompt q)); run;
          rewrite E; by rewrite <- app_assoc. }
      cbn [set_model_answer model_answers] in Hkeep, Hnew.
      split; [| split; [| split; [| split; [cbn [length]; lia |]]]].
      * intros k v Hk. apply Hkeep. rewrite lookup_insert_ne; [done |].
        intros <-. congruence.
      * intros o' q' Hin. apply elem_of_cons in Hin as [[= -> ->] | Hin];
          [| by apply (Hfill o' q')]. exists answer. apply Hkeep. apply lookup_insert_eq.
      * intros k Hk. destruct (Hnew k Hk) as [Hold | (o' & q' & Hin & ->)].
        -- destruct (decide (k = start + o)) as [-> | Hne].
           ++ right. exists o, q. split; [by left | done].
           ++ left. by rewrite lookup_insert_ne in Hold.
        -- right. exists o', q'. split; [by right | done].
      * intros p Hin. apply elem_of_cons in Hin as [-> | Hin].
        -- exists o, q. split; [by left | done].
        -- destruct (Hp p Hin) as (o' & q' & Hin' & ->).
           exists o', q'. split; [by right | done].
Qed.

End ModelAnswers.

(** X17.  [_generate_answers_for_batch] never raises, whatever the model
    does: when it returns, every question of the batch has a model answer
    under its number [start_index + offset] (the text [Unable to generate
    ...] when the call to the model raised), the answers that were there
    before are kept as they were, no other number gets an answer and no
    other field of the session changes; the model is called at most once
    for each question of the batch, with a prompt about that question.
    Running it again on the same batch, with any model, calls the model no
    more and changes nothing. *)
Theorem model_answers_fill_the_batch
    (llm llm' : list prompt -> prompt -> option string)
    (questions : list string) (start_index : Z) (st : state) :
  let out := generate_answers_for_batch llm questions start_index st in
  let before := model_answers (session st) in
  let after := model_answers (session (snd out)) in
  fst out = Return tt
  /\ session (snd out) = with_model_answers after (session st)
  /\ (forall (i : nat), (i < length questions)%nat ->
        is_Some (after !! (start_index + Z.of_nat i)))
  /\ (forall k v, before !! k = Some v -> after !! k = Some v)
  /\ (forall k, is_Some (after !! k) ->
        is_Some (before !! k)
        \/ exists i : nat, (i < length questions)%nat /\ k = start_index + Z.of_nat i)
  /\ (exists l, llm_calls (snd out) = llm_calls st ++ l
        /\ (length l <= length questions)%nat
        /\ forall p, p ∈ l -> exists q, q ∈ questions /\ p = ModelAnswerPrompt q)
  /\ generate_answers_for_batch llm' questions start_index (snd out)
     = (Return tt, snd out).
Proof.
  intros out before after. subst out before after.
  unfold generate_answers_for_batch. destruct st as [s log].
  destruct (generate_loop_spec llm (Py.enumerate questions) start_index s log)
    as (m' & l & E & Hkeep & Hfill & Hnew & Hlen & Hp).
  rewrite E. cbn [fst snd session llm_calls with_model_answers model_answers].
  pose proof (length_enumerate_from 0 questions) as Hlen'.
  fold (Py.enumerate questions) in Hlen'.
  assert (Hin : forall o q, (o, q) ∈ Py.enumerate questions <->
                  exists n : nat, questions !! n = Some q /\ o = Z.of_nat n).
  { intros o q. unfold Py.enumerate. rewrite elem_of_enumerate_from.
    by setoid_rewrite Z.add_0_l. }
  split; [reflexivity |]. split; [reflexivity |].
  split; [| split; [exact Hkeep | split; [| split]]].
  - intros i Hi. destruct (lookup_lt_is_Some_2 questions i Hi) as [q Hq].
    apply (Hfill (Z.of_nat i) q). apply Hin. by exists i.
  - intros k Hk. destruct (Hnew k Hk) as [? | (o & q & Ho & ->)]; [by left | right].
    apply Hin in Ho as (n & Hn & ->). exists n. split; [| done].
    by apply lookup_lt_Some in Hn.
  - exists l. split; [reflexivity |]. split; [lia |].
    intros p Hin'. destruct (Hp p Hin') as (o & q & Ho & ->).
    apply Hin in Ho as (n & Hn & _). exists q. split; [| done].
    by apply list_elem_of_lookup_2 in Hn.
  - apply generate_loop_present. intros o q Ho.
    cbn [session model_answers with_model_answers]. by apply (Hfill o q).
Qed.

(* ===================================================================== *)
(** * The names of the indexed files                                      *)
(* ===================================================================== *)

Import Indexing.

Lemma has_char_app c s t : has_char c (s +:+ t) = has_char c s || has_char c t.
Proof.
  induction s as [| x s IH]; [by rewrite string_app_nil |].
  rewrite string_app_cons. cbn [has_char]. by rewrite IH, orb_assoc.
Qed.

Lemma after_last_none sep t : has_char sep t = false -> after_last sep t = None.
Proof.
  induction t as [| x t IH]; [done |]. cbn [has_char after_last].
  intros H. apply orb_false_iff in H as [Hx Ht].
  rewrite (IH Ht). unfold is_char. by rewrite Hx.
Qed.

Lemma after_last_app sep d t :
  has_char sep t = false -> after_last sep (d +:+ String sep t) = Some t.
Proof.
  intros Ht. induction d as [| x d IH].
  - rewrite string_app_nil. cbn [after_last]. rewrite (after_last_none _ _ Ht).
    unfold is_char. by rewrite eqc_refl.
  - rewrite string_app_cons. cbn [after_last]. by rewrite IH.
Qed.

Lemma basename_in_directory dir name :
  has_char "/" name = false -> basename (dir +:+ String "/" name) = name.
Proof. intros H. unfold basename. by rewrite after_last_app. Qed.

Lemma basename_plain name : has_char "/" name = false -> basename name = name.
Proof. intros H. unfold basename. by rewrite after_last_none. Qed.

Lemma split_last_dot_none ext : has_char "." ext = false -> split_last_dot ext = None.
Proof.
  induction ext as [| x t IH]; [done |]. cbn [has_char split_last_dot].
  intros H. apply orb_false_iff in H as [Hx Ht].
  rewrite (IH Ht). unfold is_char. by rewrite Hx.
Qed.

Lemma split_last_dot_app root ext :
  has_char "." ext = false ->
  split_last_dot (root +:+ String "." ext) = Some (root, String "." ext).
Proof.
  intros Hext. induction root as [| x root IH].
  - rewrite string_app_nil. cbn [split_last_dot].
    rewrite (split_last_dot_none _ Hext). unfold is_char. by rewrite eqc_refl.
  - rewrite string_app_cons. cbn [split_last_dot]. by rewrite IH.
Qed.

Lemma splitext_app root ext :
  all_dots root = false -> has_char "." ext = false ->
  splitext (root +:+ String "." ext) = (root, String "." ext).
Proof.
  intros Hroot Hext. unfold splitext.
  by rewrite split_last_dot_app, Hroot.
Qed.

Lemma splitext_plain name : has_char "." name = false -> splitext name = (name, EmptyString).
Proof. intros H. unfold splitext. by rewrite split_last_dot_none. Qed.

Lemma all_dots_underscore s : has_char "_" s = true -> all_dots s = false.
Proof.
  induction s as [| x s IH]; [done |]. cbn [has_char all_dots].
  intros H. apply orb_true_iff in H as [Hx | Hs].
  - apply eqc_eq in Hx as <-. reflexivity.
  - rewrite (IH Hs). apply andb_false_r.
Qed.

Lemma split_none sep p : has_char sep p = false -> split sep p = [p].
Proof.
  induction p as [| x p IH]; [done |]. cbn [has_char split].
  intros H. apply orb_false_iff in H as [Hx Hp].
  unfold is_char. by rewrite Hx, (IH Hp).
Qed.

Lemma split_app sep p r :
  has_char sep p = false -> split sep (p +:+ String sep r) = p :: split sep r.
Proof.
  induction p as [| x p IH].
  - intros _. rewrite string_app_nil. cbn [split]. unfold is_char.
    by rewrite eqc_refl.
  - cbn [has_char]. intros H. apply orb_false_iff in H as [Hx Hp].
    rewrite string_app_cons. cbn [split]. unfold is_char.
    by rewrite Hx, (IH Hp).
Qed.

Lemma join_cons sep x y r :
  Py.join sep (x :: y :: r) = x +:+ sep +:+ Py.join sep (y :: r).
Proof. reflexivity. Qed.

(** [split] undoes [join] on parts that do not hold the separator. *)
Lemma split_join sep parts :
  parts <> [] -> Forall (fun p => has_char sep p = false) parts ->
  split sep (Py.join (String sep EmptyString) parts) = parts.
Proof.
  induction parts as [| x [| y r] IH]; intros Hne Hall; [done | |].
  - apply split_none. by inversion Hall.
  - rewrite join_cons. change (String sep EmptyString +:+ ?t) with (String sep t).
    inversion Hall as [| ? ? Hx Hrest]; subst.
    rewrite (split_app _ _ _ Hx). f_equal. by apply IH.
Qed.

Lemma has_char_join c sep parts :
  c <> sep -> Forall (fun p => has_char c p = false) parts ->
  has_char c (Py.join (String sep EmptyString) parts) = false.
Proof.
  intros Hc. induction parts as [| x [| y r] IH]; intros Hall; [done | |].
  - by inversion Hall.
  - rewrite join_cons. inversion Hall as [| ? ? Hx Hrest]; subst.
    rewrite has_char_app, Hx. cbn [orb].
    change (String sep EmptyString +:+ ?t) with (String sep t). cbn [has_char].
    rewrite (IH Hrest), orb_false_r.
    destruct (Re.eqc c sep) eqn:E; [| reflexivity]. by apply eqc_eq in E.
Qed.

Lemma length_split sep s : length (split sep s) = S (count_char sep s).
Proof.
  induction s as [| x s IH]; [reflexivity |]. cbn [split count_char].
  unfold is_char. destruct (Re.eqc sep x).
  - cbn [length]. by rewrite IH.
  - destruct (split sep s) as [| p ps]; [discriminate |]. exact IH.
Qed.

Lemma metadata_file_parts
    (dir p0 p1 p2 p3 p4 ext : string) (more : list string) :
  let parts := p0 :: p1 :: p2 :: p3 :: p4 :: more in
  let file := Py.join "_" parts +:+ "." +:+ ext in
  Forall name_part parts -> plain_extension ext ->
  extract_metadata_from_filename (dir +:+ "/" +:+ file)
  = Metadata p0 p1 p2 p3 p4 file
  /\ extract_metadata_from_filename file = Metadata p0 p1 p2 p3 p4 file.
Proof.
  intros parts file Hparts [Hdot Hslash].
  assert (Hu : Forall (fun p => has_char "_" p = false) parts)
    by (eapply Forall_impl; [exact Hparts | by intros ? [? ?]]).
  assert (Hs : Forall (fun p => has_char "/" p = false) parts)
    by (eapply Forall_impl; [exact Hparts | by intros ? [? ?]]).
  assert (Hfile : has_char "/" file = false).
  { unfold file. rewrite has_char_app, (has_char_join "/" "_" parts) by done.
    change ("." +:+ ext) with (String "." ext). cbn [has_char orb].
    by rewrite Hslash. }
  assert (Hroot : all_dots (Py.join "_" parts) = false).
  { apply all_dots_underscore. unfold parts. rewrite join_cons, has_char_app.
    change ("_" +:+ ?t) with (String "_" t). cbn [has_char].
    rewrite eqc_refl. apply orb_true_r. }
  assert (Hmeta : forall path, basename path = file ->
            extract_metadata_from_filename path = Metadata p0 p1 p2 p3 p4 file).
  { intros path Hb. unfold extract_metadata_from_filename. rewrite Hb.
    unfold file at 1. change ("." +:+ ext) with (String "." ext).
    rewrite (splitext_app _ _ Hroot Hdot). cbn [fst].
    by rewrite (split_join "_" parts ltac:(done) Hu). }
  split; apply Hmeta.
  - change ("/" +:+ file) with (String "/" file). by apply basename_in_directory.
  - by apply basename_plain.
Qed.

(** X18.  The naming convention round trip: for a file named
    [p0_p1_p2_p3_p4.ext], in any directory or in none, where no part holds
    an underscore or a slash (dots are allowed) and the extension holds no
    dot and no slash, [extract_metadata_from_filename] returns the five
    parts as source type, unit code, topic, year and unique code, and the
    file name with its extension as original file; parts after the fifth
    are ignored. *)
Theorem metadata_of_a_conventional_name
    (dir p0 p1 p2 p3 p4 ext : string) (more : list string) :
  let parts := p0 :: p1 :: p2 :: p3 :: p4 :: more in
  let file := Py.join "_" parts +:+ "." +:+ ext in
  Forall name_part parts -> plain_extension ext ->
  extract_metadata_from_filename (dir +:+ "/" +:+ file)
  = Metadata p0 p1 p2 p3 p4 file
  /\ extract_metadata_from_filename file = Metadata p0 p1 p2 p3 p4 file.
Proof. apply metadata_file_parts. Qed.

Lemma metadata_of_a_conventional_name_witness :
  extract_metadata_from_filename "./data/PastPaper_CSC231_Firewalls_2024_A1.pdf"
  = Metadata "PastPaper" "CSC231" "Firewalls" "2024" "A1"
      "PastPaper_CSC231_Firewalls_2024_A1.pdf".
Proof.
  apply (metadata_of_a_conventional_name "./data" "PastPaper" "CSC231" "Firewalls"
           "2024" "A1" "pdf" []).
  - repeat constructor.
  - split; reflexivity.
Defined.

(** X19.  [extract_metadata_from_filename] returns its error entry exactly
    when the name of the file, without directory and extension, holds fewer
    than four underscores; the entry names this file name.  Otherwise it
    returns the six entries, the original file being the base name of the
    path. *)
Theorem metadata_error_iff (file_path : string) :
  let file_name := fst (splitext (basename file_path)) in
  ((count_char "_" file_name < 4)%nat ->
   extract_metadata_from_filename file_path = MetadataError file_name)
  /\ ((4 <= count_char "_" file_name)%nat ->
      exists p0 p1 p2 p3 p4,
        extract_metadata_from_filename file_path
        = Metadata p0 p1 p2 p3 p4 (basename file_path)).
Proof.
  intros file_name. unfold extract_metadata_from_filename. fold file_name.
  pose proof (length_split "_" file_name) as Hlen.
  destruct (split "_" file_name) as [| p0 [| p1 [| p2 [| p3 [| p4 r]]]]];
    cbn [length] in Hlen; split; intros H; try lia; try reflexivity.
  by exists p0, p1, p2, p3, p4.
Qed.

Lemma metadata_error_iff_witness :
  extract_metadata_from_filename "./data/lecture_notes_week3.pdf"
  = MetadataError "lecture_notes_week3".
Proof.
  apply (metadata_error_iff "./data/lecture_notes_week3.pdf"). vm_compute. lia.
Defined.

(** X20.  [get_document_loader] chooses the loader by the extension of the
    last component of the path, whatever the case of its letters: for
    [dir/root.ext], where [root] is not made of dots only, it calls the
    constructor of the PDF loader when [ext] is [pdf] in any case and the
    one of the DOCX loader when it is [docx] in any case, and it gives what
    the constructor gives: the loader when the constructor returns, as it
    does for a file that exists, and its exception otherwise.  For every
    other extension it returns [None] without calling a constructor, and so
    it does for a file without a dot in its name and for a file whose name
    is [.pdf] alone, whether the file exists or not. *)
Theorem loader_by_extension (constructs : loader -> bool) (dir root ext : string) :
  has_char "/" root = false -> all_dots root = false -> plain_extension ext ->
  let path := dir +:+ "/" +:+ root +:+ "." +:+ ext in
  get_document_loader constructs path
  = (if String.eqb (Py.lower ext) "pdf"
     then if constructs (PyPDFLoader path)
          then Loader (PyPDFLoader path) else LoaderRaises (PyPDFLoader path)
     else if String.eqb (Py.lower ext) "docx"
     then if constructs (Docx2txtLoader path)
          then Loader (Docx2txtLoader path) else LoaderRaises (Docx2txtLoader path)
     else NoLoader)
  /\ (has_char "." root = false ->
      get_document_loader constructs (dir +:+ "/" +:+ root) = NoLoader)
  /\ get_document_loader constructs (dir +:+ "/" +:+ "." +:+ ext) = NoLoader.
Proof.
  intros Hslash Hroot [Hdot Hes] path.
  assert (Hext : extension path = String "." ext).
  { unfold extension, path. change ("/" +:+ ?t) with (String "/" t).
    change ("." +:+ ext) with (String "." ext).
    rewrite basename_in_directory.
    - by rewrite splitext_app.
    - rewrite has_char_app, Hslash. cbn [has_char orb]. by rewrite Hes. }
  split; [| split].
  - unfold get_document_loader, construct. rewrite Hext.
    change (Py.lower (String "." ext)) with (String "." (Py.lower ext)).
    change ".pdf" with (String "." "pdf"). change ".docx" with (String "." "docx").
    cbn [String.eqb]. change (Ascii.eqb "." ".") with true. cbv iota.
    reflexivity.
  - intros Hnodot. unfold get_document_loader, extension.
    change ("/" +:+ root) with (String "/" root).
    by rewrite basename_in_directory, splitext_plain.
  - unfold get_document_loader, extension.
    change ("/" +:+ ?t) with (String "/" t). change ("." +:+ ext) with (String "." ext).
    rewrite basename_in_directory by (cbn [has_char orb]; by rewrite Hes).
    unfold splitext. cbn [split_last_dot].
    rewrite (split_last_dot_none _ Hdot). unfold is_char.
    change (Re.eqc "." ".") with true. reflexivity.
Qed.

Lemma loader_by_extension_witness :
  get_document_loader (fun _ => true)
    "./data/PastPaper_CSC231_Firewalls_2024_A1.PDF"
  = Loader (PyPDFLoader "./data/PastPaper_CSC231_Firewalls_2024_A1.PDF")
  /\ get_document_loader (fun _ => false)
       "./data/PastPaper_CSC231_Firewalls_2024_A1.PDF"
     = LoaderRaises (PyPDFLoader "./data/PastPaper_CSC231_Firewalls_2024_A1.PDF").
Proof.
  split.
  - apply (loader_by_extension (fun _ => true) "./data"
             "PastPaper_CSC231_Firewalls_2024_A1" "PDF");
      try reflexivity. split; reflexivity.
  - apply (loader_by_extension (fun _ => false) "./data"
             "PastPaper_CSC231_Firewalls_2024_A1" "PDF");
      try reflexivity. split; reflexivity.
Defined.

(* ===================================================================== *)
(** * Walking through a paper                                             *)
(* ===================================================================== *)

Section Walk.
Variable llm : list prompt -> prompt -> option string.
Variable retrieve : search_filter -> string -> list string.

Lemma handle_session_next u st :
  is_active (session st) = true -> asks_next u ->
  handle_session llm retrieve u st = show_next_batch st.
Proof.
  intros Hact (Hnew & Hstop & Hnext). unfold handle_session. run.
  by rewrite Hact, Hnew, Hstop, Hnext.
Qed.

Lemma handle_request_next u sid c s :
  sessions c !! sid = Some s -> well_formed s -> is_active s = true ->
  asks_next u -> current_batch s * 5 < Py.len (questions s) ->
  handle_past_paper_request llm retrieve u sid c
  = (continued s 0 (get_next_batch 5 s).1,
     {| sessions := <[sid := (get_next_batch 5 s).2]> (sessions c);
        calls := calls c |}).
Proof.
  intros Hs Hwf Hact Hu Hlt.
  rewrite (handle_request_existing llm retrieve u sid c s Hs). cbn zeta.
  rewrite handle_session_next by done.
  destruct (show_next_batch_active s (calls c) Hwf Hact) as (r & -> & _ & Hr).
  rewrite (Hr Hlt). cbn [fst snd session llm_calls].
  rewrite <- (get_next_batch_refines 5 s Hwf Hlt).
  unfold continued. rewrite Z.add_0_r. reflexivity.
Qed.

Lemma handle_request_next_completed u sid c s :
  sessions c !! sid = Some s -> well_formed s -> is_active s = true ->
  asks_next u -> Py.len (questions s) <= current_batch s * 5 ->
  handle_past_paper_request llm retrieve u sid c
  = (Return PaperCompleted,
     {| sessions := <[sid := new_session]> (sessions c); calls := calls c |}).
Proof.
  intros Hs Hwf Hact Hu Hge.
  rewrite (handle_request_existing llm retrieve u sid c s Hs). cbn zeta.
  rewrite handle_session_next by done.
  destruct (show_next_batch_active s (calls c) Hwf Hact) as (r & -> & Hr & _).
  rewrite (Hr Hge). cbn [fst snd session llm_calls].
  unfold Spec.nextBatch.
  assert ((Py.len (questions s) <=? current_batch s * 5) = true) as -> by lia.
  reflexivity.
Qed.

Lemma map_enumerate_shift {A B} (f : Z -> A -> B) (l : list A) : forall i,
  map (fun p => f (p.1 + 1) p.2) (Py.enumerate_from i l)
  = map (fun p => f p.1 p.2) (Py.enumerate_from (i + 1) l).
Proof.
  induction l as [| x l IH]; intros i; [reflexivity |].
  cbn [Py.enumerate_from map fst snd]. by rewrite IH.
Qed.

Lemma continued_next s i r :
  continued (get_next_batch 5 s).2 i r = continued s (i + 1) r.
Proof.
  unfold continued.
  cbn [get_next_batch snd unit_code year current_batch total_questions].
  by replace (current_batch s + 1 + i) with (current_batch s + (i + 1)) by lia.
Qed.

Lemma requests_next u sid (n : nat) : forall c s,
  sessions c !! sid = Some s -> well_formed s -> is_active s = true ->
  asks_next u ->
  (current_batch s + Z.of_nat n) * 5 < Py.len (questions s) + 5 ->
  requests llm retrieve (replicate n u) sid c
  = (map (fun p => continued s p.1 p.2) (Py.enumerate (batches 5 n s)),
     {| sessions := <[sid := next_batches 5 n s]> (sessions c);
        calls := calls c |}).
Proof.
  induction n as [| n IH]; intros c s Hs Hwf Hact Hu Hn.
  - cbn [replicate requests batches]. unfold Py.enumerate. cbn [Py.enumerate_from map].
    f_equal. destruct c as [reg log]. cbn [sessions calls] in *.
    cbn [next_batches Nat.iter]. by rewrite insert_id.
  - cbn [replicate requests batches]. cbn zeta.
    assert (Hlt : current_batch s * 5 < Py.len (questions s)) by lia.
    rewrite (handle_request_next u sid c s Hs Hwf Hact Hu Hlt). cbn [fst snd].
    rewrite (IH _ (get_next_batch 5 s).2).
    + cbn [fst snd sessions calls]. f_equal.
      * unfold Py.enumerate. cbn [Py.enumerate_from map fst snd]. f_equal.
        rewrite <- (map_enumerate_shift (continued s)).
        apply map_ext. intros p. apply continued_next.
      * f_equal. rewrite insert_insert_eq. f_equal.
        unfold next_batches. by rewrite Nat.iter_succ_r.
    + cbn [sessions]. apply lookup_insert_eq.
    + by apply well_formed_next.
    + exact Hact.
    + exact Hu.
    + cbn [get_next_batch snd current_batch questions]. lia.
Qed.

End Walk.

(** X21.  Walking through a paper: in an active session whose next [n]
    batches are not empty, [n] requests for the next batch in a row return
    the [n] batches that [n] calls of [get_next_batch(5)] give, each shown
    from the number that follows the questions already delivered and with
    the progress after it; they make no call to the model and leave the
    cursor moved by [n].  When these batches reach the end of the paper,
    they hold, put end to end, every question not yet delivered, in order,
    and one more request answers that the paper is completed and puts the
    default session in the registry. *)
Theorem next_requests_walk_the_paper
    (llm : list prompt -> prompt -> option string)
    (retrieve : search_filter -> string -> list string)
    (u sid : string) (c : chain) (s : PastPaperSession) (n : nat) :
  sessions c !! sid = Some s -> well_formed s -> is_active s = true ->
  asks_next u ->
  (current_batch s + Z.of_nat n) * 5 < Py.len (questions s) + 5 ->
  let walked := requests llm retrieve (replicate n u) sid c in
  walked.1 = map (fun p => continued s p.1 p.2) (Py.enumerate (batches 5 n s))
  /\ walked.2 = {| sessions := <[sid := next_batches 5 n s]> (sessions c);
                   calls := calls c |}
  /\ (Py.len (questions s) <= (current_batch s + Z.of_nat n) * 5 ->
      concat (map fst (batches 5 n s))
      = drop (Z.to_nat (current_batch s * 5)) (questions s)
      /\ handle_past_paper_request llm retrieve u sid walked.2
         = (Return PaperCompleted,
            {| sessions := <[sid := new_session]> (sessions c);
               calls := calls c |})).
Proof.
  intros Hs Hwf Hact Hu Hn walked. subst walked.
  rewrite (requests_next llm retrieve u sid n c s Hs Hwf Hact Hu Hn).
  cbn [fst snd]. split; [reflexivity |]. split; [reflexivity |].
  intros Hend. split.
  - rewrite batches_take_drop by (lia || assumption).
    apply take_ge. rewrite length_drop. destruct Hwf as [_ Hc].
    unfold Py.len in *. lia.
  - destruct (next_batches_cursor 5 n s) as (Hc & Hq & Ha).
    rewrite (handle_request_next_completed llm retrieve u sid _ (next_batches 5 n s));
      cbn [sessions calls].
    + by rewrite insert_insert_eq.
    + apply lookup_insert_eq.
    + clear -Hwf. induction n as [| n IH]; [exact Hwf |].
      unfold next_batches. cbn [Nat.iter]. by apply well_formed_next.
    + by rewrite Ha.
    + exact Hu.
    + rewrite Hc, Hq. exact Hend.
Qed.

Lemma next_requests_walk_the_paper_witness :
  let ok := model_says (Some "ok") in
  (requests ok (store_of []) ["next"] "api" seven_started).1
  = [Return (PaperContinued (Some "CSC231") (Some "2024") (7, 7) 6
               ["Question 6: What is NAT used for?";
                "Question 7: Describe the default deny policy."] false)]
  /\ (handle_past_paper_request ok (store_of []) "next" "api"
        (requests ok (store_of []) ["next"] "api" seven_started).2).1
     = Return PaperCompleted.
Proof.
  intros ok.
  assert (Hwf : well_formed (default new_session (sessions seven_started !! "api")))
    by (split; vm_compute; [reflexivity | discriminate]).
  assert (Hu : asks_next "next") by (repeat split; vm_compute; reflexivity).
  assert (Hs : sessions seven_started !! "api"
               = Some (default new_session (sessions seven_started !! "api")))
    by (vm_compute; reflexivity).
  assert (Hact : is_active (default new_session (sessions seven_started !! "api"))
                 = true) by (vm_compute; reflexivity).
  destruct (next_requests_walk_the_paper ok (store_of []) "next" "api"
              seven_started
              (default new_session (sessions seven_started !! "api")) 1
              Hs Hwf Hact Hu ltac:(vm_compute; reflexivity))
    as (H1 & H2 & H3).
  change (replicate 1 "next") with ["next"] in H1, H3. split.
  - rewrite H1. vm_compute. reflexivity.
  - destruct H3 as [_ H3]; [vm_compute; discriminate |].
    rewrite H3. reflexivity.
Defined.

(* ===================================================================== *)
(** * The messages of the endpoints                                       *)
(* ===================================================================== *)

(** ** Numerals *)

Lemma int_acc_uint d : forall p,
  Py.int_acc (Z.pos p) (NilEmpty.string_of_uint d) = Z.pos (Pos.of_uint_acc d p).
Proof.
  induction d; intros p; cbn [NilEmpty.string_of_uint Py.int_acc Pos.of_uint_acc];
    [reflexivity | ..];
    rewrite <- IHd; f_equal; unfold Py.digit_val; cbn; lia.
Qed.

Lemma int_uint d : Py.int (NilEmpty.string_of_uint d) = Z.of_N (Pos.of_uint d).
Proof.
  unfold Py.int.
  induction d; cbn [NilEmpty.string_of_uint Py.int_acc Pos.of_uint];
    [reflexivity | exact IHd | ..]; apply int_acc_uint.
Qed.

Lemma all_digits_uint d : all_digits (NilEmpty.string_of_uint d) = true.
Proof. induction d; cbn; done. Qed.

Lemma str_nonneg n :
  0 <= n ->
  all_digits (Py.str n) = true /\ Py.str n <> EmptyString
  /\ Py.int (Py.str n) = n.
Proof.
  intros Hn. unfold Py.str. destruct n as [| p | p]; [by vm_compute | | lia].
  cbn [Z.to_int NilZero.string_of_int]. unfold NilZero.string_of_uint.
  pose proof (DecimalPos.Unsigned.to_uint_nonnil p) as Hnil.
  pose proof (DecimalPos.Unsigned.of_to p) as Hof.
  destruct (Pos.to_uint p) eqn:E; [done | ..];
    (split; [apply all_digits_uint | split; [discriminate |]]);
    rewrite int_uint, Hof; reflexivity.
Qed.

Lemma str_neg n :
  n < 0 -> exists t, Py.str n = String "-" t /\ all_digits t = true.
Proof.
  intros Hn. unfold Py.str. destruct n as [| p | p]; [lia | lia |].
  cbn [Z.to_int NilZero.string_of_int]. eexists. split; [reflexivity |].
  unfold NilZero.string_of_uint. destruct (Pos.to_uint p); try apply all_digits_uint.
  reflexivity.
Qed.

Lemma all_digits_numeral t : all_digits t = true -> numeral t = true.
Proof.
  induction t as [| c t IH]; [done |]. cbn [all_digits numeral].
  intros H. apply andb_true_iff in H as [Hc Ht].
  unfold numeral_char. by rewrite Hc, (IH Ht).
Qed.

Lemma numeral_str n : numeral (Py.str n) = true.
Proof.
  destruct (Z_lt_le_dec n 0) as [Hn | Hn].
  - destruct (str_neg n Hn) as (t & -> & Ht). cbn [numeral].
    by rewrite (all_digits_numeral t Ht).
  - apply all_digits_numeral. by apply str_nonneg.
Qed.

(** ** A numeral holds no word of the handler *)

Lemma numeral_char_facts c :
  numeral_char c = true ->
  is_letter c = false /\ Py.is_space c = false /\ Py.lower_char c = c.
Proof.
  destruct c as [[] [] [] [] [] [] [] []]; vm_compute; intros H;
    try discriminate H; done.
Qed.

Lemma lower_char_letter a : is_letter a = true -> is_letter (Py.lower_char a) = true.
Proof.
  destruct a as [[] [] [] [] [] [] [] []]; vm_compute; intros H;
    try discriminate H; done.
Qed.

Lemma lit_numeral w t :
  starts_with_letter w = true -> numeral t = true -> Re.lit w t = None.
Proof.
  destruct w as [| a w]; [done |]. destruct t as [| b t]; [done |].
  cbn [starts_with_letter numeral Re.lit]. intros Ha Hb.
  apply andb_true_iff in Hb as [Hb _].
  destruct (Re.eqc a b) eqn:E; [| reflexivity].
  apply eqc_eq in E as ->. apply numeral_char_facts in Hb as (Hb & _). congruence.
Qed.

Lemma lit_ci_numeral w t :
  starts_with_letter w = true -> numeral t = true -> Re.lit_ci w t = None.
Proof.
  destruct w as [| a w]; [done |]. destruct t as [| b t]; [done |].
  cbn [starts_with_letter numeral Re.lit_ci]. intros Ha Hb.
  apply andb_true_iff in Hb as [Hb _].
  destruct (Re.eqc _ _) eqn:E; [| reflexivity].
  apply eqc_eq in E. apply numeral_char_facts in Hb as (Hb & _ & Hl).
  rewrite Hl in E. apply lower_char_letter in Ha. congruence.
Qed.

Lemma numeral_tail c t : numeral (String c t) = true -> numeral t = true.
Proof. cbn [numeral]. intros H. by apply andb_true_iff in H as [_ H]. Qed.

Lemma lower_numeral t : numeral t = true -> Py.lower t = t.
Proof.
  induction t as [| c t IH]; [done |]. cbn [numeral]. intros H.
  apply andb_true_iff in H as [Hc Ht]. unfold Py.lower in *. cbn [Py.smap].
  apply numeral_char_facts in Hc as (_ & _ & ->). by rewrite (IH Ht).
Qed.

Lemma lower_app a b : Py.lower (a +:+ b) = Py.lower a +:+ Py.lower b.
Proof.
  unfold Py.lower. induction a as [| x a IH]; [by rewrite !string_app_nil |].
  rewrite string_app_cons. cbn [Py.smap]. by rewrite IH, string_app_cons.
Qed.

Lemma existsb_false {A} (f : A -> bool) (l : list A) :
  Forall (fun x => f x = false) l -> existsb f l = false.
Proof. induction 1 as [| x l Hx _ IH]; [done |]. cbn [existsb]. by rewrite Hx, IH. Qed.

Lemma word_here_numeral ws t :
  Forall (fun w => starts_with_letter w = true) ws -> numeral t = true ->
  existsb (word_here t) ws = false.
Proof.
  intros Hws Ht. apply existsb_false. eapply Forall_impl; [exact Hws |].
  intros w Hw. cbn beta. unfold word_here. by rewrite lit_numeral.
Qed.

Lemma search_words_numeral ws t : forall prev,
  Forall (fun w => starts_with_letter w = true) ws -> numeral t = true ->
  search_words ws prev t = false.
Proof.
  induction t as [| c t IH]; intros prev Hws Ht; [done |].
  cbn [search_words]. rewrite (word_here_numeral ws _ Hws Ht), andb_false_r.
  cbn [orb]. apply IH; [exact Hws | by apply numeral_tail in Ht].
Qed.

Lemma search_first_numeral {A} (p : string -> option A) t :
  (forall t', numeral t' = true -> p t' = None) ->
  numeral t = true -> search_first p t = None.
Proof.
  intros Hp. induction t as [| c t IH]; intros Ht; cbn [search_first];
    rewrite (Hp _ Ht); [done |]. apply IH. by apply numeral_tail in Ht.
Qed.

Lemma search_any_numeral (p : string -> bool) t :
  (forall t', numeral t' = true -> p t' = false) ->
  numeral t = true -> search_any p t = false.
Proof.
  intros Hp. induction t as [| c t IH]; intros Ht; cbn [search_any];
    rewrite (Hp _ Ht); [done |]. apply IH. by apply numeral_tail in Ht.
Qed.

Lemma question_number_here_numeral t :
  numeral t = true -> question_number_here t = None.
Proof. intros Ht. unfold question_number_here. by rewrite lit_numeral. Qed.

Lemma any_lit_ci_numeral alts t :
  Forall (fun w => starts_with_letter w = true) alts -> numeral t = true ->
  any_lit_ci alts t = false.
Proof.
  intros Ha Ht. apply existsb_false. eapply Forall_impl; [exact Ha |].
  intros w Hw. cbn beta. by rewrite lit_ci_numeral.
Qed.

Lemma later_on_line_numeral (p : string -> bool) t :
  (forall t', numeral t' = true -> p t' = false) ->
  numeral t = true -> later_on_line p t = false.
Proof.
  intros Hp. induction t as [| c t IH]; intros Ht; cbn [later_on_line];
    rewrite (Hp _ Ht); [done |].
  cbn [orb]. destruct (Re.is_newline c); [done |]. apply IH. by apply numeral_tail in Ht.
Qed.

Lemma chars_numeral cls (n : nat) : forall t t',
  numeral t = true -> chars cls n t = Some t' -> numeral t' = true.
Proof.
  induction n as [| n IH]; intros t t' Ht; cbn [chars]; [by intros [= <-] |].
  destruct t as [| c t]; [discriminate |]. destruct (cls c); [| discriminate].
  apply IH. by apply numeral_tail in Ht.
Qed.

Lemma pattern_phrase_numeral t : numeral t = true -> pattern_phrase t = false.
Proof.
  intros Ht. unfold pattern_phrase. apply existsb_false.
  repeat constructor; cbn beta; by rewrite lit_ci_numeral.
Qed.

Lemma pattern_unit_numeral t : numeral t = true -> pattern_unit t = false.
Proof.
  intros Ht. unfold pattern_unit. destruct t as [| c t]; [done |].
  cbn [chars numeral] in *. apply andb_true_iff in Ht as [Hc _].
  apply numeral_char_facts in Hc as (-> & _). reflexivity.
Qed.

Lemma pattern_year_numeral t : numeral t = true -> pattern_year t = false.
Proof.
  intros Ht. unfold pattern_year.
  destruct (chars Py.is_digit 4 t) as [t' |] eqn:E; [| done].
  cbn [starts]. apply later_on_line_numeral.
  - intros t'' Ht''. apply any_lit_ci_numeral; [repeat constructor | exact Ht''].
  - by apply (chars_numeral _ _ _ _ Ht E).
Qed.

(** ** The message of the clarification endpoint *)

Section ClarifyMessage.
Variable t : string.
Hypothesis t_numeral : numeral t = true.

Let message := "clarify question " +:+ t.

Ltac through_the_prefix :=
  unfold message; rewrite !string_app_cons, string_app_nil; simpl.

Lemma clarify_message_lower : Py.lower message = message.
Proof. unfold message. by rewrite lower_app, (lower_numeral t). Qed.

Lemma clarify_message_next :
  search_words ["next"; "continue"; "more"; "yes"; "proceed"] false message = false.
Proof.
  through_the_prefix. apply search_words_numeral; [repeat constructor | exact t_numeral].
Qed.

Lemma clarify_message_stop :
  search_words ["stop"; "quit"; "exit"; "done"; "finish"] false message = false.
Proof.
  through_the_prefix. apply search_words_numeral; [repeat constructor | exact t_numeral].
Qed.

Lemma clarify_message_answer :
  search_words ["answer"; "my answer"; "i think"; "solution"] false message = false.
Proof.
  through_the_prefix. apply search_words_numeral; [repeat constructor | exact t_numeral].
Qed.

Lemma clarify_message_clarify :
  search_words ["clarify"; "explain"; "help"; "confused"; "understand"] false message
  = true.
Proof. through_the_prefix. reflexivity. Qed.

Lemma clarify_message_not_new : is_new_paper_request message = false.
Proof.
  unfold is_new_paper_request. cbn [existsb].
  assert (search_any pattern_phrase message = false) as ->.
  { through_the_prefix.
    apply search_any_numeral; [apply pattern_phrase_numeral | exact t_numeral]. }
  assert (search_any pattern_unit message = false) as ->.
  { through_the_prefix.
    apply search_any_numeral; [apply pattern_unit_numeral | exact t_numeral]. }
  assert (search_any pattern_year message = false) as ->.
  { through_the_prefix.
    apply search_any_numeral; [apply pattern_year_numeral | exact t_numeral]. }
  reflexivity.
Qed.

Lemma clarify_message_number :
  search_question_number message
  = match Re.digits1 (Re.spaces t) with
    | Some (d, _) => Some (Py.int d)
    | None => None
    end.
Proof.
  unfold search_question_number. through_the_prefix.
  unfold question_number_here at 1. simpl.
  rewrite (search_first_numeral question_number_here t
             question_number_here_numeral t_numeral).
  by destruct (Re.digits1 (Re.spaces t)) as [[d r] |].
Qed.

Lemma clarify_message_intent :
  parse_user_intent message
  = {| wants_next := false; wants_clarification := true; has_answer := false;
       wants_stop := false;
       question_num := match Re.digits1 (Re.spaces t) with
                       | Some (d, _) => Some (Py.int d)
                       | None => None
                       end;
       answer_text := None |}.
Proof.
  unfold parse_user_intent. rewrite clarify_message_lower.
  by rewrite clarify_message_next, clarify_message_clarify, clarify_message_answer,
    clarify_message_stop, clarify_message_number.
Qed.

End ClarifyMessage.

Lemma digits_all_digits_eq t : all_digits t = true -> Re.digits t = (t, EmptyString).
Proof.
  induction t as [| c t IH]; [done |]. cbn [all_digits Re.digits].
  intros H. apply andb_true_iff in H as [Hc Ht]. by rewrite Hc, (IH Ht).
Qed.

(** What the handler reads in the message of the clarification endpoint:
    a clarification of question [n] when [n] is not negative, a
    clarification without a number otherwise. *)
Lemma clarify_message_parsed n :
  is_new_paper_request (Api.clarify_message n) = false
  /\ parse_user_intent (Api.clarify_message n)
     = {| wants_next := false; wants_clarification := true; has_answer := false;
          wants_stop := false;
          question_num := if 0 <=? n then Some n else None;
          answer_text := None |}.
Proof.
  unfold Api.clarify_message.
  split; [apply clarify_message_not_new, numeral_str |].
  rewrite (clarify_message_intent _ (numeral_str n)). f_equal.
  destruct (Z.leb_spec 0 n) as [Hn | Hn].
  - destruct (str_nonneg n Hn) as (Hd & Hne & Hint).
    unfold Re.spaces. rewrite lstrip_text by apply str_starts_with_text.
    unfold Re.digits1. rewrite (digits_all_digits_eq _ Hd).
    destruct (Py.str n); [done |]. by rewrite Hint.
  - destruct (str_neg n Hn) as (t & -> & _). reflexivity.
Qed.

Section ClarifyEndpoint.
Variable llm : list prompt -> prompt -> option string.
Variable retrieve : search_filter -> string -> list string.

Lemma handle_request_clarification_refused u sid c s :
  sessions c !! sid = Some s -> is_active s = true ->
  is_new_paper_request u = false ->
  wants_stop (parse_user_intent u) = false ->
  wants_next (parse_user_intent u) = false ->
  wants_clarification (parse_user_intent u) = true ->
  (forall k, question_num (parse_user_intent u) = Some k ->
             k = 0 \/ Py.len (questions s) < k) ->
  handle_past_paper_request llm retrieve u sid c
  = (Return InvalidQuestionNumber, c).
Proof.
  intros Hs Hact Hnew Hstop Hnext Hclar Hk.
  rewrite (handle_request_existing llm retrieve u sid c s Hs). cbn zeta.
  unfold handle_session. run. rewrite Hact, Hnew, Hstop, Hnext, Hclar.
  cbn [negb orb]. unfold provide_clarification. run. rewrite Hact. cbn [negb].
  destruct (question_num (parse_user_intent u)) as [k |].
  - destruct (Hk k eq_refl) as [-> | Hlt].
    + cbn. rewrite insert_id by done. by destruct c.
    + assert ((Py.len (questions s) <? k) = true) as -> by lia.
      rewrite orb_true_r. cbn. rewrite insert_id by done. by destruct c.
  - cbn. rewrite insert_id by done. by destruct c.
Qed.

End ClarifyEndpoint.

(** X22.  The clarification endpoint of [api.py] sends
    [clarify question <n>] to the handler.  For every integer [n] of at most
    4300 digits, the numbers that [str] writes and [int] reads back, this
    message is read as a request for a clarification and as nothing else
    (not as a new paper, a stop or a request for the next batch), with the
    question number [n] when [n] is not negative.  So, in an active
    session, the endpoint sends the tutoring prompt of [questions[n - 1]] to
    the model when [1 <= n <= len(questions)] and leaves the registry
    untouched; for every other [n] within the limit, negative ones
    included, it answers that the question number is not valid, calls
    nothing and changes nothing. *)
Theorem clarification_endpoint
    (llm : list prompt -> prompt -> option string)
    (retrieve : search_filter -> string -> list string)
    (n : Z) (sid : string) (c : chain) (s : PastPaperSession) :
  Z.abs n < 10 ^ Py.int_max_str_digits ->
  sessions c !! sid = Some s -> is_active s = true ->
  let out := handle_past_paper_request llm retrieve (Api.clarify_message n) sid c in
  (1 <= n <= Py.len (questions s) ->
   exists q, Py.index (questions s) (n - 1) = Some q
     /\ out = (answer_of llm (calls c) (TutorPrompt q) (Clarification n),
               {| sessions := sessions c; calls := calls c ++ [TutorPrompt q] |}))
  /\ (n < 1 \/ Py.len (questions s) < n ->
      out = (Return InvalidQuestionNumber, c)).
Proof.
  intros _ Hs Hact out. subst out.
  destruct (clarify_message_parsed n) as [Hnew Hparse].
  split.
  - intros Hn. destruct (index_in_range (questions s) n Hn) as [q Hq].
    exists q. split; [exact Hq |].
    apply (handle_request_clarification llm retrieve _ sid c s n q); try done.
    unfold asks_clarification. rewrite Hparse, Hnew. cbn.
    assert ((0 <=? n) = true) as -> by lia. done.
  - intros Hn.
    apply (handle_request_clarification_refused llm retrieve _ sid c s);
      try done; try (by rewrite Hparse).
    intros k. rewrite Hparse. cbn [question_num].
    destruct (Z.leb_spec 0 n); [| discriminate]. intros [= <-]. lia.
Qed.

Lemma clarification_endpoint_witness :
  handle_past_paper_request (model_says (Some "ok")) (store_of [])
    (Api.clarify_message 8) "api" seven_started
  = (Return InvalidQuestionNumber, seven_started).
Proof.
  apply (clarification_endpoint (model_says (Some "ok")) (store_of []) 8 "api"
           seven_started (default new_session (sessions seven_started !! "api")));
    [vm_compute; reflexivity | vm_compute; reflexivity | vm_compute; reflexivity |].
  right. vm_compute. reflexivity.
Defined.

(* ===================================================================== *)
(** * The searches of a new paper                                         *)
(* ===================================================================== *)

Lemma relaxed_conditions code yr :
  filter (fun c => is_unit_code_condition c = false)
    ([SourceTypeEq "PastPaper"] ++ when_given code UnitCodeEq ++ when_given yr YearEq)
  = [SourceTypeEq "PastPaper"] ++ when_given yr YearEq.
Proof.
  destruct code as [[| a code] |]; destruct yr as [[| b yr] |]; reflexivity.
Qed.




Import Indexing.

Lemma numeral_or_letter_no_separator c :
  Py.is_upper c = true \/ Py.is_digit c = true ->
  Re.eqc "_" c = false /\ Re.eqc "/" c = false.
Proof.
  destruct c as [[] [] [] [] [] [] [] []]; vm_compute; intros [H | H];
    try discriminate H; done.
Qed.

Lemma unit_code_shape_name_part x : unit_code_shape x = true -> name_part x.
Proof.
  unfold unit_code_shape.
  destruct (chars Py.is_upper 3 x) as [t |] eqn:Hu; [| discriminate].
  destruct (chars Py.is_digit 3 t) as [[| ? ?] |] eqn:Hd; try discriminate.
  intros _.
  apply chars_3 in Hu as (a & b & c & -> & Ha & Hb & Hc).
  apply chars_3 in Hd as (d & e & f & -> & Hd & He & Hf).
  unfold name_part. cbn [has_char].
  destruct (numeral_or_letter_no_separator a (or_introl Ha)) as [-> ->].
  destruct (numeral_or_letter_no_separator b (or_introl Hb)) as [-> ->].
  destruct (numeral_or_letter_no_separator c (or_introl Hc)) as [-> ->].
  destruct (numeral_or_letter_no_separator d (or_intror Hd)) as [-> ->].
  destruct (numeral_or_letter_no_separator e (or_intror He)) as [-> ->].
  destruct (numeral_or_letter_no_separator f (or_intror Hf)) as [-> ->].
  done.
Qed.

Lemma year_shape_name_part y : year_shape y = true -> name_part y.
Proof.
  unfold year_shape.
  destruct y as [| a [| b [| c [| d [| e y]]]]]; cbn [Re.lit]; try discriminate;
    try (repeat match goal with
                | |- context [Re.eqc ?x ?y] => destruct (Re.eqc x y)
                end; discriminate).
  destruct (Re.eqc "2" a) eqn:Ha; [| discriminate].
  destruct (Re.eqc "0" b) eqn:Hb; [| discriminate].
  apply eqc_eq in Ha as <-. apply eqc_eq in Hb as <-.
  intros H. apply andb_true_iff in H as [Hc Hd].
  assert (Py.is_digit c = true) as Hc'.
  { repeat (apply orb_true_iff in Hc as [Hc | Hc]); apply eqc_eq in Hc as ->;
      reflexivity. }
  unfold name_part. cbn [has_char].
  destruct (numeral_or_letter_no_separator c (or_intror Hc')) as [-> ->].
  destruct (numeral_or_letter_no_separator d (or_intror Hd)) as [-> ->].
  done.
Qed.

Lemma shape_truthy (shape : string -> bool) x :
  shape EmptyString = false -> shape x = true -> Py.truthy x = true.
Proof. destruct x; [congruence | done]. Qed.

(** X24.  The naming convention of the indexed files and the first search
    of a new paper agree: when an utterance holds a unit code and a year, a
    file named [PastPaper_<unit code>_<topic>_<year>_<code>.<ext>] (topic
    and code without underscore and slash) is indexed with exactly the
    source type, unit code and year that the first search asks for. *)
Theorem conventional_name_matches_search
    (u code yr dir topic unique ext : string) :
  extract_paper_details u = (Some code, Some yr) ->
  name_part topic -> name_part unique -> plain_extension ext ->
  let file :=
    Py.join "_" ["PastPaper"; code; topic; yr; unique] +:+ "." +:+ ext in
  strict_filter u
  = FilterAnd (conditions_of (extract_metadata_from_filename (dir +:+ "/" +:+ file))).
Proof.
  intros Hd Htopic Hunique Hext file.
  assert (Hcode : unit_code_shape code = true /\ year_shape yr = true).
  { unfold extract_paper_details in Hd. injection Hd as Hc Hy.
    apply search_bounded_some in Hc as [t Hc]. apply unit_here_shape in Hc as [Hc _].
    apply search_bounded_some in Hy as [t' Hy]. apply year_here_shape in Hy as [Hy _].
    done. }
  destruct Hcode as [Hcode Hyr]. subst file.
  destruct (metadata_file_parts dir "PastPaper" code topic yr unique ext [])
    as [-> _].
  - constructor; [split; reflexivity |].
    constructor; [by apply unit_code_shape_name_part |].
    constructor; [exact Htopic |].
    constructor; [by apply year_shape_name_part |].
    constructor; [exact Hunique | constructor].
  - exact Hext.
  - unfold strict_filter. rewrite Hd. cbn [fst snd when_given conditions_of].
    rewrite (shape_truthy unit_code_shape code eq_refl Hcode).
    by rewrite (shape_truthy year_shape yr eq_refl Hyr).
Qed.

Lemma conventional_name_matches_search_witness :
  strict_filter "Go through csc231 2024 past paper"
  = FilterAnd
      (conditions_of
         (extract_metadata_from_filename
            "./data/PastPaper_CSC231_Firewalls_2024_A1.pdf")).
Proof.
  apply (conventional_name_matches_search "Go through csc231 2024 past paper"
           "CSC231" "2024" "./data" "Firewalls" "A1" "pdf");
    try reflexivity; split; reflexivity.
Defined.

(* ===================================================================== *)
(** * The message of the answer endpoint                                  *)
(* ===================================================================== *)



Lemma no_newline_app a b :
  no_newline (a +:+ b) = no_newline a && no_newline b.
Proof.
  induction a as [| c a IH]; [by rewrite string_app_nil |].
  rewrite string_app_cons. cbn [no_newline]. by rewrite IH, andb_assoc.
Qed.




Section AnswerMessage.
Variables (t a : string).
Hypothesis t_digits : all_digits t = true.
Hypothesis t_not_empty : t <> EmptyString.

Let message := "my answer for question " +:+ t +:+ " is " +:+ a.





End AnswerMessage.





(* ===================================================================== *)
(** * The message of the start endpoint                                   *)
(* ===================================================================== *)

Lemma later_on_line_found (p : string -> bool) w r :
  no_newline w = true -> p r = true -> later_on_line p (w +:+ r) = true.
Proof.
  intros Hw Hr. induction w as [| c w IH].
  - rewrite string_app_nil. destruct r; cbn [later_on_line]; by rewrite Hr.
  - cbn [no_newline] in Hw. apply andb_true_iff in Hw as [Hc Hw].
    rewrite string_app_cons. cbn [later_on_line].
    destruct (Re.is_newline c); [discriminate |].
    rewrite (IH Hw). apply orb_true_r.
Qed.

Lemma letter_facts x :
  Py.is_upper (Py.upper_char x) = true ->
  Py.is_word x = true /\ Re.eqc "2" x = false /\ Re.is_newline x = false.
Proof.
  destruct x as [[] [] [] [] [] [] [] []]; vm_compute; intros H;
    try discriminate H; done.
Qed.

Lemma digit_facts x :
  Py.is_digit (Py.upper_char x) = true ->
  Py.upper_char x = x /\ Py.is_digit x = true /\ Py.is_word x = true
  /\ Re.is_newline x = false.
Proof.
  destruct x as [[] [] [] [] [] [] [] []]; vm_compute; intros H;
    try discriminate H; done.
Qed.

Lemma third_digit_facts x :
  Re.eqc x "0" || Re.eqc x "1" || Re.eqc x "2" || Re.eqc x "3" = true ->
  Py.upper_char x = x /\ Re.is_newline x = false.
Proof.
  destruct x as [[] [] [] [] [] [] [] []]; vm_compute; intros H;
    try discriminate H; done.
Qed.

Lemma search_any_here (p : string -> bool) s : p s = true -> search_any p s = true.
Proof. intros H. destruct s; cbn [search_any]; by rewrite H. Qed.

Lemma pattern_phrase_go_through rest :
  later_on_line (any_lit_ci ["past paper"; "exam"; "test"]) rest = true ->
  pattern_phrase ("Go through" +:+ rest) = true.
Proof.
  intros H. unfold pattern_phrase. cbn [existsb].
  assert (Re.lit_ci "start" ("Go through" +:+ rest) = None) as -> by reflexivity.
  assert (Re.lit_ci "begin" ("Go through" +:+ rest) = None) as -> by reflexivity.
  assert (Re.lit_ci "go through" ("Go through" +:+ rest) = Some rest) as ->
    by reflexivity.
  cbn [starts orb]. by rewrite H.
Qed.

Lemma year_here_other x r : Re.eqc "2" x = false -> year_here (String x r) = None.
Proof. intros H. unfold year_here. cbn [Re.lit]. by rewrite H. Qed.

Lemma year_here_found y3 y4 w r :
  Re.eqc y3 "0" || Re.eqc y3 "1" || Re.eqc y3 "2" || Re.eqc y3 "3" = true ->
  Py.is_digit y4 = true -> Py.is_word w = false ->
  year_here (String "2" (String "0" (String y3 (String y4 (String w r)))))
  = Some (String "2" (String "0" (String y3 (String y4 EmptyString)))).
Proof.
  intros H3 H4 Hw. unfold year_here. cbn [Re.lit].
  change (Re.eqc "2" "2") with true. change (Re.eqc "0" "0") with true. cbv iota.
  by rewrite H3, H4, Hw.
Qed.

Lemma unit_here_found a b c d e f w r :
  Py.is_upper a = true -> Py.is_upper b = true -> Py.is_upper c = true ->
  Py.is_digit d = true -> Py.is_digit e = true -> Py.is_digit f = true ->
  Py.is_word w = false ->
  unit_here (String a (String b (String c (String d (String e (String f (String w r)))))))
  = Some (String a (String b (String c (String d (String e (String f EmptyString)))))).
Proof.
  intros Ha Hb Hc Hd He Hf Hw. unfold unit_here. cbn [chars].
  by rewrite Ha, Hb, Hc, Hd, He, Hf, Hw.
Qed.

Section StartMessage.
Variables (a b c d e f y3 y4 : ascii).
Hypothesis a_letter : Py.is_upper (Py.upper_char a) = true.
Hypothesis b_letter : Py.is_upper (Py.upper_char b) = true.
Hypothesis c_letter : Py.is_upper (Py.upper_char c) = true.
Hypothesis d_digit : Py.is_digit (Py.upper_char d) = true.
Hypothesis e_digit : Py.is_digit (Py.upper_char e) = true.
Hypothesis f_digit : Py.is_digit (Py.upper_char f) = true.
Hypothesis y3_digit :
  Re.eqc y3 "0" || Re.eqc y3 "1" || Re.eqc y3 "2" || Re.eqc y3 "3" = true.
Hypothesis y4_digit : Py.is_digit y4 = true.

Let code := String a (String b (String c (String d (String e (String f EmptyString))))).
Let yr := String "2" (String "0" (String y3 (String y4 EmptyString))).
Let message := "Go through " +:+ code +:+ " " +:+ yr +:+ " past paper".

Lemma start_message_is_new : is_new_paper_request message = true.
Proof.
  unfold is_new_paper_request. cbn [existsb].
  assert (search_any pattern_phrase message = true) as ->; [| reflexivity].
  apply search_any_here. unfold message.
  change ("Go through " +:+ code +:+ " " +:+ yr +:+ " past paper")
    with ("Go through" +:+
            (String " " code +:+ " " +:+ yr +:+ " ") +:+ "past paper").
  apply pattern_phrase_go_through.
  apply later_on_line_found; [| reflexivity].
  rewrite !no_newline_app. unfold code, yr. cbn [no_newline].
  destruct (letter_facts a a_letter) as (_ & _ & ->).
  destruct (letter_facts b b_letter) as (_ & _ & ->).
  destruct (letter_facts c c_letter) as (_ & _ & ->).
  destruct (digit_facts d d_digit) as (_ & _ & _ & ->).
  destruct (digit_facts e e_digit) as (_ & _ & _ & ->).
  destruct (digit_facts f f_digit) as (_ & _ & _ & ->).
  destruct (third_digit_facts y3 y3_digit) as (_ & ->).
  rewrite (digit_not_newline y4 y4_digit). reflexivity.
Qed.

Lemma start_message_year : search_bounded year_here false message = Some yr.
Proof.
  unfold message, code, yr. rewrite !string_app_cons, !string_app_nil.
  destruct (letter_facts a a_letter) as (Ha & Ha2 & _).
  destruct (letter_facts b b_letter) as (Hb & _ & _).
  destruct (letter_facts c c_letter) as (Hc & _ & _).
  destruct (digit_facts d d_digit) as (_ & _ & Hd & _).
  destruct (digit_facts e e_digit) as (_ & _ & He & _).
  destruct (digit_facts f f_digit) as (_ & _ & Hf & _).
  simpl.
  rewrite (year_here_other a _ Ha2), Ha, Hb, Hc, Hd, He, Hf. cbv iota.
  by rewrite (year_here_found y3 y4 " " _ y3_digit y4_digit eq_refl).
Qed.

Lemma start_message_unit :
  search_bounded unit_here false (Py.upper message) = Some (Py.upper code).
Proof.
  unfold message, code, yr. rewrite !string_app_cons, !string_app_nil.
  simpl.
  by rewrite (unit_here_found _ _ _ _ _ _ (Py.upper_char " ") _
                a_letter b_letter c_letter d_digit e_digit f_digit eq_refl).
Qed.

Lemma start_message_details :
  extract_paper_details message = (Some (Py.upper code), Some yr).
Proof.
  unfold extract_paper_details. by rewrite start_message_unit, start_message_year.
Qed.

End StartMessage.

Lemma upper_unit_code_shape u :
  unit_code_shape (Py.upper u) = true ->
  exists a b c d e f,
    u = String a (String b (String c (String d (String e (String f EmptyString)))))
    /\ Py.is_upper (Py.upper_char a) = true /\ Py.is_upper (Py.upper_char b) = true
    /\ Py.is_upper (Py.upper_char c) = true /\ Py.is_digit (Py.upper_char d) = true
    /\ Py.is_digit (Py.upper_char e) = true /\ Py.is_digit (Py.upper_char f) = true.
Proof.
  unfold unit_code_shape.
  destruct u as [| a [| b [| c [| d [| e [| f [| g u]]]]]]];
    unfold Py.upper; cbn [Py.smap chars];
    repeat match goal with
           | |- context [if ?x then _ else _] => destruct x eqn:?
           end; try discriminate.
  intros _. by exists a, b, c, d, e, f.
Qed.

Lemma year_shape_inv y :
  year_shape y = true ->
  exists y3 y4,
    y = String "2" (String "0" (String y3 (String y4 EmptyString)))
    /\ Re.eqc y3 "0" || Re.eqc y3 "1" || Re.eqc y3 "2" || Re.eqc y3 "3" = true
    /\ Py.is_digit y4 = true.
Proof.
  unfold year_shape.
  destruct y as [| a [| b [| c [| d [| e y]]]]]; cbn [Re.lit]; try discriminate;
    try (repeat match goal with
                | |- context [Re.eqc ?x ?y] => destruct (Re.eqc x y)
                end; discriminate).
  destruct (Re.eqc "2" a) eqn:Ha; [| discriminate].
  destruct (Re.eqc "0" b) eqn:Hb; [| discriminate].
  apply eqc_eq in Ha as <-. apply eqc_eq in Hb as <-.
  intros H. apply andb_true_iff in H as [Hc Hd]. by exists c, d.
Qed.

(** X26.  The start endpoint of [api.py], given a unit code and a year and
    no message, sends [Go through <unit code> <year> past paper].  When the
    unit code is three letters and three digits, in any case, and the year
    is a year from 2000 to 2039, the handler takes this message as a request
    for a new paper whatever the session holds, an active paper included,
    and reads the unit code in capitals and the year out of it; so the
    first search asks for the source type [PastPaper], this unit code and
    this year, and a paper that is found replaces the paper of the
    session. *)
Theorem start_endpoint
    (llm : list prompt -> prompt -> option string)
    (retrieve : search_filter -> string -> list string)
    (unit_code year sid : string) (message : option string) (c : chain) :
  message = None \/ message = Some EmptyString ->
  unit_code_shape (Py.upper unit_code) = true -> year_shape year = true ->
  let m := Api.start_message (Some unit_code) (Some year) message in
  let st := {| session := default new_session (sessions c !! sid);
               llm_calls := calls c |} in
  m = "Go through " +:+ unit_code +:+ " " +:+ year +:+ " past paper"
  /\ is_new_paper_request m = true
  /\ extract_paper_details m = (Some (Py.upper unit_code), Some year)
  /\ strict_filter m
     = FilterAnd [SourceTypeEq "PastPaper"; UnitCodeEq (Py.upper unit_code);
                  YearEq year]
  /\ handle_past_paper_request llm retrieve m sid c
     = ((start_new_paper retrieve m st).1,
        {| sessions := <[sid := session (start_new_paper retrieve m st).2]>
                         (sessions c);
           calls := calls c |}).
Proof.
  intros Hmsg Hu Hy m st.
  destruct (upper_unit_code_shape _ Hu)
    as (a & b & c0 & d & e & f & -> & Ha & Hb & Hc & Hd & He & Hf).
  destruct (year_shape_inv _ Hy) as (y3 & y4 & -> & Hy3 & Hy4).
  assert (Hm : m = "Go through "
                   +:+ String a (String b (String c0 (String d (String e (String f EmptyString)))))
                   +:+ " " +:+ String "2" (String "0" (String y3 (String y4 EmptyString)))
                   +:+ " past paper").
  { subst m. by destruct Hmsg as [-> | ->]. }
  pose proof (start_message_is_new a b c0 d e f y3 y4 Ha Hb Hc Hd He Hf Hy3 Hy4) as Hnew.
  pose proof (start_message_details a b c0 d e f y3 y4 Ha Hb Hc Hd He Hf Hy3 Hy4) as Hdet.
  rewrite <- Hm in Hnew, Hdet.
  split; [exact Hm |]. split; [exact Hnew |]. split; [exact Hdet |]. split.
  - unfold strict_filter. rewrite Hdet. reflexivity.
  - rewrite handle_request_unfold. cbn zeta. fold st.
    unfold handle_session. run. rewrite Hnew, orb_true_r.
    rewrite get_or_create_insert.
    assert (Hcalls : llm_calls (start_new_paper retrieve m st).2 = calls c).
    { destruct (start_new_paper_cases retrieve m st)
        as [(r & -> & _) | (uc & yr & qs & _ & ->)]; reflexivity. }
    by rewrite Hcalls.
Qed.

Lemma start_endpoint_witness :
  extract_paper_details (Api.start_message (Some "csc231") (Some "2024") None)
  = (Some "CSC231", Some "2024").
Proof.
  apply (start_endpoint (model_says None) (store_of []) "csc231" "2024" "api" None
           new_chain); [by left | reflexivity | reflexivity].
Defined.
